(** * Evernote export migration: a shallow embedding and its properties

    The Python sources (src/converters.py, src/evernote_db.py,
    src/evernote_migration.py, src/evernote_move.py, src/report.py,
    src/persist.py, src/metadata.py) are embedded as Rocq functions:

    - a Python [str] is a [string]; its characters are the code points
      below 256;
    - a [dict] that is only looked up is a [gmap]; a [dict] that is iterated
      (insertion order) is an association list;
    - the file system is a finite map from paths to file contents, together
      with the journal of the operations that changed it;
    - an exception is the [Raise] result of a [result];
    - [src/extractors.py] and [src/constants.py] are not part of the
      sources at hand: the compiled patterns and the two constants are
      taken as parameters (record [Extractors], record [Constants]). *)

From Stdlib Require Import String Ascii List ZArith Lia Bool.
From stdpp Require Import base list gmap strings pretty.

Local Open Scope Z_scope.
Local Open Scope nat_scope.

(** stdpp freezes [String.append] under [simpl]; the proofs below compute
    with it. *)
#[local] Arguments String.append !s1 s2 : simpl nomatch.
#[local] Arguments Ascii.eqb : simpl never.

(** ** Python strings *)

Module PyStr.

(** The characters the sources name. *)
Definition DQUOTE : ascii := "034"%char.
Definition SQUOTE : ascii := "'"%char.
Definition SLASH : ascii := "/"%char.
Definition QMARK : ascii := "?"%char.
Definition EMARK : ascii := "!"%char.
Definition DASH : ascii := "-"%char.
Definition UNDERSCORE : ascii := "_"%char.
Definition NEWLINE : ascii := "010"%char.
Definition HASH : ascii := "#"%char.
Definition COMMA : ascii := ","%char.
Definition DOT : ascii := "."%char.
Definition LBRACKET : ascii := "["%char.
Definition RBRACKET : ascii := "]"%char.

Definition chr (c : ascii) : string := String c "".

(** [s.startswith(p)] *)
Fixpoint startswith (p s : string) : bool :=
  match p, s with
  | EmptyString, _ => true
  | String _ _, EmptyString => false
  | String a p', String b s' => Ascii.eqb a b && startswith p' s'
  end.

(** [s[:n]] and [s[n:]] for [n >= 0] *)
Fixpoint str_take (n : nat) (s : string) : string :=
  match n, s with
  | S n', String c s' => String c (str_take n' s')
  | _, _ => EmptyString
  end.

Fixpoint str_drop (n : nat) (s : string) : string :=
  match n, s with
  | S n', String _ s' => str_drop n' s'
  | _, _ => s
  end.

(** [s[b:e]] for [0 <= b], [0 <= e] *)
Definition slice (b e : nat) (s : string) : string :=
  str_take (e - b) (str_drop b s).

(** [c in s] for a character *)
Fixpoint has_char (c : ascii) (s : string) : bool :=
  match s with
  | EmptyString => false
  | String a s' => Ascii.eqb a c || has_char c s'
  end.

(** [p in s] for a string *)
Fixpoint contains (p s : string) : bool :=
  startswith p s ||
  match s with
  | EmptyString => false
  | String _ s' => contains p s'
  end.

(** [s.replace(old, new)]: the occurrences of [old] are replaced from left
    to right, the search resuming after each replaced occurrence.
    [skip] counts the characters of a replaced occurrence still to pass. *)
Fixpoint replace_from (old new : string) (skip : nat) (s : string) : string :=
  match s with
  | EmptyString => EmptyString
  | String c s' =>
      match skip with
      | S k => replace_from old new k s'
      | O =>
          if startswith old s
          then new +:+ replace_from old new (String.length old - 1) s'
          else String c (replace_from old new 0 s')
      end
  end.

(** With an empty [old], Python inserts [new] before every character and
    at the end. *)
Fixpoint intersperse (new s : string) : string :=
  match s with
  | EmptyString => new
  | String c s' => new +:+ String c (intersperse new s')
  end.

Definition replace (old new s : string) : string :=
  match old with
  | EmptyString => intersperse new s
  | String _ _ => replace_from old new 0 s
  end.

(** [str.isspace] on one character: the code points below 256 that Python
    counts as white space (also what [\s] matches in a [str] pattern). *)
Definition isspace (c : ascii) : bool :=
  match nat_of_ascii c with
  | 9 | 10 | 11 | 12 | 13 | 28 | 29 | 30 | 31 | 32 | 133 | 160 => true
  | _ => false
  end.

Fixpoint lstrip_by (f : ascii -> bool) (s : string) : string :=
  match s with
  | EmptyString => EmptyString
  | String c s' => if f c then lstrip_by f s' else s
  end.

Fixpoint rstrip_by (f : ascii -> bool) (s : string) : string :=
  match s with
  | EmptyString => EmptyString
  | String c s' =>
      match rstrip_by f s' with
      | EmptyString => if f c then EmptyString else chr c
      | r => String c r
      end
  end.

(** [s.strip()] and [s.strip(chars)] *)
Definition strip_by (f : ascii -> bool) (s : string) : string :=
  rstrip_by f (lstrip_by f s).
Definition strip (s : string) : string := strip_by isspace s.
Definition strip_chars (chars s : string) : string :=
  strip_by (fun c => has_char c chars) s.

(** [s.split(sep)] for a one-character separator: never empty. *)
Fixpoint split (sep : ascii) (s : string) : list string :=
  match s with
  | EmptyString => [EmptyString]
  | String c s' =>
      if Ascii.eqb c sep then EmptyString :: split sep s'
      else match split sep s' with
           | w :: ws => String c w :: ws
           | [] => [chr c]
           end
  end.

(** [c.lower()] on a code point below 256: the letters A-Z, and the
    Latin-1 capitals U+00C0-U+00DE but the multiplication sign U+00D7. *)
Definition lower_char (c : ascii) : ascii :=
  let n := nat_of_ascii c in
  if ((65 <=? n) && (n <=? 90)) || ((192 <=? n) && (n <=? 222) && negb (n =? 215))
  then ascii_of_nat (n + 32)
  else c.

Fixpoint lower (s : string) : string :=
  match s with
  | EmptyString => EmptyString
  | String c s' => String (lower_char c) (lower s')
  end.

(** [s.endswith(c)] for a character *)
Fixpoint endswith_char (c : ascii) (s : string) : bool :=
  match s with
  | EmptyString => false
  | String a EmptyString => Ascii.eqb a c
  | String _ s' => endswith_char c s'
  end.

(** [f'{n}'] for a non-negative integer *)
Definition of_nat (n : nat) : string := pretty n.

End PyStr.

(** ** posixpath *)

Module PosixPath.
Import PyStr.

(** [os.path.join(a, b)] *)
Definition join (a b : string) : string :=
  if startswith (chr SLASH) b then b
  else if String.eqb a EmptyString || endswith_char SLASH a then a +:+ b
  else a +:+ chr SLASH +:+ b.

(** [os.path.join(a, b, c)] *)
Definition join3 (a b c : string) : string := join (join a b) c.

(** [os.path.basename(p)]: what follows the last slash. *)
Fixpoint basename (p : string) : string :=
  match p with
  | EmptyString => EmptyString
  | String _ p' => if has_char SLASH p then basename p' else p
  end.

(** [p.rfind(c)], [None] for -1 *)
Fixpoint rfind (c : ascii) (p : string) : option nat :=
  match p with
  | EmptyString => None
  | String a p' =>
      match rfind c p' with
      | Some i => Some (S i)
      | None => if Ascii.eqb a c then Some 0 else None
      end
  end.

Fixpoint all_dots (s : string) : bool :=
  match s with
  | EmptyString => true
  | String c s' => Ascii.eqb c DOT && all_dots s'
  end.

(** [os.path.splitext(p)] (genericpath._splitext): the extension starts at
    the last dot, when that dot comes after the last slash and after a
    character of the file name that is not a dot. *)
Definition splitext (p : string) : string * string :=
  match rfind DOT p with
  | None => (p, EmptyString)
  | Some dotIndex =>
      let filenameIndex :=
        match rfind SLASH p with None => 0 | Some sepIndex => S sepIndex end in
      if (filenameIndex <=? dotIndex) && negb (all_dots (slice filenameIndex dotIndex p))
      then (str_take dotIndex p, str_drop dotIndex p)
      else (p, EmptyString)
  end.

End PosixPath.

(** ** src/converters.py *)

Module Converters.
Import PyStr.

Fixpoint lstrip_dash (s : string) : string :=
  match s with
  | String c s' => if Ascii.eqb c DASH then lstrip_dash s' else s
  | EmptyString => EmptyString
  end.

(** The group [name] of [^-*(?P<name>.+)$] on a line [t] that is not empty
    and has no newline: [-*] is greedy and gives one dash back when the
    line is made of dashes only. *)
Definition leading_dash_group (t : string) : string :=
  match lstrip_dash t with
  | EmptyString => chr DASH
  | u => u
  end.

(** [_REGEX_LEADING_DASH.sub(r'\g<name>', name)].  The pattern is compiled
    without flags: [^] matches at position 0 only, [.] matches anything but
    a newline, and [$] matches at the end or before a final newline.  So
    there is at most one match; it covers the whole of [name] but a final
    newline, and needs that part to be non-empty and free of newlines. *)
Definition REGEX_LEADING_DASH_sub (name : string) : string :=
  let n := String.length name in
  let '(t, nl) :=
    if endswith_char NEWLINE name
    then (str_take (n - 1) name, chr NEWLINE)
    else (name, EmptyString) in
  if String.eqb t EmptyString || has_char NEWLINE t then name
  else leading_dash_group t +:+ nl.

(** [standardize_note_name(name)] *)
Definition standardize_note_name (name : string) : string :=
  replace (chr EMARK) EmptyString
    (replace (chr QMARK) EmptyString
       (replace (chr SLASH) (chr DASH)
          (replace (chr SQUOTE) EmptyString
             (replace (chr DQUOTE) EmptyString
                (REGEX_LEADING_DASH_sub name))))).

(** [_standardize_tag(tag)] *)
Definition _standardize_tag (tag : string) : string :=
  lower (replace (chr UNDERSCORE) EmptyString (replace (chr DASH) EmptyString tag)).

(** The longest prefix without a closing bracket, when a closing bracket
    follows it, and what comes after that bracket. *)
Fixpoint until_rbracket (s : string) : option (string * string) :=
  match s with
  | EmptyString => None
  | String c s' =>
      if Ascii.eqb c RBRACKET then Some (EmptyString, s')
      else match until_rbracket s' with
           | Some (t, rest) => Some (String c t, rest)
           | None => None
           end
  end.

(** [^tags:\s*\[(?P<tags>[^\]]+)\]$] tried at a line start [s]: the group
    [tags] of the match.  [$] (MULTILINE) wants the end of the text or a
    newline after the closing bracket. *)
Definition REGEX_TAGS_match (s : string) : option string :=
  if startswith "tags:" s then
    match lstrip_by isspace (str_drop 5 s) with
    | String c r =>
        if Ascii.eqb c LBRACKET then
          match until_rbracket r with
          | Some (String t ts, rest) =>
              match rest with
              | EmptyString => Some (String t ts)
              | String d _ => if Ascii.eqb d NEWLINE then Some (String t ts) else None
              end
          | _ => None
          end
        else None
    | EmptyString => None
    end
  else None.

(** [_REGEX_TAGS.search(content)]: the first line start, from the left, at
    which the pattern matches ([^] with MULTILINE: position 0 and after
    each newline). *)
Fixpoint REGEX_TAGS_search_from (at_line_start : bool) (s : string) : option string :=
  match (if at_line_start then REGEX_TAGS_match s else None) with
  | Some tags => Some tags
  | None =>
      match s with
      | EmptyString => None
      | String c s' => REGEX_TAGS_search_from (Ascii.eqb c NEWLINE) s'
      end
  end.

Definition REGEX_TAGS_search (content : string) : option string :=
  REGEX_TAGS_search_from true content.

(** [t.strip().strip("'")] *)
Definition clean_token (t : string) : string := strip_chars (chr SQUOTE) (strip t).

(** The body of the loop over the tags. *)
Definition rewrite_tag (content tag : string) : string :=
  let tag_new := _standardize_tag tag in
  if String.eqb tag_new tag then content
  else replace (chr HASH +:+ tag) (chr HASH +:+ tag_new) content.

(** [standardize_tags(content)] *)
Definition standardize_tags (content : string) : string :=
  match REGEX_TAGS_search content with
  | Some tags => fold_left rewrite_tag (map clean_token (split COMMA tags)) content
  | None => content
  end.

End Converters.

(** ** Exceptions, the file system, dates *)

Inductive exn : Type :=
| FileNotFoundError (path : string)
| SameFileError (path : string)
| MoveDuplicateFileError (dest : string)
| ConnectionError
| IndexError
| ValueError (data : string).

Inductive result (A : Type) : Type :=
| Ok (a : A)
| Raise (e : exn).
Arguments Ok {A} a.
Arguments Raise {A} e.

#[export] Instance result_ret : MRet result := fun A a => Ok a.
#[export] Instance result_bind : MBind result := fun A B f m =>
  match m with
  | Ok a => f a
  | Raise e => Raise e
  end.

(** A loop whose body may raise. *)
Fixpoint foldlM {A B : Type} (f : A -> B -> result A) (a : A) (l : list B) : result A :=
  match l with
  | [] => Ok a
  | b :: l' => a' ← f a b; foldlM f a' l'
  end.

Module OS.

(** What changed the file system, oldest first. *)
Inductive fs_op : Type :=
| Written (path content : string)
| Copied (src dst : string)
| Moved (src dst : string).

(** The files (a directory is there when a file under it is) and the
    journal of the changes made. *)
Record FileSystem : Type := {
  files : gmap string string;
  journal : list fs_op
}.

(** [os.path.exists(path)] *)
Definition path_exists (fs : FileSystem) (path : string) : bool :=
  bool_decide (is_Some (files fs !! path)).

(** [os.path.getsize(path)] *)
Definition getsize (fs : FileSystem) (path : string) : result nat :=
  match files fs !! path with
  | Some data => Ok (String.length data)
  | None => Raise (FileNotFoundError path)
  end.

(** [shutil.copy(src, dst)] *)
Definition copy (fs : FileSystem) (src dst : string) : result FileSystem :=
  match files fs !! src with
  | None => Raise (FileNotFoundError src)
  | Some data =>
      if String.eqb src dst then Raise (SameFileError src)
      else Ok {| files := <[dst := data]> (files fs);
                 journal := journal fs ++ [Copied src dst] |}
  end.

(** [shutil.move(src, dst)] of a file that exists to a path that does not *)
Definition move (fs : FileSystem) (src dst : string) : result FileSystem :=
  match files fs !! src with
  | None => Raise (FileNotFoundError src)
  | Some data =>
      Ok {| files := <[dst := data]> (delete src (files fs));
            journal := journal fs ++ [Moved src dst] |}
  end.

End OS.

(** src/persist.py *)
Module Persist.
Import OS.

Definition load_note_content (fs : FileSystem) (note_path : string) : result string :=
  match files fs !! note_path with
  | Some content => Ok content
  | None => Raise (FileNotFoundError note_path)
  end.

Definition save_note_content (fs : FileSystem) (note_path content : string) : FileSystem :=
  {| files := <[note_path := content]> (files fs);
     journal := journal fs ++ [Written note_path content] |}.

End Persist.

(** A [datetime]: the wall-clock reading in seconds since 1970-01-01 00:00:00
    and microseconds, and the offset to UTC of an aware one. *)
Record datetime : Type := {
  dt_seconds : Z;
  dt_microsecond : nat;
  dt_utcoffset : option Z
}.

(** [a == b] on datetimes: an aware and a naive one are never equal, two
    aware ones are compared as instants. *)
Definition datetime_eqb (a b : datetime) : bool :=
  match dt_utcoffset a, dt_utcoffset b with
  | None, None => (dt_seconds a =? dt_seconds b)%Z && (dt_microsecond a =? dt_microsecond b)
  | Some oa, Some ob =>
      (dt_seconds a - oa =? dt_seconds b - ob)%Z && (dt_microsecond a =? dt_microsecond b)
  | _, _ => false
  end.

(** [a >= b] on datetimes; [None] is the TypeError Python raises when one
    is aware and the other naive.  Two aware ones are compared as
    instants. *)
Definition datetime_geb (a b : datetime) : option bool :=
  match dt_utcoffset a, dt_utcoffset b with
  | None, None =>
      Some ((dt_seconds b <? dt_seconds a)%Z
            || ((dt_seconds a =? dt_seconds b)%Z && (dt_microsecond b <=? dt_microsecond a)))
  | Some oa, Some ob =>
      Some ((dt_seconds b - ob <? dt_seconds a - oa)%Z
            || ((dt_seconds a - oa =? dt_seconds b - ob)%Z
                && (dt_microsecond b <=? dt_microsecond a)))
  | _, _ => None
  end.

(** [datetime.fromtimestamp(seconds, timezone.utc)] *)
Definition fromtimestamp_utc (seconds : Z) : datetime :=
  {| dt_seconds := seconds; dt_microsecond := 0; dt_utcoffset := Some 0%Z |}.

(** ** src/evernote_db.py *)

Module EvernoteDB.

Record NoteID : Type := {
  id : string;
  date_created : option datetime
}.

(** A row of [SELECT id, label, created FROM Nodes_Note where deleted IS NULL] *)
Record Row : Type := {
  row_id : string;
  row_label : string;
  row_created : Z
}.

(** The object: the connection is the rows its query yields. *)
Record t : Type := {
  conn : option (list Row);
  is_finalized : bool;
  _map_title_2_id : gmap string (list NoteID);
  map_id_2_container : gmap string string
}.

(** [EvernoteDB(database)] on a database holding [rows]; [None] for
    [database = ''] *)
Definition init (rows : option (list Row)) : t :=
  {| conn := rows; is_finalized := false;
     _map_title_2_id := ∅; map_id_2_container := ∅ |}.

Definition is_connected (db : t) : bool :=
  match conn db with Some _ => true | None => false end.

Section Finalize.
(** [normalize_string] of src/converters.py rests on [unicodedata]; it is
    a parameter here. *)
Variable normalize_string : string -> string.

(** The body of the loop over the rows. *)
Definition finalize_row (m : gmap string (list NoteID)) (row : Row)
  : gmap string (list NoteID) :=
  let title := normalize_string (row_label row) in
  let note_id := {| id := row_id row;
                    date_created := Some (fromtimestamp_utc (row_created row / 1000)%Z) |} in
  match m !! title with
  | Some (n :: ids) => <[title := (n :: ids) ++ [note_id]]> m
  | _ => <[title := [note_id]]> m
  end.

Definition finalize (db : t) : result t :=
  match conn db with
  | None => Raise ConnectionError
  | Some rows =>
      if is_finalized db then Ok db
      else Ok {| conn := conn db; is_finalized := true;
                 _map_title_2_id := fold_left finalize_row rows (_map_title_2_id db);
                 map_id_2_container := map_id_2_container db |}
  end.

(** [get_id_from_note(title, date_created)]: the result and the object
    after the call. *)
Definition get_id_from_note (db : t) (title : option string)
    (date_created : option datetime) : result (option string * t) :=
  match title with
  | None | Some EmptyString => Ok (None, db)
  | Some title =>
      db ← finalize db;
      match _map_title_2_id db !! title with
      | Some [n] => Ok (Some (id n), db)
      | Some (n :: n' :: ids) =>
          match date_created with
          | Some d =>
              let candidates :=
                List.filter
                  (fun n => match EvernoteDB.date_created n with
                            | Some d' => datetime_eqb d' d
                            | None => false
                            end)
                  (n :: n' :: ids) in
              match candidates with
              | [c] => Ok (Some (id c), db)
              | _ => Ok (None, db)
              end
          | None => Ok (None, db)
          end
      | _ => Ok (None, db)
      end
  end.
End Finalize.

Definition add_container_id (db : t) (container id : string) : t :=
  {| conn := conn db; is_finalized := is_finalized db;
     _map_title_2_id := _map_title_2_id db;
     map_id_2_container := <[id := container]> (map_id_2_container db) |}.

Definition get_container_from_id (db : t) (id : string) : option string :=
  map_id_2_container db !! id.

End EvernoteDB.

(** ** src/metadata.py *)

Module NoteMetadata.
Record t : Type := {
  id : option string;
  name : string;
  title : option string;
  size : nat;
  url : option string;
  date_created : option datetime;
  date_updated : option datetime
}.

Definition set_id (m : t) (i : option string) : t :=
  {| id := i; name := name m; title := title m; size := size m; url := url m;
     date_created := date_created m; date_updated := date_updated m |}.
End NoteMetadata.

Module AttachmentMetadata.
Record t : Type := {
  name : string;
  size : nat
}.
End AttachmentMetadata.

Module Note.
Record t : Type := {
  body : NoteMetadata.t;
  attachments : list AttachmentMetadata.t
}.
End Note.

Module Metadata.
Import OS.

(** [get_attachment_metadata(name, attachment_path)] *)
Definition get_attachment_metadata (fs : FileSystem) (name attachment_path : string)
  : result AttachmentMetadata.t :=
  size ← getsize fs attachment_path;
  Ok {| AttachmentMetadata.name := name; AttachmentMetadata.size := size |}.
End Metadata.

(** ** src/report.py *)

Module Report.

(** A line of the CSV file: its cells, as [csv.reader] yields them and as
    [csv.writer] is given them ([None] is written as the empty cell). *)
Definition Line : Type := list string.

Section Csv.
(** [dt.strftime(_DATETIME_FORMAT)], [datetime.strptime(s, _DATETIME_FORMAT)]
    ([None]: ValueError), [str(n)] and [int(s)] ([None]: ValueError) are
    Python's; they are parameters here. *)
Variable strftime : datetime -> string.
Variable strptime : string -> option datetime.
Variable py_int : string -> option nat.

Definition cell (o : option string) : string := default EmptyString o.

Definition _format_datetime (dt : option datetime) : option string :=
  strftime <$> dt.

Definition note_cells (note_metadata : NoteMetadata.t) : list string :=
  [ cell (NoteMetadata.id note_metadata);
    NoteMetadata.name note_metadata;
    cell (NoteMetadata.title note_metadata);
    cell (_format_datetime (NoteMetadata.date_created note_metadata));
    cell (_format_datetime (NoteMetadata.date_updated note_metadata));
    PyStr.of_nat (NoteMetadata.size note_metadata) ].

(** [add_report_csv(report_path, note_metadata, attachments_metadata)]:
    the lines of the report after the call, from those before it. *)
Definition add_report_csv (report : list Line) (note_metadata : NoteMetadata.t)
    (attachments_metadata : list AttachmentMetadata.t) : list Line :=
  match attachments_metadata with
  | [] => report ++ [note_cells note_metadata ++ [EmptyString; EmptyString]]
  | _ =>
      report ++
      map (fun a => note_cells note_metadata ++
                    [AttachmentMetadata.name a; PyStr.of_nat (AttachmentMetadata.size a)])
          attachments_metadata
  end.

Definition _COL_NOTE_ID := 0.
Definition _COL_NOTE_NAME := _COL_NOTE_ID + 1.
Definition _COL_NOTE_TITLE := _COL_NOTE_NAME + 1.
Definition _COL_NOTE_DATE_CREATED := _COL_NOTE_TITLE + 1.
Definition _COL_NOTE_DATE_UPDATED := _COL_NOTE_DATE_CREATED + 1.
Definition _COL_NOTE_SIZE := _COL_NOTE_DATE_UPDATED + 1.
Definition _COL_ATTACHMENT_NAME := _COL_NOTE_SIZE + 1.
Definition _COL_ATTACHMENT_SIZE := _COL_ATTACHMENT_NAME + 1.

(** [line[i]] *)
Definition col (line : Line) (i : nat) : result string :=
  match line !! i with
  | Some s => Ok s
  | None => Raise IndexError
  end.

Definition parse_int (s : string) : result nat :=
  match py_int s with Some n => Ok n | None => Raise (ValueError s) end.

Definition parse_datetime (s : string) : result datetime :=
  match strptime s with Some d => Ok d | None => Raise (ValueError s) end.

Definition _get_note_metadata_from_line (line : Line) : result NoteMetadata.t :=
  i ← col line _COL_NOTE_ID;
  n ← col line _COL_NOTE_NAME;
  t ← col line _COL_NOTE_TITLE;
  sz ← col line _COL_NOTE_SIZE;
  sz ← parse_int sz;
  dc ← col line _COL_NOTE_DATE_CREATED;
  dc ← parse_datetime dc;
  du ← col line _COL_NOTE_DATE_UPDATED;
  du ← parse_datetime du;
  Ok {| NoteMetadata.id := Some i; NoteMetadata.name := n;
        NoteMetadata.title := Some t; NoteMetadata.size := sz;
        NoteMetadata.url := None;
        NoteMetadata.date_created := Some dc;
        NoteMetadata.date_updated := Some du |}.

Definition _get_attachment_metadata_from_line (line : Line)
  : result (option AttachmentMetadata.t) :=
  n ← col line _COL_ATTACHMENT_NAME;
  match n with
  | EmptyString => Ok None
  | _ =>
      sz ← col line _COL_ATTACHMENT_SIZE;
      sz ← parse_int sz;
      Ok (Some {| AttachmentMetadata.name := n; AttachmentMetadata.size := sz |})
  end.

(** The body of the loop of [read_report_csv] over the lines: [notes] and
    [note] are the two variables of the function. *)
Definition read_line (st : list Note.t * option Note.t) (line : Line)
  : result (list Note.t * option Note.t) :=
  let '(notes, note) := st in
  attachment ← _get_attachment_metadata_from_line line;
  '(notes, note) ←
    match note with
    | Some cur =>
        n ← col line _COL_NOTE_NAME;
        if String.eqb (NoteMetadata.name (Note.body cur)) n
        then Ok (notes, cur)
        else
          body ← _get_note_metadata_from_line line;
          Ok (notes ++ [cur], {| Note.body := body; Note.attachments := [] |})
    | None =>
        body ← _get_note_metadata_from_line line;
        Ok (notes, {| Note.body := body; Note.attachments := [] |})
    end;
  match attachment with
  | Some a =>
      Ok (notes, Some {| Note.body := Note.body note;
                         Note.attachments := Note.attachments note ++ [a] |})
  | None => Ok (notes, Some note)
  end.

(** [read_report_csv(report_path)] on the lines of the report *)
Definition read_report_csv (report : list Line) : result (list Note.t) :=
  '(notes, note) ← foldlM read_line ([], None) report;
  match note with
  | Some cur => Ok (notes ++ [cur])
  | None => Ok notes
  end.
End Csv.

End Report.

(** ** src/evernote_move.py *)

Module EvernoteMove.
Import OS PosixPath.

Record t : Type := {
  notebook_path : string;
  dest_path : string;
  dest_attachments_path : string;
  report_path : string;
  date_updated : option datetime
}.

(** [EvernoteMove(notebook_path, dest_path, report_path, date_updated)] *)
Definition init (ATTACHMENTS_FOLDER notebook_path dest_path report_path : string)
    (date_updated : option datetime) : t :=
  {| notebook_path := notebook_path;
     dest_path := dest_path;
     dest_attachments_path := join dest_path ATTACHMENTS_FOLDER;
     report_path := report_path;
     date_updated := date_updated |}.

(** [_move_file(source_path, dest_path)]: whether the file was moved, and
    the file system after the call. *)
Definition _move_file (fs : FileSystem) (source_path dest_path : string)
  : result (bool * FileSystem) :=
  if path_exists fs source_path then
    if path_exists fs dest_path then Raise (MoveDuplicateFileError dest_path)
    else
      fs' ← move fs source_path dest_path;
      Ok (true, fs')
  else Ok (false, fs).

(** [_move_note(note)] with the folder of the attachments as a parameter *)
Definition _move_note (ATTACHMENTS_FOLDER : string) (self : t) (fs : FileSystem)
    (note : Note.t) : result (bool * FileSystem) :=
  '(moved, fs) ← _move_file fs
      (join (notebook_path self) (NoteMetadata.name (Note.body note)))
      (join (dest_path self) (NoteMetadata.name (Note.body note)));
  fs ← foldlM
      (fun fs attachment =>
         '(_, fs) ← _move_file fs
             (join3 (notebook_path self) ATTACHMENTS_FOLDER (AttachmentMetadata.name attachment))
             (join (dest_attachments_path self) (AttachmentMetadata.name attachment));
         Ok fs)
      fs (Note.attachments note);
  Ok (moved, fs).

(** The test of the [filter] of [_filter_notes]: a note without a date of
    update is dropped. *)
Definition updated_since (threshold : datetime) (r : Note.t) : option bool :=
  match NoteMetadata.date_updated (Note.body r) with
  | Some d => datetime_geb d threshold
  | None => Some false
  end.

(** [list(filter(..., notes))]; [None] when a comparison raises. *)
Fixpoint filter_updated (threshold : datetime) (notes : list Note.t)
  : option (list Note.t) :=
  match notes with
  | [] => Some []
  | r :: notes' =>
      keep ← updated_since threshold r;
      rest ← filter_updated threshold notes';
      Some (if keep : bool then r :: rest else rest)
  end.

(** [_filter_notes(notes)]; [None] is the TypeError of a comparison. *)
Definition _filter_notes (self : t) (notes : list Note.t) : option (list Note.t) :=
  match date_updated self with
  | Some threshold => filter_updated threshold notes
  | None => Some notes
  end.

(** The loop of [process] over the notes kept: the count of the notes
    moved, and the file system after the loop. *)
Definition move_notes (ATTACHMENTS_FOLDER : string) (self : t) (fs : FileSystem)
    (notes : list Note.t) : result (nat * FileSystem) :=
  foldlM
    (fun '(count, fs) note =>
       '(moved, fs) ← _move_note ATTACHMENTS_FOLDER self fs note;
       Ok (if moved : bool then count + 1 else count, fs))
    (0, fs) notes.

End EvernoteMove.

(** ** src/evernote_migration.py *)

Module EvernoteMigration.
Import PyStr PosixPath OS Persist.

(** src/constants.py *)
Record Constants : Type := {
  ATTACHMENTS_FOLDER : string;
  NOTE_EXTENSION : string
}.

(** A match of [REGEX_FILE] or [REGEX_IMAGE]: [match.span('path')]. *)
Record PathMatch : Type := {
  path_begin : nat;
  path_end : nat
}.

(** A match of a pattern of [REGEXES_NOTE_LINK]: [match.span('url')],
    [match['id']] and [match['label']]. *)
Record LinkMatch : Type := {
  url_begin : nat;
  url_end : nat;
  link_id : string;
  link_label : string
}.

(** src/extractors.py: [regex.finditer(content)] as a list, for each
    pattern, and the extracting functions. *)
Record Extractors : Type := {
  REGEX_FILE : string -> list PathMatch;
  REGEX_IMAGE : string -> list PathMatch;
  REGEXES_NOTE_LINK : list (string -> list LinkMatch);
  extract_notes_links : string -> list string;
  extract_title : string -> option string;
  extract_url : string -> option string;
  extract_date_created : string -> option datetime;
  extract_date_updated : string -> option datetime
}.

Record t : Type := {
  notebook_path : string;
  report_path : option string;
  report_only : bool;
  keep : bool;
  overwrite : bool
}.

Definition _NOTE_FILENAME : string := "README.md".

(** What [_standardize_note] carries through its scan of the assets: the
    text, the metadata gathered, how many UUIDs were drawn, the files. *)
Record Progress : Type := {
  content : string;
  attachments_metadata : list AttachmentMetadata.t;
  uuid_drawn : nat;
  fs : FileSystem
}.

Section WithParameters.
Variable C : Constants.
Variable X : Extractors.
(** [uuid4 n] is what the [n]-th call of [str(uuid.uuid4())] returns. *)
Variable uuid4 : nat -> string.
Variable normalize_string : string -> string.
Variable self : t.

(** The loop of [_get_note_filename]; [fuel] bounds its iterations. *)
Fixpoint _get_note_filename_loop (fs : FileSystem) (fuel : nat)
    (note_name : string) (count : nat) : option string :=
  let note_path := join (notebook_path self) note_name +:+ NOTE_EXTENSION C in
  if path_exists fs note_path then
    if overwrite self then Some note_path
    else
      match fuel with
      | O => None
      | S fuel' =>
          let count := count + 1 in
          _get_note_filename_loop fs fuel' (note_name +:+ "-" +:+ of_nat count) count
      end
  else Some note_path.

(** [_get_note_filename(note_folder)]: each turn of the loop finds one
    more file, so there are no more turns than files. *)
Definition _get_note_filename (fs : FileSystem) (note_folder : string) : option string :=
  _get_note_filename_loop fs (size (files fs))
    (Converters.standardize_note_name note_folder) 0.

(** The body of the loop over the matches of one pattern.  [scanned] is
    the text the pattern was run on, [attachments] the dict of the
    pattern's turn. *)
Definition scan_match (note_path scanned : string)
    (st : gmap string string * Progress) (m : PathMatch)
  : result (gmap string string * Progress) :=
  let '(attachments, p) := st in
  let asset_path := slice (path_begin m) (path_end m) scanned in
  '(asset_path_new, attachments, metas, drawn, fs) ←
    match attachments !! asset_path with
    | Some (String c new) =>
        Ok (String c new, attachments, attachments_metadata p, uuid_drawn p, fs p)
    | _ =>
        let ext := snd (splitext (basename asset_path)) in
        let asset_name := uuid4 (uuid_drawn p) +:+ ext in
        let asset_path_new := join (ATTACHMENTS_FOLDER C) asset_name in
        fs' ← (if report_only self then Ok (fs p)
               else copy (fs p) (join note_path asset_path)
                         (join (notebook_path self) asset_path_new));
        meta ← Metadata.get_attachment_metadata fs' asset_name (join note_path asset_path);
        Ok (asset_path_new, <[asset_path := asset_path_new]> attachments,
            attachments_metadata p ++ [meta], S (uuid_drawn p), fs')
    end;
  Ok (attachments,
      {| content := str_take (path_begin m) (content p) +:+ asset_path_new
                    +:+ str_drop (path_end m) (content p);
         attachments_metadata := metas;
         uuid_drawn := drawn;
         fs := fs |}).

(** One turn of [for regex in [REGEX_FILE, REGEX_IMAGE]]. *)
Definition scan_regex (note_path : string) (regex : string -> list PathMatch)
    (p : Progress) : result Progress :=
  let matches := regex (content p) in
  '(_, p') ← foldlM (scan_match note_path (content p)) (∅, p) (rev matches);
  Ok p'.

(** The scan of the local assets in [_standardize_note]. *)
Definition scan_assets (note_path : string) (p : Progress) : result Progress :=
  foldlM (fun p regex => scan_regex note_path regex p) p [REGEX_FILE X; REGEX_IMAGE X].

(** [get_note_metadata(name, content)] of src/metadata.py *)
Definition get_note_metadata (name content : string) : NoteMetadata.t :=
  {| NoteMetadata.id := None;
     NoteMetadata.name := name;
     NoteMetadata.title := extract_title X content;
     NoteMetadata.size := String.length content;
     NoteMetadata.url := extract_url X content;
     NoteMetadata.date_created := extract_date_created X content;
     NoteMetadata.date_updated := extract_date_updated X content |}.

(** [_standardize_note(note_folder)].  The loop of [_get_note_filename]
    always ends; a run out of fuel is rendered as the path not found. *)
Definition _standardize_note (fs0 : FileSystem) (db : EvernoteDB.t) (drawn : nat)
    (note_folder : string)
  : result (NoteMetadata.t * list AttachmentMetadata.t * FileSystem * EvernoteDB.t * nat) :=
  let note_path := join (notebook_path self) note_folder in
  content0 ← load_note_content fs0 (join note_path _NOTE_FILENAME);
  p ← scan_assets note_path
         {| content := content0; attachments_metadata := [];
            uuid_drawn := drawn; fs := fs0 |};
  let content1 := Converters.standardize_tags (content p) in
  single_note_path ← match _get_note_filename (fs p) note_folder with
                      | Some path => Ok path
                      | None => Raise (FileNotFoundError note_folder)
                      end;
  let fs1 := if report_only self then fs p
             else save_note_content (fs p) single_note_path content1 in
  let note_metadata := get_note_metadata (basename single_note_path) content1 in
  '(note_metadata, db) ←
    (if EvernoteDB.is_connected db then
       '(i, db) ← EvernoteDB.get_id_from_note normalize_string db
                    (NoteMetadata.title note_metadata)
                    (NoteMetadata.date_created note_metadata);
       let container := basename single_note_path in
       match i with
       | Some (String c i') =>
           Ok (NoteMetadata.set_id note_metadata i,
               EvernoteDB.add_container_id db container (String c i'))
       | _ => Ok (NoteMetadata.set_id note_metadata i, db)
       end
     else Ok (note_metadata, db));
  Ok (note_metadata, attachments_metadata p, fs1, db, uuid_drawn p).

(** The body of the loop over the matches of one link pattern. *)
Definition rewrite_link (db : EvernoteDB.t) (st : string * bool) (m : LinkMatch)
  : string * bool :=
  let '(content, is_dirty) := st in
  match EvernoteDB.get_container_from_id db (link_id m) with
  | Some (String c single_note_path) =>
      (str_take (url_begin m) content +:+ "./" +:+ String c single_note_path
         +:+ str_drop (url_end m) content, true)
  | _ => (content, is_dirty)
  end.

(** One turn of [for regex in REGEXES_NOTE_LINK]. *)
Definition rewrite_links (db : EvernoteDB.t) (st : string * bool)
    (regex : string -> list LinkMatch) : string * bool :=
  fold_left (rewrite_link db) (rev (regex (fst st))) st.

(** The body of the loop of [_process_note_links] over the note files. *)
Definition process_note_links_of (db : EvernoteDB.t) (fs : FileSystem)
    (note_path : string) : result FileSystem :=
  content ← load_note_content fs note_path;
  let '(content, is_dirty) :=
    fold_left (rewrite_links db) (REGEXES_NOTE_LINK X) (content, false) in
  if is_dirty && negb (report_only self)
  then Ok (save_note_content fs note_path content)
  else Ok fs.

(** [_process_note_links()]; [note_files] is what
    [glob(os.path.join(self.notebook_path, '*.md'))] returns. *)
Definition _process_note_links (db : EvernoteDB.t) (note_files : list string)
    (fs : FileSystem) : result FileSystem :=
  if negb (EvernoteDB.is_connected db) then Ok fs
  else foldlM (process_note_links_of db) fs note_files.

(** [map_backlinks]: a dict, in the order of insertion of its keys. *)
Definition Backlinks : Type := list (string * list string).

Fixpoint backlinks_get (m : Backlinks) (container : string) : option (list string) :=
  match m with
  | [] => None
  | (k, v) :: m' => if String.eqb k container then Some v else backlinks_get m' container
  end.

(** [map_backlinks[container] = v] *)
Fixpoint backlinks_set (m : Backlinks) (container : string) (v : list string) : Backlinks :=
  match m with
  | [] => [(container, v)]
  | (k, w) :: m' =>
      if String.eqb k container then (k, v) :: m'
      else (k, w) :: backlinks_set m' container v
  end.

(** The body of the loop over the containers a note links to. *)
Definition add_backlink (note_name : string) (m : Backlinks) (container : string)
  : Backlinks :=
  match backlinks_get m container with
  | Some (n :: linked_notes) => backlinks_set m container ((n :: linked_notes) ++ [note_name])
  | _ => backlinks_set m container [note_name]
  end.

(** The first loop of [_process_backlinks]. *)
Definition collect_backlinks (fs : FileSystem) (note_files : list string)
  : result Backlinks :=
  foldlM
    (fun m note_path =>
       content ← load_note_content fs note_path;
       let containers := map basename (extract_notes_links X content) in
       Ok (fold_left (add_backlink (basename note_path)) containers m))
    [] note_files.

Definition NL : string := chr NEWLINE.

(** [_inject_backlinks(backlinks, content)] *)
Definition _inject_backlinks (backlinks : list string) (content : string) : string :=
  let content := content +:+ (NL +:+ "---" +:+ NL +:+ NL) in
  let content := content +:+ ("## Backlinks" +:+ NL +:+ NL) in
  let backlinks_md :=
    map (fun backlink =>
           "- [" +:+ fst (splitext backlink) +:+ "](./" +:+ backlink +:+ ")" +:+ NL)
        backlinks in
  content +:+ String.concat EmptyString backlinks_md.

(** The second loop of [_process_backlinks]. *)
Definition inject_all (m : Backlinks) (fs : FileSystem) : result FileSystem :=
  foldlM
    (fun fs '(container, backlinks) =>
       let note_path := join (notebook_path self) container in
       content ← load_note_content fs note_path;
       Ok (save_note_content fs note_path (_inject_backlinks backlinks content)))
    fs m.

(** [_process_backlinks()]; [note_files] is what the [glob] returns. *)
Definition _process_backlinks (db : EvernoteDB.t) (note_files : list string)
    (fs : FileSystem) : result FileSystem :=
  if negb (EvernoteDB.is_connected db) then Ok fs
  else
    m ← collect_backlinks fs note_files;
    inject_all m fs.

(** [reduce(lambda x, y: x + len(y), map_backlinks.values(), 0)], the
    count of the backlinks [_process_backlinks] logs. *)
Definition backlinks_count (m : Backlinks) : nat :=
  fold_left (fun x y => x + length y) (map snd m) 0.

End WithParameters.

End EvernoteMigration.

(** ** Vocabulary of the statements *)

Module Vocabulary.
Import PyStr.

(** A name holds one of the characters [standardize_note_name] deletes or
    replaces. *)
Definition has_special (s : string) : bool :=
  has_char DQUOTE s || has_char SQUOTE s || has_char SLASH s
  || has_char QMARK s || has_char EMARK s.

Definition starts_with_dash (s : string) : bool := startswith (chr DASH) s.

(** The five replacements of [standardize_note_name]. *)
Definition strip_specials (s : string) : string :=
  replace (chr EMARK) EmptyString
    (replace (chr QMARK) EmptyString
       (replace (chr SLASH) (chr DASH)
          (replace (chr SQUOTE) EmptyString
             (replace (chr DQUOTE) EmptyString s)))).

(** A text given by its lines. *)
Definition lines (l : list string) : string := String.concat (chr NEWLINE) l.

(** [v] and [w] differ at a position both have: neither starts the other. *)
Fixpoint clash (v w : string) : bool :=
  match v, w with
  | String a v', String b w' => if Ascii.eqb a b then clash v' w' else true
  | _, _ => false
  end.

(** The records of the external source that carry a title, as note
    identifiers, in the order of the scan. *)
Definition note_id_of (row : EvernoteDB.Row) : EvernoteDB.NoteID :=
  {| EvernoteDB.id := EvernoteDB.row_id row;
     EvernoteDB.date_created :=
       Some (fromtimestamp_utc (EvernoteDB.row_created row / 1000)%Z) |}.

Definition candidates (normalize_string : string -> string)
    (rows : list EvernoteDB.Row) (title : string) : list EvernoteDB.NoteID :=
  map note_id_of
    (List.filter (fun row => String.eqb (normalize_string (EvernoteDB.row_label row)) title)
       rows).

(** The stored creation date of a candidate equals the date supplied. *)
Definition created_on (d : datetime) (n : EvernoteDB.NoteID) : bool :=
  match EvernoteDB.date_created n with
  | Some d' => datetime_eqb d' d
  | None => false
  end.

(** The index states of a run over the rows of the external source: the
    object as constructed, and the object once a lookup has scanned the
    source (the containers recorded are free). *)
Definition built_from (normalize_string : string -> string)
    (rows : list EvernoteDB.Row) (db : EvernoteDB.t) : Prop :=
  EvernoteDB.conn db = Some rows /\
  ((EvernoteDB.is_finalized db = false /\ EvernoteDB._map_title_2_id db = ∅) \/
   (EvernoteDB.is_finalized db = true /\
    EvernoteDB._map_title_2_id db
      = fold_left (EvernoteDB.finalize_row normalize_string) rows ∅)).

(** What [_get_note_filename] has appended to the base name after [k]
    turns of its loop, [count] being the counter before them. *)
Fixpoint suffixes (count k : nat) : string :=
  match k with
  | O => EmptyString
  | S k' => "-" +:+ of_nat (count + 1) +:+ suffixes (count + 1) k'
  end.

(** The link resolves: the index has a container, not empty, for its id. *)
Definition resolves (db : EvernoteDB.t) (m : EvernoteMigration.LinkMatch) : bool :=
  match EvernoteDB.get_container_from_id db (EvernoteMigration.link_id m) with
  | Some (String _ _) => true
  | _ => false
  end.

(** One of the link patterns has, in [content], a match that resolves. *)
Definition any_resolves (db : EvernoteDB.t)
    (regexes : list (string -> list EvernoteMigration.LinkMatch)) (content : string) : bool :=
  existsb (fun regex => existsb (resolves db) (regex content)) regexes.

(** The notes that link to [target], one entry per link, in the order the
    documents are scanned and, within a document, the order of its
    links. *)
Definition incoming (X : EvernoteMigration.Extractors) (fs : OS.FileSystem)
    (note_files : list string) (target : string) : list string :=
  flat_map
    (fun note_path =>
       match OS.files fs !! note_path with
       | Some content =>
           map (fun _ => PosixPath.basename note_path)
             (List.filter (String.eqb target)
                (map PosixPath.basename (EvernoteMigration.extract_notes_links X content)))
       | None => []
       end)
    note_files.

(** The matches of one pattern come from left to right and do not
    overlap: each [path] span starts at or after [from], the end of the
    span before it, and all lie within the [len] characters of the text. *)
Fixpoint spans_ok (from : nat) (ms : list EvernoteMigration.PathMatch) (len : nat) : bool :=
  match ms with
  | [] => from <=? len
  | m :: ms' =>
      (from <=? EvernoteMigration.path_begin m)
      && (EvernoteMigration.path_begin m <=? EvernoteMigration.path_end m)
      && spans_ok (EvernoteMigration.path_end m) ms' len
  end.

(** [match['path']] on the text scanned *)
Definition path_of (scanned : string) (m : EvernoteMigration.PathMatch) : string :=
  slice (EvernoteMigration.path_begin m) (EvernoteMigration.path_end m) scanned.

(** The text with each span replaced by the new path of its old one. *)
Fixpoint splice (from : nat) (ms : list EvernoteMigration.PathMatch)
    (new_of : string -> string) (scanned : string) : string :=
  match ms with
  | [] => str_drop from scanned
  | m :: ms' =>
      slice from (EvernoteMigration.path_begin m) scanned
      +:+ new_of (path_of scanned m)
      +:+ splice (EvernoteMigration.path_end m) ms' new_of scanned
  end.

(** How many UUIDs were drawn before the one of the path [x]: the matches
    are taken from the last to the first, so as many as there are distinct
    paths after the last occurrence of [x]. *)
Fixpoint draw_index (paths : list string) (x : string) : nat :=
  match paths with
  | [] => 0
  | _ :: rest =>
      if bool_decide (x ∈ rest) then draw_index rest x
      else length (remove_dups rest)
  end.

(** The extension kept from the original path. *)
Definition ext_of (asset_path : string) : string :=
  snd (PosixPath.splitext (PosixPath.basename asset_path)).

(** The name generated for the path [x] among the [paths] matched by one
    pattern, [drawn] UUIDs having been drawn before the pattern's turn. *)
Definition name_at (uuid4 : nat -> string) (drawn : nat) (paths : list string)
    (x : string) : string :=
  uuid4 (drawn + draw_index paths x) +:+ ext_of x.

(** What [str(uuid.uuid4())] looks like: 36 characters, digits, the
    letters a to f and dashes. *)
Definition is_uuid_char (c : ascii) : bool :=
  let n := nat_of_ascii c in
  ((48 <=? n) && (n <=? 57)) || ((97 <=? n) && (n <=? 102)) || (n =? 45).

Fixpoint all_chars (f : ascii -> bool) (s : string) : bool :=
  match s with
  | EmptyString => true
  | String c s' => f c && all_chars f s'
  end.

Definition is_uuid (s : string) : bool :=
  (String.length s =? 36) && all_chars is_uuid_char s.

(** What a title holds in the index, nothing when it is not a key. *)
Definition listed (m : gmap string (list EvernoteDB.NoteID)) (title : string)
  : list EvernoteDB.NoteID :=
  default [] (m !! title).

(** The path probed for a note name. *)
Definition candidate (C : EvernoteMigration.Constants) (self : EvernoteMigration.t)
    (note_name : string) : string :=
  PosixPath.join (EvernoteMigration.notebook_path self) note_name
  +:+ EvernoteMigration.NOTE_EXTENSION C.

(** What a container holds in the dict of the backlinks. *)
Definition linked (m : EvernoteMigration.Backlinks) (container : string) : list string :=
  default [] (EvernoteMigration.backlinks_get m container).

(** A well-formed dict of backlinks: the keys are distinct and are base
    names, and no list is empty. *)
Definition backlinks_wf (m : EvernoteMigration.Backlinks) : Prop :=
  NoDup (map fst m) /\
  Forall (fun kv => has_char SLASH (fst kv) = false /\ snd kv <> []) m.

(** A document as [process] hands it to the report: its metadata and the
    metadata of its attachments. *)
Definition Document : Type := (NoteMetadata.t * list AttachmentMetadata.t)%type.

(** The report after [add_report_csv] was called for each document. *)
Definition write_all (strftime : datetime -> string) (docs : list Document)
  : list Report.Line :=
  fold_left (fun report doc => Report.add_report_csv strftime report (fst doc) (snd doc))
    docs [].

(** The metadata as the report gives it back: an absent id or title comes
    back as the empty string, the url is not kept, the dates are parsed
    from their formatted form. *)
Definition read_back (reparse : datetime -> datetime) (m : NoteMetadata.t) : NoteMetadata.t :=
  {| NoteMetadata.id := Some (Report.cell (NoteMetadata.id m));
     NoteMetadata.name := NoteMetadata.name m;
     NoteMetadata.title := Some (Report.cell (NoteMetadata.title m));
     NoteMetadata.size := NoteMetadata.size m;
     NoteMetadata.url := None;
     NoteMetadata.date_created := reparse <$> NoteMetadata.date_created m;
     NoteMetadata.date_updated := reparse <$> NoteMetadata.date_updated m |}.

(** The lines written for one document. *)
Definition doc_lines (strftime : datetime -> string) (doc : Document) : list Report.Line :=
  Report.add_report_csv strftime [] (fst doc) (snd doc).

(** The document can be read back: both dates are there, no attachment
    has an empty name, and Python's parsers read what its formatters
    wrote for the dates and the sizes of the document ([reparse d] is the
    date read from the formatted [d]). *)
Definition reportable (strftime : datetime -> string) (strptime : string -> option datetime)
    (py_int : string -> option nat) (reparse : datetime -> datetime)
    (doc : Document) : Prop :=
  (exists d, NoteMetadata.date_created (fst doc) = Some d
             /\ strptime (strftime d) = Some (reparse d)) /\
  (exists d, NoteMetadata.date_updated (fst doc) = Some d
             /\ strptime (strftime d) = Some (reparse d)) /\
  py_int (of_nat (NoteMetadata.size (fst doc))) = Some (NoteMetadata.size (fst doc)) /\
  Forall (fun a => AttachmentMetadata.name a <> EmptyString
                   /\ py_int (of_nat (AttachmentMetadata.size a))
                      = Some (AttachmentMetadata.size a))
    (snd doc).

(** No two documents written one after the other have the same name. *)
Fixpoint names_change (docs : list Document) : Prop :=
  match docs with
  | d :: ((d' :: _) as rest) =>
      NoteMetadata.name (fst d) <> NoteMetadata.name (fst d') /\ names_change rest
  | _ => True
  end.

(** The matches of one link pattern come from left to right and do not
    overlap: each [url] span starts at or after [from], the end of the
    span before it, and all lie within the [len] characters of the text. *)
Fixpoint link_spans_ok (from : nat) (ms : list EvernoteMigration.LinkMatch) (len : nat)
  : bool :=
  match ms with
  | [] => from <=? len
  | m :: ms' =>
      (from <=? EvernoteMigration.url_begin m)
      && (EvernoteMigration.url_begin m <=? EvernoteMigration.url_end m)
      && link_spans_ok (EvernoteMigration.url_end m) ms' len
  end.

(** What stands for the [url] of a link in the rewritten text: the
    relative path of the container when the link resolves, the [url] as
    it was otherwise. *)
Definition url_after (db : EvernoteDB.t) (scanned : string)
    (m : EvernoteMigration.LinkMatch) : string :=
  match EvernoteDB.get_container_from_id db (EvernoteMigration.link_id m) with
  | Some (String c single_note_path) => "./" +:+ String c single_note_path
  | _ => slice (EvernoteMigration.url_begin m) (EvernoteMigration.url_end m) scanned
  end.

(** The text from [from] on, with the [url] of each link replaced. *)
Fixpoint splice_links (db : EvernoteDB.t) (from : nat)
    (ms : list EvernoteMigration.LinkMatch) (scanned : string) : string :=
  match ms with
  | [] => str_drop from scanned
  | m :: ms' =>
      slice from (EvernoteMigration.url_begin m) scanned
      +:+ url_after db scanned m
      +:+ splice_links db (EvernoteMigration.url_end m) ms' scanned
  end.

(** The links of the notes of the folder, note by note. *)
Definition links_found (X : EvernoteMigration.Extractors) (fs : OS.FileSystem)
    (note_files : list string) : list string :=
  flat_map
    (fun note_path =>
       match OS.files fs !! note_path with
       | Some content => EvernoteMigration.extract_notes_links X content
       | None => []
       end)
    note_files.

(** Where the file of an attachment is after the migration, and where
    [_move_note] looks for it. *)
Definition attachment_path (C : EvernoteMigration.Constants) (self : EvernoteMigration.t)
    (a : AttachmentMetadata.t) : string :=
  PosixPath.join3 (EvernoteMigration.notebook_path self)
    (EvernoteMigration.ATTACHMENTS_FOLDER C) (AttachmentMetadata.name a).

(** The journal entry of the copy of an attachment. *)
Definition copy_of (C : EvernoteMigration.Constants) (self : EvernoteMigration.t)
    (op : OS.fs_op) (a : AttachmentMetadata.t) : Prop :=
  exists src, op = OS.Copied src (attachment_path C self a).

(** The scan has gone from [p0] to [p]: no file is gone, and what was
    added is attachments, each with a UUID drawn, its copy in the journal
    and its file. *)
Definition continues (C : EvernoteMigration.Constants) (self : EvernoteMigration.t)
    (p0 p : EvernoteMigration.Progress) : Prop :=
  (forall q, is_Some (OS.files (EvernoteMigration.fs p0) !! q) ->
             is_Some (OS.files (EvernoteMigration.fs p) !! q)) /\
  exists copies atts,
    OS.journal (EvernoteMigration.fs p) = OS.journal (EvernoteMigration.fs p0) ++ copies /\
    EvernoteMigration.attachments_metadata p
    = EvernoteMigration.attachments_metadata p0 ++ atts /\
    Forall2 (copy_of C self) copies atts /\
    Forall (fun a => is_Some (OS.files (EvernoteMigration.fs p) !! attachment_path C self a))
      atts /\
    EvernoteMigration.uuid_drawn p = EvernoteMigration.uuid_drawn p0 + length atts.

(** An aware datetime: it carries its offset to UTC. *)
Definition aware (d : datetime) : bool :=
  match dt_utcoffset d with Some _ => true | None => false end.

(** The moves [_move_note] tries for a note, in their order: the source
    and the destination of the file of the note, then of each
    attachment. *)
Definition note_moves (ATTACHMENTS_FOLDER : string) (self : EvernoteMove.t) (note : Note.t)
  : list (string * string) :=
  (PosixPath.join (EvernoteMove.notebook_path self) (NoteMetadata.name (Note.body note)),
   PosixPath.join (EvernoteMove.dest_path self) (NoteMetadata.name (Note.body note)))
  :: map (fun a =>
            (PosixPath.join3 (EvernoteMove.notebook_path self) ATTACHMENTS_FOLDER
               (AttachmentMetadata.name a),
             PosixPath.join (EvernoteMove.dest_attachments_path self)
               (AttachmentMetadata.name a)))
       (Note.attachments note).

(** No path a file is moved to is a path a file is moved from. *)
Definition apart (moves : list (string * string)) : bool :=
  forallb (fun s => forallb (fun d => negb (String.eqb s d)) (map snd moves))
    (map fst moves).

(** The moves of a list tried one after the other. *)
Definition run_moves (fs : OS.FileSystem) (moves : list (string * string))
  : result OS.FileSystem :=
  foldlM (fun fs m => r ← EvernoteMove._move_file fs (fst m) (snd m); Ok (snd r)) fs moves.

(** The files moved, as the journal records them. *)
Definition moved_entries (moves : list (string * string)) : list OS.fs_op :=
  map (fun m => OS.Moved (fst m) (snd m)) moves.

(** The contents the file system holds, one entry per file. *)
Definition contents (fs : OS.FileSystem) : list string :=
  map snd (map_to_list (OS.files fs)).

End Vocabulary.


(** ** Sample runs *)

Module Samples.
Import OS EvernoteMigration.

Definition sample_constants : Constants :=
  {| ATTACHMENTS_FOLDER := "attachments"; NOTE_EXTENSION := ".md" |}.

Definition sample_uuid4 (n : nat) : string :=
  match n with
  | 0 => "0b5c1d2e-3f4a-4b6c-8d7e-9f0a1b2c3d4e"
  | _ => "7a8b9c0d-1e2f-4a3b-9c4d-5e6f7a8b9c0d"
  end.

Definition sample_self : t :=
  {| notebook_path := "nb"; report_path := None; report_only := false;
     keep := false; overwrite := false |}.

Definition sample_fs : FileSystem :=
  {| files := {[ "nb/My Note/img.png" := "PNG" ]}; journal := [] |}.

(** [[a](img.png) and [b](img.png)]: the path twice, at 4-11 and 21-28. *)
Definition sample_twice : Progress :=
  {| content := "[a](img.png) and [b](img.png)"; attachments_metadata := [];
     uuid_drawn := 0; fs := sample_fs |}.

Definition sample_regex_twice (_ : string) : list PathMatch :=
  [ {| path_begin := 4; path_end := 11 |}; {| path_begin := 21; path_end := 28 |} ].

(** [[a](img.png) and ![b](img.png)]: the file pattern finds the first
    reference, the image pattern the second one, where the first turn
    left it. *)
Definition sample_both : Progress :=
  {| content := "[a](img.png) and ![b](img.png)"; attachments_metadata := [];
     uuid_drawn := 0; fs := sample_fs |}.

Definition sample_extractors : Extractors :=
  {| REGEX_FILE := fun _ => [ {| path_begin := 4; path_end := 11 |} ];
     REGEX_IMAGE := fun _ => [ {| path_begin := 67; path_end := 74 |} ];
     REGEXES_NOTE_LINK := [];
     extract_notes_links := fun _ => [];
     extract_title := fun _ => None;
     extract_url := fun _ => None;
     extract_date_created := fun _ => None;
     extract_date_updated := fun _ => None |}.

(** [[a](img.png) [b](img.png) ![c](img.png)]: the file pattern finds the
    first two references, the image pattern the third one, where the
    first turn left it. *)
Definition sample_mixed : Progress :=
  {| content := "[a](img.png) [b](img.png) ![c](img.png)"; attachments_metadata := [];
     uuid_drawn := 0; fs := sample_fs |}.

Definition sample_extractors_mixed : Extractors :=
  {| REGEX_FILE := fun _ => [ {| path_begin := 4; path_end := 11 |};
                              {| path_begin := 17; path_end := 24 |} ];
     REGEX_IMAGE := fun _ => [ {| path_begin := 121; path_end := 128 |} ];
     REGEXES_NOTE_LINK := [];
     extract_notes_links := fun _ => [];
     extract_title := fun _ => None;
     extract_url := fun _ => None;
     extract_date_created := fun _ => None;
     extract_date_updated := fun _ => None |}.

(** A report with one dated note and its two attachments. *)
Definition sample_date : datetime :=
  {| dt_seconds := 1704164645; dt_microsecond := 0; dt_utcoffset := None |}.

Definition sample_strftime (_ : datetime) : string := "2024-01-02 03:04:05".

Definition sample_strptime (s : string) : option datetime :=
  if String.eqb s "2024-01-02 03:04:05" then Some sample_date else None.

Definition sample_int (s : string) : option nat :=
  if String.eqb s "3" then Some 3
  else if String.eqb s "12" then Some 12
  else None.

Definition sample_note (date : option datetime) : NoteMetadata.t :=
  {| NoteMetadata.id := None; NoteMetadata.name := "my-note.md";
     NoteMetadata.title := Some "My Note"; NoteMetadata.size := 12;
     NoteMetadata.url := None; NoteMetadata.date_created := date;
     NoteMetadata.date_updated := date |}.

Definition sample_attachments : list AttachmentMetadata.t :=
  [ {| AttachmentMetadata.name := "0b5c1d2e-3f4a-4b6c-8d7e-9f0a1b2c3d4e.png";
       AttachmentMetadata.size := 3 |};
    {| AttachmentMetadata.name := "7a8b9c0d-1e2f-4a3b-9c4d-5e6f7a8b9c0d.png";
       AttachmentMetadata.size := 12 |} ].

(** A folder [My Note] to migrate: its note refers to one file. *)
Definition sample_note_fs : FileSystem :=
  {| files := {[ "nb/My Note/README.md" := "[a](img.png)";
                 "nb/My Note/img.png" := "PNG" ]};
     journal := [] |}.

Definition sample_extractors_note : Extractors :=
  {| REGEX_FILE := fun s => if String.eqb s "[a](img.png)"
                            then [ {| path_begin := 4; path_end := 11 |} ] else [];
     REGEX_IMAGE := fun _ => [];
     REGEXES_NOTE_LINK := [];
     extract_notes_links := fun _ => [];
     extract_title := fun _ => Some "My Note";
     extract_url := fun _ => None;
     extract_date_created := fun _ => None;
     extract_date_updated := fun _ => None |}.

Definition sample_self_report : t :=
  {| notebook_path := "nb"; report_path := Some "report.csv"; report_only := true;
     keep := false; overwrite := false |}.

Definition sample_rows : list EvernoteDB.Row :=
  [ {| EvernoteDB.row_id := "n1"; EvernoteDB.row_label := "My Note";
       EvernoteDB.row_created := 0%Z |} ].

(** What the migration of the folder returns and leaves. *)
Definition sample_migrated_content : string :=
  "[a](attachments/0b5c1d2e-3f4a-4b6c-8d7e-9f0a1b2c3d4e.png)".

Definition sample_migrated_note : NoteMetadata.t :=
  {| NoteMetadata.id := Some "n1"; NoteMetadata.name := "My Note.md";
     NoteMetadata.title := Some "My Note"; NoteMetadata.size := 57;
     NoteMetadata.url := None; NoteMetadata.date_created := None;
     NoteMetadata.date_updated := None |}.

Definition sample_migrated_attachments : list AttachmentMetadata.t :=
  [ {| AttachmentMetadata.name := "0b5c1d2e-3f4a-4b6c-8d7e-9f0a1b2c3d4e.png";
       AttachmentMetadata.size := 3 |} ].

Definition sample_migrated_fs : FileSystem :=
  Persist.save_note_content
    {| files := <[ "nb/attachments/0b5c1d2e-3f4a-4b6c-8d7e-9f0a1b2c3d4e.png" := "PNG" ]>
                  (files sample_note_fs);
       journal := [ Copied "nb/My Note/img.png"
                      "nb/attachments/0b5c1d2e-3f4a-4b6c-8d7e-9f0a1b2c3d4e.png" ] |}
    "nb/My Note.md" sample_migrated_content.

Definition sample_migrated_db : EvernoteDB.t :=
  {| EvernoteDB.conn := Some sample_rows;
     EvernoteDB.is_finalized := true;
     EvernoteDB._map_title_2_id :=
       {[ "My Note" := [ {| EvernoteDB.id := "n1";
                            EvernoteDB.date_created := Some (fromtimestamp_utc 0) |} ] ]};
     EvernoteDB.map_id_2_container := {[ "n1" := "My Note.md" ]} |}.

(** Two migrated notes, the first with a link to the second: the [url] of
    the link is at 8-21. *)
Definition sample_link_regex (s : string) : list LinkMatch :=
  if String.eqb s "[Other](evernote:id-1)"
  then [ {| url_begin := 8; url_end := 21; link_id := "id-1"; link_label := "Other" |} ]
  else [].

Definition sample_extractors_links : Extractors :=
  {| REGEX_FILE := fun _ => [];
     REGEX_IMAGE := fun _ => [];
     REGEXES_NOTE_LINK := [sample_link_regex];
     extract_notes_links := fun s => if String.eqb s "[Other](./Other.md)"
                                     then ["./Other.md"] else [];
     extract_title := fun _ => None;
     extract_url := fun _ => None;
     extract_date_created := fun _ => None;
     extract_date_updated := fun _ => None |}.

Definition sample_links_db : EvernoteDB.t :=
  EvernoteDB.add_container_id (EvernoteDB.init (Some [])) "Other.md" "id-1".

Definition sample_links_fs : FileSystem :=
  {| files := {[ "nb/a.md" := "[Other](evernote:id-1)"; "nb/Other.md" := "Other" ]};
     journal := [] |}.

Definition sample_linked_fs : FileSystem :=
  {| files := {[ "nb/a.md" := "[Other](./Other.md)"; "nb/Other.md" := "Other" ]};
     journal := [] |}.

(** A notebook to move to [out]: one note and the first of its two
    attachments are still there. *)
Definition sample_move : EvernoteMove.t :=
  EvernoteMove.init "attachments" "nb" "out" "report.csv" None.

Definition sample_moved_note : Note.t :=
  {| Note.body := sample_note (Some sample_date); Note.attachments := sample_attachments |}.

Definition sample_move_fs : FileSystem :=
  {| files := {[ "nb/my-note.md" := "# My Note";
                 "nb/attachments/0b5c1d2e-3f4a-4b6c-8d7e-9f0a1b2c3d4e.png" := "PNG" ]};
     journal := [] |}.

End Samples.
(** * Properties *)

(** ** Strings *)

Section StringFacts.
Import PyStr.

Lemma str_app_nil_r (s : string) : s +:+ EmptyString = s.
Proof. induction s as [|c s IH]; simpl; [reflexivity | now rewrite IH]. Qed.

Lemma str_app_assoc (a b c : string) : (a +:+ b) +:+ c = a +:+ (b +:+ c).
Proof. induction a as [|x a IH]; simpl; [reflexivity | now rewrite IH]. Qed.

Lemma str_length_app (a b : string) :
  String.length (a +:+ b) = String.length a + String.length b.
Proof. induction a as [|x a IH]; simpl; [reflexivity | now rewrite IH]. Qed.

Lemma str_app_inv_head (a b c : string) : a +:+ b = a +:+ c -> b = c.
Proof. induction a as [|x a IH]; simpl; intros H; [assumption | injection H; auto]. Qed.

Lemma str_app_inv_length (a a' b b' : string) :
  String.length a = String.length a' -> a +:+ b = a' +:+ b' -> a = a' /\ b = b'.
Proof.
  revert a'; induction a as [|x a IH]; intros [|y a'] Hl H; simpl in *; try discriminate.
  - auto.
  - injection H as -> H. injection Hl as Hl.
    destruct (IH _ Hl H) as [-> ->]; auto.
Qed.

Lemma startswith_app (p t : string) : startswith p (p +:+ t) = true.
Proof.
  induction p as [|c p IH]; simpl; [reflexivity|].
  now rewrite Ascii.eqb_refl, IH.
Qed.

Lemma startswith_inv (p s : string) :
  startswith p s = true -> s = p +:+ str_drop (String.length p) s.
Proof.
  revert s; induction p as [|c p IH]; intros [|d s]; simpl; try reflexivity; try discriminate.
  intros H. apply andb_true_iff in H as [Hc Hp].
  apply Ascii.eqb_eq in Hc as ->. now rewrite <- (IH _ Hp).
Qed.

Lemma startswith_nil_r (p : string) : startswith p EmptyString = true -> p = EmptyString.
Proof. destruct p; simpl; [reflexivity | discriminate]. Qed.

Lemma str_take_drop (n : nat) (s : string) : str_take n s +:+ str_drop n s = s.
Proof.
  revert s; induction n as [|n IH]; intros [|c s]; simpl; try reflexivity.
  now rewrite IH.
Qed.

Lemma str_take_length (n : nat) (s : string) :
  n <= String.length s -> String.length (str_take n s) = n.
Proof.
  revert s; induction n as [|n IH]; intros [|c s]; simpl; intros H; try lia.
  rewrite IH; lia.
Qed.

Lemma str_take_app_le (n : nat) (a b : string) :
  n <= String.length a -> str_take n (a +:+ b) = str_take n a.
Proof.
  revert a; induction n as [|n IH]; intros a H; [reflexivity|].
  destruct a as [|c a]; simpl in *; [lia|].
  rewrite IH; [reflexivity | lia].
Qed.

Lemma str_take_take (n m : nat) (s : string) :
  n <= m -> str_take n (str_take m s) = str_take n s.
Proof.
  revert m s; induction n as [|n IH]; intros [|m] [|c s] H; simpl; try reflexivity; try lia.
  rewrite IH; [reflexivity | lia].
Qed.

Lemma str_drop_app_length (a b : string) : str_drop (String.length a) (a +:+ b) = b.
Proof. induction a as [|c a IH]; simpl; [now destruct b | assumption]. Qed.

Lemma str_take_app_length (a b : string) : str_take (String.length a) (a +:+ b) = a.
Proof. induction a as [|c a IH]; simpl; [now destruct b | now rewrite IH]. Qed.

Lemma str_drop_0 (s : string) : str_drop 0 s = s.
Proof. now destruct s. Qed.

Lemma str_drop_nil (n : nat) : str_drop n EmptyString = EmptyString.
Proof. now destruct n. Qed.

Lemma str_drop_drop (n m : nat) (s : string) : str_drop n (str_drop m s) = str_drop (m + n) s.
Proof.
  revert s; induction m as [|m IH]; intros s; simpl; [reflexivity|].
  destruct s as [|c s]; [apply str_drop_nil | apply IH].
Qed.

Lemma str_take_nil (n : nat) : str_take n EmptyString = EmptyString.
Proof. now destruct n. Qed.

Lemma str_take_split (k b : nat) (s : string) :
  k <= b -> str_take b s = str_take k s +:+ slice k b s.
Proof.
  unfold slice. revert b s; induction k as [|k IH]; intros b s H; simpl.
  - now rewrite Nat.sub_0_r.
  - destruct b as [|b]; [lia|]. destruct s as [|c s]; simpl; [now rewrite str_take_nil|].
    rewrite (IH b s); [reflexivity | lia].
Qed.

Lemma has_char_app (c : ascii) (a b : string) :
  has_char c (a +:+ b) = has_char c a || has_char c b.
Proof. induction a as [|x a IH]; simpl; [reflexivity | now rewrite IH, orb_assoc]. Qed.

(** [replace] of one character, character by character *)
Lemma replace_chr_cons (c : ascii) (new : string) (a : ascii) (s : string) :
  replace (chr c) new (String a s) =
  (if Ascii.eqb c a then new else chr a) +:+ replace (chr c) new s.
Proof.
  unfold replace, chr. simpl.
  destruct (Ascii.eqb c a); simpl; reflexivity.
Qed.

Lemma replace_chr_nil (c : ascii) (new : string) : replace (chr c) new EmptyString = EmptyString.
Proof. reflexivity. Qed.

Lemma replace_chr_absent (c : ascii) (new s : string) :
  has_char c s = false -> replace (chr c) new s = s.
Proof.
  induction s as [|a s IH]; [reflexivity|].
  intros H. simpl in H. apply orb_false_iff in H as [Ha Hs].
  rewrite replace_chr_cons, (Ascii.eqb_sym c a), Ha, (IH Hs). reflexivity.
Qed.

Lemma has_char_replace_chr (d c : ascii) (new s : string) :
  has_char d (replace (chr c) new s) =
  (has_char c s && has_char d new) || (negb (Ascii.eqb c d) && has_char d s).
Proof.
  induction s as [|a s IH]; [now rewrite andb_false_r|].
  rewrite replace_chr_cons, has_char_app, IH. simpl.
  rewrite (Ascii.eqb_sym a c).
  destruct (Ascii.eqb_spec c a) as [->|Hca]; simpl.
  - destruct (Ascii.eqb_spec a d) as [->|Had]; simpl.
    + destruct (has_char d new), (has_char d s); reflexivity.
    + destruct (has_char d new), (has_char a s), (has_char d s); reflexivity.
  - destruct (Ascii.eqb_spec a d) as [->|Had]; simpl.
    + destruct (Ascii.eqb_spec c d) as [->|_]; [congruence|]. simpl.
      now rewrite orb_true_r.
    + reflexivity.
Qed.

End StringFacts.

(** ** Note names (src/converters.py) *)

Section NoteNames.
Import PyStr Converters Vocabulary.

Lemma has_special_false (s : string) :
  has_special s = false <->
  has_char DQUOTE s = false /\ has_char SQUOTE s = false /\ has_char SLASH s = false
  /\ has_char QMARK s = false /\ has_char EMARK s = false.
Proof.
  unfold has_special. rewrite !orb_false_iff. tauto.
Qed.

Lemma standardize_note_name_unfold (x : string) :
  standardize_note_name x = strip_specials (REGEX_LEADING_DASH_sub x).
Proof. reflexivity. Qed.

Lemma strip_specials_clean (s : string) : has_special (strip_specials s) = false.
Proof.
  apply has_special_false. unfold strip_specials.
  repeat split; rewrite !has_char_replace_chr; simpl;
    rewrite ?andb_false_r, ?andb_false_l, ?orb_false_r; reflexivity.
Qed.

Lemma strip_specials_id (s : string) : has_special s = false -> strip_specials s = s.
Proof.
  intros H. apply has_special_false in H as (H1 & H2 & H3 & H4 & H5).
  unfold strip_specials.
  rewrite (replace_chr_absent DQUOTE _ s H1), (replace_chr_absent SQUOTE _ s H2),
    (replace_chr_absent SLASH _ s H3), (replace_chr_absent QMARK _ s H4),
    (replace_chr_absent EMARK _ s H5).
  reflexivity.
Qed.

Lemma has_char_lstrip_dash (c : ascii) (s : string) :
  has_char c s = false -> has_char c (lstrip_dash s) = false.
Proof.
  induction s as [|a s IH]; [reflexivity|]. intros H. simpl.
  destruct (Ascii.eqb a DASH); [|assumption].
  simpl in H. apply orb_false_iff in H as [_ H]. auto.
Qed.

Lemma has_char_leading_dash_group (c : ascii) (t : string) :
  c <> DASH -> has_char c t = false -> has_char c (leading_dash_group t) = false.
Proof.
  intros Hc H. unfold leading_dash_group.
  pose proof (has_char_lstrip_dash c t H) as H'.
  destruct (lstrip_dash t); [|assumption].
  simpl. rewrite orb_false_r. apply Ascii.eqb_neq. congruence.
Qed.

Lemma has_char_str_take (c : ascii) (n : nat) (s : string) :
  has_char c s = false -> has_char c (str_take n s) = false.
Proof.
  revert s; induction n as [|n IH]; intros [|a s] H; try reflexivity.
  simpl in *. apply orb_false_iff in H as [-> H]. simpl. auto.
Qed.

Lemma endswith_char_inv (c : ascii) (s : string) :
  endswith_char c s = true -> s = str_take (String.length s - 1) s +:+ chr c.
Proof.
  induction s as [|a s IH]; [discriminate|].
  destruct s as [|b s].
  - simpl. intros H. apply Ascii.eqb_eq in H as ->. reflexivity.
  - intros H. change (endswith_char c (String b s) = true) in H.
    specialize (IH H). simpl in IH |- *. rewrite Nat.sub_0_r in IH.
    now rewrite <- IH.
Qed.

Lemma endswith_char_app (c : ascii) (t : string) : endswith_char c (t +:+ chr c) = true.
Proof.
  induction t as [|a t IH]; simpl; [apply Ascii.eqb_refl|].
  destruct (t +:+ chr c) eqn:E; [destruct t; discriminate | assumption].
Qed.

Lemma endswith_char_has (c : ascii) (s : string) :
  endswith_char c s = true -> has_char c s = true.
Proof.
  induction s as [|a s IH]; [discriminate|].
  destruct s as [|b s].
  - simpl. intros ->. reflexivity.
  - intros H. change (endswith_char c (String b s) = true) in H.
    change (Ascii.eqb a c || has_char c (String b s) = true).
    rewrite (IH H). apply orb_true_r.
Qed.

(** What the substitution does: nothing, or it rewrites the one line. *)
Lemma sub_cases (s : string) :
  REGEX_LEADING_DASH_sub s = s \/
  exists t nl, s = t +:+ nl /\ (nl = EmptyString \/ nl = chr NEWLINE) /\
               t <> EmptyString /\ has_char NEWLINE t = false /\
               REGEX_LEADING_DASH_sub s = leading_dash_group t +:+ nl.
Proof.
  unfold REGEX_LEADING_DASH_sub.
  destruct (endswith_char NEWLINE s) eqn:E.
  - destruct (String.eqb_spec (str_take (String.length s - 1) s) EmptyString) as [E0|E0];
      [left; reflexivity|].
    destruct (has_char NEWLINE (str_take (String.length s - 1) s)) eqn:E1;
      [left; reflexivity|].
    right. exists (str_take (String.length s - 1) s), (chr NEWLINE).
    simpl. repeat split; auto using endswith_char_inv.
  - destruct (String.eqb_spec s EmptyString) as [E0|E0]; [left; reflexivity|].
    destruct (has_char NEWLINE s) eqn:E1; [left; reflexivity|].
    right. exists s, EmptyString. simpl.
    rewrite str_app_nil_r. repeat split; auto.
Qed.

Lemma sub_line (t nl : string) :
  t <> EmptyString -> has_char NEWLINE t = false ->
  nl = EmptyString \/ nl = chr NEWLINE ->
  REGEX_LEADING_DASH_sub (t +:+ nl) = leading_dash_group t +:+ nl.
Proof.
  intros Ht Hn [-> | ->]; unfold REGEX_LEADING_DASH_sub.
  - rewrite str_app_nil_r.
    destruct (endswith_char NEWLINE t) eqn:E.
    { apply endswith_char_has in E. congruence. }
    apply String.eqb_neq in Ht. rewrite Ht, Hn. reflexivity.
  - rewrite endswith_char_app.
    replace (String.length (t +:+ chr NEWLINE) - 1) with (String.length t)
      by (rewrite str_length_app; simpl; lia).
    rewrite str_take_app_length.
    apply String.eqb_neq in Ht. rewrite Ht, Hn. reflexivity.
Qed.

Lemma lstrip_dash_fix (s : string) : lstrip_dash (lstrip_dash s) = lstrip_dash s.
Proof.
  induction s as [|a s IH]; [reflexivity|]. simpl.
  destruct (Ascii.eqb a DASH) eqn:E; [assumption|]. simpl. now rewrite E.
Qed.

Lemma leading_dash_group_fix (t : string) :
  leading_dash_group (leading_dash_group t) = leading_dash_group t.
Proof.
  unfold leading_dash_group.
  destruct (lstrip_dash t) eqn:E; [reflexivity|].
  rewrite <- E, lstrip_dash_fix, E. reflexivity.
Qed.

Lemma leading_dash_group_nonempty (t : string) : leading_dash_group t <> EmptyString.
Proof. unfold leading_dash_group. destruct (lstrip_dash t); discriminate. Qed.

Lemma leading_dash_group_id (t : string) :
  t <> EmptyString -> starts_with_dash t = false -> leading_dash_group t = t.
Proof.
  destruct t as [|a t]; [congruence|]. intros _ H.
  unfold starts_with_dash in H. simpl in H. rewrite andb_true_r in H.
  unfold leading_dash_group. simpl. rewrite Ascii.eqb_sym, H. reflexivity.
Qed.

(** The substitution is idempotent. *)
Lemma sub_idempotent (s : string) :
  REGEX_LEADING_DASH_sub (REGEX_LEADING_DASH_sub s) = REGEX_LEADING_DASH_sub s.
Proof.
  destruct (sub_cases s) as [E | (t & nl & -> & Hnl & Ht & Hn & E)].
  - now rewrite E.
  - rewrite E, sub_line; auto using leading_dash_group_nonempty.
    + now rewrite leading_dash_group_fix.
    + apply has_char_leading_dash_group; [discriminate | assumption].
Qed.

Lemma sub_no_dash (s : string) :
  starts_with_dash s = false -> REGEX_LEADING_DASH_sub s = s.
Proof.
  intros H.
  destruct (sub_cases s) as [E | (t & nl & -> & Hnl & Ht & Hn & E)]; [assumption|].
  rewrite E, leading_dash_group_id; auto.
  destruct t as [|a t]; [congruence|]. exact H.
Qed.

Lemma has_char_sub (c : ascii) (s : string) :
  c <> DASH -> has_char c s = false -> has_char c (REGEX_LEADING_DASH_sub s) = false.
Proof.
  intros Hc H.
  destruct (sub_cases s) as [E | (t & nl & -> & Hnl & Ht & Hn & E)]; [now rewrite E|].
  rewrite E. rewrite has_char_app in H |- *. apply orb_false_iff in H as [H1 H2].
  rewrite has_char_leading_dash_group; auto.
Qed.

Lemma has_special_sub (s : string) :
  has_special s = false -> has_special (REGEX_LEADING_DASH_sub s) = false.
Proof.
  rewrite !has_special_false. intros (H1 & H2 & H3 & H4 & H5).
  repeat split; apply has_char_sub; auto; discriminate.
Qed.

(** On a name without the five characters, standardizing is the
    substitution alone. *)
Lemma standardize_note_name_clean (x : string) :
  has_special x = false -> standardize_note_name x = REGEX_LEADING_DASH_sub x.
Proof.
  intros H. rewrite standardize_note_name_unfold.
  apply strip_specials_id, has_special_sub, H.
Qed.

Lemma standardize_note_name_no_special (x : string) :
  has_special (standardize_note_name x) = false.
Proof. rewrite standardize_note_name_unfold. apply strip_specials_clean. Qed.

(** A second pass always reaches a fixed point. *)
Lemma standardize_note_name_third (x : string) :
  standardize_note_name (standardize_note_name (standardize_note_name x))
  = standardize_note_name (standardize_note_name x).
Proof.
  pose proof (standardize_note_name_no_special x) as H.
  rewrite (standardize_note_name_clean _ H).
  rewrite (standardize_note_name_clean _ (has_special_sub _ H)).
  apply sub_idempotent.
Qed.

(** C8, as amended: note-name standardization is idempotent on every name
    that holds none of the characters it deletes or replaces (double
    quote, single quote, slash, question mark, exclamation mark), and on
    every name whose standardized form does not start with a dash. *)
Theorem standardize_note_name_idempotent (x : string) :
  has_special x = false \/ starts_with_dash (standardize_note_name x) = false ->
  standardize_note_name (standardize_note_name x) = standardize_note_name x.
Proof.
  intros [H | H].
  - rewrite (standardize_note_name_clean x H).
    rewrite (standardize_note_name_clean _ (has_special_sub _ H)).
    apply sub_idempotent.
  - rewrite (standardize_note_name_clean _ (standardize_note_name_no_special x)).
    apply sub_no_dash, H.
Qed.

Lemma standardize_note_name_idempotent_witness :
  standardize_note_name (standardize_note_name "--Meeting notes")
  = standardize_note_name "--Meeting notes".
Proof.
  apply standardize_note_name_idempotent. left. reflexivity.
Defined.

(** C8, as stated, fails: deleting a quote uncovers a dash that the first
    pass did not strip and the second pass strips. *)
Lemma standardize_note_name_not_idempotent :
  standardize_note_name "'-draft'" = "-draft" /\
  standardize_note_name (standardize_note_name "'-draft'") = "draft" /\
  standardize_note_name (standardize_note_name "'-draft'")
    <> standardize_note_name "'-draft'".
Proof. repeat split; vm_compute; congruence. Qed.

End NoteNames.

(** ** Tags (src/converters.py) *)

Section Replace.
Import PyStr Vocabulary.

Lemma replace_from_skip (old new : string) (k : nat) (s : string) :
  replace_from old new k s = replace_from old new 0 (str_drop k s).
Proof.
  revert k; induction s as [|c s IH]; intros k.
  - now rewrite str_drop_nil.
  - destruct k as [|k]; [reflexivity|]. simpl. apply IH.
Qed.

Lemma replace_from_hit (old new s : string) :
  old <> EmptyString -> startswith old s = true ->
  replace_from old new 0 s = new +:+ replace_from old new 0 (str_drop (String.length old) s).
Proof.
  intros Ho H. destruct old as [|o old]; [congruence|].
  destruct s as [|c s]; [discriminate|].
  cbn [replace_from]. rewrite H. f_equal.
  rewrite replace_from_skip. simpl. now rewrite Nat.sub_0_r.
Qed.

Lemma replace_from_miss (old new : string) (c : ascii) (s : string) :
  startswith old (String c s) = false ->
  replace_from old new 0 (String c s) = String c (replace_from old new 0 s).
Proof. intros H. cbn [replace_from]. now rewrite H. Qed.

Lemma clash_startswith (v w x : string) : clash v w = true -> startswith v (w +:+ x) = false.
Proof.
  revert w; induction v as [|a v IH]; intros [|b w]; simpl; try discriminate.
  destruct (Ascii.eqb a b); simpl; auto.
Qed.

Lemma contains_nil (q : string) : q <> EmptyString -> contains q EmptyString = false.
Proof. destruct q; [congruence | reflexivity]. Qed.

Lemma contains_false_drop (q s : string) (k : nat) :
  contains q s = false -> startswith q (str_drop k s) = false.
Proof.
  revert s; induction k as [|k IH]; intros s H.
  - rewrite str_drop_0. destruct s; simpl in H; apply orb_false_iff in H; tauto.
  - destruct s as [|c s]; simpl.
    + simpl in H. apply orb_false_iff in H. tauto.
    + apply IH. simpl in H. apply orb_false_iff in H. tauto.
Qed.

Lemma startswith_plain_app (w x z : string) :
  has_char HASH w = false ->
  startswith w (x +:+ String HASH z) = startswith w x.
Proof.
  revert x; induction w as [|b w IH]; intros x Hw; [now destruct x|].
  simpl in Hw. apply orb_false_iff in Hw as [Hb Hw].
  destruct x as [|d x]; simpl.
  - now rewrite Hb.
  - now rewrite IH.
Qed.

(** An occurrence of [#w] is replaced wherever it stands: what comes
    before it and what comes after it are rewritten on their own. *)
Lemma replace_from_hashed_app (w new x z : string) :
  has_char HASH w = false ->
  replace_from (String HASH w) new 0 (x +:+ String HASH z)
  = replace_from (String HASH w) new 0 x
    +:+ replace_from (String HASH w) new 0 (String HASH z).
Proof.
  intros Hw. remember (String.length x) as n eqn:Hn.
  assert (String.length x <= n) as Hle by lia. clear Hn.
  revert x Hle; induction n as [|n IH]; intros x Hle.
  - destruct x; [reflexivity | simpl in Hle; lia].
  - destruct x as [|c x]; [reflexivity|].
    assert (startswith (String HASH w) (String c x +:+ String HASH z)
            = startswith (String HASH w) (String c x)) as Hsame.
    { simpl. now rewrite startswith_plain_app. }
    destruct (startswith (String HASH w) (String c x)) eqn:E.
    + rewrite (replace_from_hit _ _ (String c x)) by (auto; discriminate).
      rewrite (replace_from_hit _ _ (String c x +:+ String HASH z))
        by (auto; discriminate).
      pose proof (startswith_inv _ _ E) as Ex.
      set (x' := str_drop (String.length (String HASH w)) (String c x)) in *.
      rewrite Ex at 1. rewrite str_app_assoc, str_drop_app_length.
      rewrite IH, str_app_assoc; [reflexivity|].
      apply (f_equal String.length) in Ex. rewrite str_length_app in Ex.
      simpl in Ex, Hle. lia.
    + rewrite (replace_from_miss _ _ c x) by assumption.
      change (String c x +:+ String HASH z) with (String c (x +:+ String HASH z)).
      rewrite replace_from_miss by exact Hsame.
      rewrite IH by (simpl in Hle; lia). reflexivity.
Qed.

Lemma replace_hashed_occurrence (w new x y : string) :
  has_char HASH w = false ->
  replace (String HASH w) new (x +:+ String HASH w +:+ y)
  = replace (String HASH w) new x +:+ new +:+ replace (String HASH w) new y.
Proof.
  intros Hw. unfold replace.
  change (String HASH w +:+ y) with (String HASH (w +:+ y)).
  rewrite replace_from_hashed_app by assumption. f_equal.
  rewrite replace_from_hit; [|discriminate|].
  - change (String HASH (w +:+ y)) with (String HASH w +:+ y).
    now rewrite str_drop_app_length.
  - change (String HASH (w +:+ y)) with (String HASH w +:+ y). apply startswith_app.
Qed.

(** Rewriting [#w] to [#w'] creates no [#v], when [v] and [w'] clash and
    none of the three holds a hash. *)
Section Hashed.
Variables w w' v : string.
Hypothesis Hw : has_char HASH w = false.
Hypothesis Hw' : has_char HASH w' = false.
Hypothesis Hv : has_char HASH v = false.
Hypothesis Hclash : clash v w' = true.

Let p := String HASH w.
Let r := String HASH w'.
Let q := String HASH v.

Lemma startswith_out_plain (u s : string) :
  has_char HASH u = false ->
  startswith u (replace_from p r 0 s) = true -> startswith u s = true.
Proof.
  revert s; induction u as [|a u IH]; intros s Hu H; [reflexivity|].
  simpl in Hu. apply orb_false_iff in Hu as [Ha Hu].
  destruct s as [|c s]; [discriminate|].
  destruct (startswith p (String c s)) eqn:E.
  - rewrite replace_from_hit in H by (auto; discriminate).
    unfold r in H. simpl in H. rewrite Ha in H. discriminate.
  - rewrite replace_from_miss in H by assumption.
    simpl in H |- *. apply andb_true_iff in H as [-> H]. simpl. auto.
Qed.

Lemma startswith_out_hashed (s : string) :
  (startswith q s = true -> startswith p s = true) ->
  startswith q (replace_from p r 0 s) = false.
Proof.
  intros H. destruct s as [|c s]; [reflexivity|].
  destruct (startswith p (String c s)) eqn:E.
  - rewrite replace_from_hit by (auto; discriminate).
    unfold q, r. simpl. rewrite ?Ascii.eqb_refl. simpl.
    now apply clash_startswith.
  - rewrite replace_from_miss by assumption.
    destruct (startswith q (String c (replace_from p r 0 s))) eqn:E'; [|reflexivity].
    unfold q in E'. simpl in E'. apply andb_true_iff in E' as [Hc E'].
    apply startswith_out_plain in E'; [|assumption].
    assert (startswith q (String c s) = true) as Hq
        by (unfold q; simpl; now rewrite Hc, E').
    specialize (H Hq). congruence.
Qed.

Lemma contains_plain_app (u x : string) :
  has_char HASH u = false -> contains q (u +:+ x) = contains q x.
Proof.
  induction u as [|a u IH]; intros Hu; [reflexivity|].
  simpl in Hu. apply orb_false_iff in Hu as [Ha Hu].
  simpl. rewrite (Ascii.eqb_sym HASH a), Ha. simpl. auto.
Qed.

Lemma replace_from_erases_upto (n : nat) (s : string) :
  String.length s <= n ->
  (forall k, startswith q (str_drop k s) = true -> startswith p (str_drop k s) = true) ->
  contains q (replace_from p r 0 s) = false.
Proof.
  revert s; induction n as [|n IH]; intros s Hn H.
  - destruct s; [reflexivity | simpl in Hn; lia].
  - destruct s as [|c s]; [reflexivity|].
    pose proof (startswith_out_hashed (String c s) (H 0)) as H0.
    destruct (startswith p (String c s)) eqn:E.
    + rewrite replace_from_hit in H0 |- * by (auto; discriminate).
      unfold r in H0 |- *. cbn [String.append contains] in H0 |- *.
      cbn [String.append] in H0. rewrite H0. simpl.
      rewrite contains_plain_app by assumption.
      apply IH.
      * pose proof (startswith_inv _ _ E) as Es.
        apply (f_equal String.length) in Es. rewrite str_length_app in Es.
        unfold p in Es. simpl in Es |- *. simpl in Hn. lia.
      * intros k. rewrite str_drop_drop. apply (H (String.length p + k)).
    + rewrite replace_from_miss in H0 |- * by assumption.
      cbn [contains]. rewrite H0. simpl.
      apply IH; [simpl in Hn; lia|].
      intros k. apply (H (S k)).
Qed.

Lemma replace_erases (s : string) :
  (forall k, startswith q (str_drop k s) = true -> startswith p (str_drop k s) = true) ->
  contains q (replace p r s) = false.
Proof. intros H. apply (replace_from_erases_upto (String.length s)); auto. Qed.
End Hashed.

End Replace.

Section Tags.
Import PyStr Converters Vocabulary.

Lemma rewrite_tag_foo_bar (content : string) :
  rewrite_tag content "foo-bar" = replace "#foo-bar" "#foobar" content.
Proof. reflexivity. Qed.

Lemma rewrite_tag_Foo_Bar (content : string) :
  rewrite_tag content "Foo_Bar" = replace "#Foo_Bar" "#foobar" content.
Proof. reflexivity. Qed.

(** The step for one token: an occurrence of [#token] becomes
    [#normalized] wherever it stands in the body of that step. *)
Lemma rewrite_tag_occurrence (tag x y : string) :
  has_char HASH tag = false -> _standardize_tag tag <> tag ->
  rewrite_tag (x +:+ chr HASH +:+ tag +:+ y) tag
  = rewrite_tag x tag +:+ chr HASH +:+ _standardize_tag tag +:+ rewrite_tag y tag.
Proof.
  intros Hh Hne. unfold rewrite_tag. apply String.eqb_neq in Hne. rewrite Hne.
  change (chr HASH +:+ tag) with (String HASH tag).
  change (chr HASH +:+ tag +:+ y) with (String HASH tag +:+ y).
  change (chr HASH +:+ _standardize_tag tag +:+
          replace (String HASH tag) (chr HASH +:+ _standardize_tag tag) y)
    with ((chr HASH +:+ _standardize_tag tag) +:+
          replace (String HASH tag) (chr HASH +:+ _standardize_tag tag) y).
  now apply replace_hashed_occurrence.
Qed.




End Tags.

(** ** The identifier index (src/evernote_db.py) *)

Section Index.
Import EvernoteDB Vocabulary.
Variable normalize_string : string -> string.

(** After the scan of [rows] from [m], a title holds what it held and then
    its records, in the order of the scan. *)
Lemma finalize_rows_lookup (rows : list Row) (m : gmap string (list NoteID)) (title : string) :
  listed (fold_left (finalize_row normalize_string) rows m) title
  = listed m title ++ candidates normalize_string rows title.
Proof.
  revert m; induction rows as [|row rows IH]; intros m.
  - unfold candidates. simpl. now rewrite app_nil_r.
  - cbn [fold_left]. rewrite IH. unfold candidates. cbn [List.filter].
    assert (listed (finalize_row normalize_string m row) title
            = listed m title ++
              (if String.eqb (normalize_string (row_label row)) title
               then [note_id_of row] else [])) as ->.
    { unfold finalize_row, listed.
      destruct (String.eqb_spec (normalize_string (row_label row)) title) as [->|Hne].
      - destruct (m !! title) as [[|n ids]|] eqn:E;
          rewrite lookup_insert_eq; reflexivity.
      - destruct (m !! normalize_string (row_label row)) as [[|n ids]|];
          rewrite lookup_insert_ne by assumption; now rewrite app_nil_r. }
    destruct (String.eqb (normalize_string (row_label row)) title);
      rewrite <- app_assoc; reflexivity.
Qed.

Lemma finalize_rows_nonempty (rows : list Row) (m : gmap string (list NoteID)) :
  (forall t, m !! t <> Some []) ->
  forall t, fold_left (finalize_row normalize_string) rows m !! t <> Some [].
Proof.
  revert m; induction rows as [|row rows IH]; intros m Hm; [assumption|].
  cbn [fold_left]. apply IH. intros t. unfold finalize_row.
  destruct (m !! normalize_string (row_label row)) as [[|n ids]|];
    (destruct (decide (normalize_string (row_label row) = t)) as [->|Hne];
     [rewrite lookup_insert_eq; discriminate | rewrite lookup_insert_ne by assumption; apply Hm]).
Qed.

Lemma scanned_lookup (rows : list Row) (title : string) :
  fold_left (finalize_row normalize_string) rows ∅ !! title
  = match candidates normalize_string rows title with
    | [] => None
    | l => Some l
    end.
Proof.
  pose proof (finalize_rows_lookup rows ∅ title) as H.
  pose proof (finalize_rows_nonempty rows ∅) as Hne.
  unfold listed in H. rewrite lookup_empty in H. simpl in H.
  destruct (fold_left (finalize_row normalize_string) rows ∅ !! title) as [l|] eqn:E;
    simpl in H; rewrite <- H.
  - destruct l; [|reflexivity]. exfalso. apply (Hne ltac:(intros t; now rewrite lookup_empty) title E).
  - reflexivity.
Qed.

(** The index after [__finalize] on a state of the run. *)
Lemma finalize_built (rows : list Row) (db : t) :
  built_from normalize_string rows db ->
  exists db', finalize normalize_string db = Ok db' /\
              built_from normalize_string rows db' /\
              _map_title_2_id db' = fold_left (finalize_row normalize_string) rows ∅.
Proof.
  intros [Hc [[Hf Hm] | [Hf Hm]]]; unfold finalize; rewrite Hc, Hf.
  - eexists; split; [reflexivity|]. rewrite Hm. split; [|reflexivity].
    split; [reflexivity|]. right. split; reflexivity.
  - exists db. split; [reflexivity|]. split; [|assumption].
    split; [assumption|]. right. split; assumption.
Qed.


End Index.



(** ** Moving a file (src/evernote_move.py) *)

Section Move.
Import OS EvernoteMove.

(** C7: a source that exists with a destination that exists raises the
    duplicate-on-move error; a source that does not exist is not moved and
    nothing is raised or changed; a source that exists with a destination
    that does not is moved. *)
Theorem _move_file_cases (fs : FileSystem) (source_path dest_path : string) :
  (path_exists fs source_path = true -> path_exists fs dest_path = true ->
   _move_file fs source_path dest_path = Raise (MoveDuplicateFileError dest_path)) /\
  (path_exists fs source_path = false ->
   _move_file fs source_path dest_path = Ok (false, fs)) /\
  (path_exists fs source_path = true -> path_exists fs dest_path = false ->
   exists data fs',
     files fs !! source_path = Some data /\
     _move_file fs source_path dest_path = Ok (true, fs') /\
     files fs' = <[dest_path := data]> (delete source_path (files fs)) /\
     journal fs' = journal fs ++ [Moved source_path dest_path]) /\
  (forall fs', _move_file fs source_path dest_path = Ok (true, fs') ->
     path_exists fs source_path = true /\ path_exists fs dest_path = false).
Proof.
  unfold _move_file. repeat split.
  - intros -> ->. reflexivity.
  - intros ->. reflexivity.
  - intros Hs Hd. rewrite Hs, Hd.
    unfold path_exists in Hs. apply bool_decide_eq_true in Hs as [data Hs].
    exists data. unfold move. rewrite Hs. eexists. repeat split; reflexivity.
  - destruct (path_exists fs source_path); [reflexivity|]. discriminate.
  - destruct (path_exists fs source_path); [|discriminate].
    destruct (path_exists fs dest_path); [discriminate | reflexivity].
Qed.

End Move.

(** ** The name of the output file (src/evernote_migration.py) *)

Section NoteFilename.
Import PyStr PosixPath OS EvernoteMigration Vocabulary.
Variable C : Constants.
Variable self : t.

Local Abbreviation candidate := (Vocabulary.candidate C self).

(** With overwrite enabled the first candidate is returned, whether a file
    of that name exists or not. *)
Lemma _get_note_filename_loop_overwrite (fs : FileSystem) (fuel : nat)
    (note_name : string) (count : nat) :
  overwrite self = true ->
  _get_note_filename_loop C self fs fuel note_name count = Some (candidate note_name).
Proof.
  intros H. destruct fuel; simpl; rewrite H; destruct (path_exists fs _); reflexivity.
Qed.

Lemma suffixes_step (note_name : string) (count i : nat) :
  (note_name +:+ "-" +:+ of_nat (count + 1)) +:+ suffixes (count + 1) i
  = note_name +:+ suffixes count (S i).
Proof. cbn [suffixes]. now rewrite !str_app_assoc. Qed.

(** With overwrite disabled the loop returns the first candidate that does
    not exist; the candidates are the name with the suffixes piled up. *)
Lemma _get_note_filename_loop_first_free (fs : FileSystem) (k fuel : nat)
    (note_name : string) (count : nat) :
  overwrite self = false -> k <= fuel ->
  (forall i, i < k -> path_exists fs (candidate (note_name +:+ suffixes count i)) = true) ->
  path_exists fs (candidate (note_name +:+ suffixes count k)) = false ->
  _get_note_filename_loop C self fs fuel note_name count
  = Some (candidate (note_name +:+ suffixes count k)).
Proof.
  intros Ho. revert fuel note_name count.
  induction k as [|k IH]; intros fuel note_name count Hk Hex Hfree.
  - cbn [suffixes] in *. rewrite str_app_nil_r in *.
    destruct fuel; simpl; unfold Vocabulary.candidate in Hfree; rewrite Hfree; reflexivity.
  - destruct fuel as [|fuel]; [lia|].
    pose proof (Hex 0 ltac:(lia)) as H0. cbn [suffixes] in H0. rewrite str_app_nil_r in H0.
    unfold Vocabulary.candidate in H0. cbn [_get_note_filename_loop]. rewrite H0, Ho.
    rewrite <- suffixes_step. apply IH; [lia| |].
    + intros i Hi. rewrite suffixes_step. apply Hex. lia.
    + now rewrite suffixes_step.
Qed.

Lemma path_exists_dom (fs : FileSystem) (path : string) :
  path_exists fs path = true <-> path ∈ dom (files fs).
Proof.
  unfold path_exists. rewrite bool_decide_eq_true. symmetry. apply elem_of_dom.
Qed.

Lemma join_longer (a n s : string) :
  String.length (join a n) < String.length (join a (n +:+ "-" +:+ s)).
Proof.
  unfold join. destruct n as [|c n]; simpl.
  - destruct (_ || _); rewrite ?str_length_app; simpl; rewrite ?str_length_app; simpl; lia.
  - destruct (Ascii.eqb SLASH c); simpl.
    + rewrite !str_length_app. simpl. lia.
    + destruct (_ || _); rewrite ?str_length_app; simpl; rewrite ?str_length_app; simpl;
        rewrite ?str_length_app; simpl; lia.
Qed.

Lemma candidate_longer (n s : string) :
  String.length (candidate n) < String.length (candidate (n +:+ "-" +:+ s)).
Proof.
  unfold Vocabulary.candidate. rewrite !str_length_app.
  pose proof (join_longer (notebook_path self) n s). lia.
Qed.

(** The files found so far are bounded by the files there are. *)
Lemma found_bound (fs : FileSystem) (found : gset string) (path : string) :
  found ⊆ dom (files fs) -> path ∈ dom (files fs) -> path ∉ found ->
  size found < size (files fs).
Proof.
  intros Hsub Hin Hnot.
  assert (size ({[path]} ∪ found) <= size (dom (files fs))) as Hle.
  { apply subseteq_size, union_subseteq. split; [|exact Hsub].
    apply singleton_subseteq_l. exact Hin. }
  assert ({[path]} ## found) as Hd by (apply disjoint_singleton_l; exact Hnot).
  rewrite (size_union _ _ Hd), size_singleton, size_dom in Hle. lia.
Qed.

(** With overwrite disabled [_get_note_filename] returns the first
    candidate that does not exist, and there is one: the loop has the fuel
    to reach it. *)
Lemma _get_note_filename_loop_reaches (fs : FileSystem) (k fuel : nat)
    (note_name : string) (count : nat) (found : gset string) :
  overwrite self = false ->
  found ⊆ dom (files fs) ->
  (forall p, p ∈ found -> String.length p < String.length (candidate note_name)) ->
  size (files fs) <= size found + fuel ->
  (forall i, i < k -> path_exists fs (candidate (note_name +:+ suffixes count i)) = true) ->
  path_exists fs (candidate (note_name +:+ suffixes count k)) = false ->
  _get_note_filename_loop C self fs fuel note_name count
  = Some (candidate (note_name +:+ suffixes count k)).
Proof.
  intros Ho. revert fuel note_name count found.
  induction k as [|k IH]; intros fuel note_name count found Hsub Hlen Hsize Hex Hfree.
  - apply (_get_note_filename_loop_first_free fs 0); auto; lia.
  - pose proof (Hex 0 ltac:(lia)) as H0. cbn [suffixes] in H0. rewrite str_app_nil_r in H0.
    assert (candidate note_name ∉ found) as Hnew.
    { intros Hin. specialize (Hlen _ Hin). lia. }
    pose proof (found_bound fs found _ Hsub (proj1 (path_exists_dom _ _) H0) Hnew) as Hb.
    destruct fuel as [|fuel]; [lia|].
    unfold Vocabulary.candidate in H0. cbn [_get_note_filename_loop]. rewrite H0, Ho.
    rewrite <- suffixes_step.
    apply (IH fuel _ _ ({[candidate note_name]} ∪ found)).
    + apply union_subseteq. split; [|assumption].
      apply singleton_subseteq_l, path_exists_dom. exact H0.
    + intros p Hp. pose proof (candidate_longer note_name (of_nat (count + 1))).
      apply elem_of_union in Hp as [Hp|Hp].
      * apply elem_of_singleton in Hp as ->. assumption.
      * specialize (Hlen _ Hp). lia.
    + rewrite size_union, size_singleton by set_solver. lia.
    + intros i Hi. rewrite suffixes_step. apply Hex. lia.
    + now rewrite suffixes_step.
Qed.

(** What [_get_note_filename] returns: [base] when overwrite is enabled;
    otherwise the first that does not exist of [base], [base-1],
    [base-1-2], [base-1-2-3], ... *)
Theorem _get_note_filename_probes (fs : FileSystem) (note_folder : string) (k : nat) :
  let base := Converters.standardize_note_name note_folder in
  (overwrite self = true ->
   _get_note_filename C self fs note_folder = Some (candidate base)) /\
  (overwrite self = false ->
   (forall i, i < k -> path_exists fs (candidate (base +:+ suffixes 0 i)) = true) ->
   path_exists fs (candidate (base +:+ suffixes 0 k)) = false ->
   _get_note_filename C self fs note_folder = Some (candidate (base +:+ suffixes 0 k))).
Proof.
  intros base. split.
  - intros Ho. now apply _get_note_filename_loop_overwrite.
  - intros Ho Hex Hfree. unfold _get_note_filename.
    apply (_get_note_filename_loop_reaches fs k _ _ _ ∅); auto;
      first [set_solver | rewrite size_empty; lia].
Qed.

(** The loop always ends with a name. *)
Lemma _get_note_filename_loop_total (fs : FileSystem) (fuel : nat)
    (note_name : string) (count : nat) (found : gset string) :
  found ⊆ dom (files fs) ->
  (forall p, p ∈ found -> String.length p < String.length (candidate note_name)) ->
  size (files fs) <= size found + fuel ->
  is_Some (_get_note_filename_loop C self fs fuel note_name count).
Proof.
  revert note_name count found.
  induction fuel as [|fuel IH]; intros note_name count found Hsub Hlen Hsize;
    cbn [_get_note_filename_loop]; fold (candidate note_name);
    destruct (path_exists fs (candidate note_name)) eqn:H0; eauto;
    destruct (overwrite self); eauto;
    (assert (candidate note_name ∉ found) as Hnew
       by (intros Hin; specialize (Hlen _ Hin); lia));
    pose proof (found_bound fs found _ Hsub (proj1 (path_exists_dom _ _) H0) Hnew) as Hb;
    [lia|].
  apply (IH _ _ ({[candidate note_name]} ∪ found)).
  - apply union_subseteq. split; [|assumption].
    apply singleton_subseteq_l, path_exists_dom. exact H0.
  - intros p Hp. pose proof (candidate_longer note_name (of_nat (count + 1))).
    apply elem_of_union in Hp as [Hp|Hp].
    + apply elem_of_singleton in Hp as ->. assumption.
    + specialize (Hlen _ Hp). lia.
  - rewrite size_union, size_singleton by set_solver. lia.
Qed.

Theorem _get_note_filename_total (fs : FileSystem) (note_folder : string) :
  is_Some (_get_note_filename C self fs note_folder).
Proof.
  unfold _get_note_filename.
  apply (_get_note_filename_loop_total fs _ _ _ ∅);
    first [set_solver | rewrite size_empty; lia].
Qed.

End NoteFilename.

(** C2 in the code: with [nb/My Note.md] and [nb/My Note-1.md] there, the
    name returned for a third folder [My Note] is [My Note-1-2], the suffix
    [-2] being appended to the name that already carries [-1]. *)
Example _get_note_filename_third_collision :
  let C := {| EvernoteMigration.ATTACHMENTS_FOLDER := "attachments";
              EvernoteMigration.NOTE_EXTENSION := ".md" |} in
  let self := {| EvernoteMigration.notebook_path := "nb";
                 EvernoteMigration.report_path := None;
                 EvernoteMigration.report_only := false;
                 EvernoteMigration.keep := false;
                 EvernoteMigration.overwrite := false |} in
  let fs := {| OS.files := {[ "nb/My Note.md" := "first"; "nb/My Note-1.md" := "second" ]};
               OS.journal := [] |} in
  EvernoteMigration._get_note_filename C self fs "My Note" = Some "nb/My Note-1-2.md" /\
  EvernoteMigration._get_note_filename C self fs "My Note" <> Some "nb/My Note-2.md".
Proof. split; vm_compute; congruence. Qed.

(** ** The link-rewrite pass (src/evernote_migration.py) *)

Section Links.
Import PyStr OS Persist EvernoteMigration Vocabulary.
Variable X : Extractors.
Variable self : t.
Variable db : EvernoteDB.t.

Lemma rewrite_link_unresolved (st : string * bool) (m : LinkMatch) :
  resolves db m = false -> rewrite_link db st m = st.
Proof.
  unfold resolves, rewrite_link. destruct st as [content is_dirty].
  destruct (EvernoteDB.get_container_from_id db (link_id m)) as [[|c p]|];
    [reflexivity | discriminate | reflexivity].
Qed.

Lemma rewrite_links_unresolved (st : string * bool) (regex : string -> list LinkMatch) :
  existsb (resolves db) (regex (fst st)) = false -> rewrite_links db st regex = st.
Proof.
  unfold rewrite_links. intros H.
  assert (existsb (resolves db) (rev (regex (fst st))) = false) as H'.
  { apply not_true_is_false. intros E. apply existsb_exists in E as (m & Hin & Hm).
    apply in_rev in Hin.
    assert (existsb (resolves db) (regex (fst st)) = true) by (apply existsb_exists; eauto).
    congruence. }
  clear H. induction (rev (regex (fst st))) as [|m ms IH]; [reflexivity|].
  simpl in H'. apply orb_false_iff in H' as [Hm Hms].
  simpl. rewrite (rewrite_link_unresolved _ _ Hm). auto.
Qed.

Lemma rewrite_all_unresolved (regexes : list (string -> list LinkMatch))
    (content : string) (is_dirty : bool) :
  any_resolves db regexes content = false ->
  fold_left (rewrite_links db) regexes (content, is_dirty) = (content, is_dirty).
Proof.
  unfold any_resolves. induction regexes as [|regex regexes IH]; [reflexivity|].
  simpl. intros H. apply orb_false_iff in H as [H1 H2].
  rewrite rewrite_links_unresolved by exact H1. auto.
Qed.

(** C5: a document none of whose link matches resolves is left as it is
    and nothing is written; what the pass returns is the file system as it
    was, or the file system after one write of the document, and then a
    link match of the document resolves. *)
Theorem process_note_links_of_writes (fs : FileSystem) (note_path content : string) :
  files fs !! note_path = Some content ->
  (any_resolves db (REGEXES_NOTE_LINK X) content = false ->
   process_note_links_of X self db fs note_path = Ok fs) /\
  exists fs', process_note_links_of X self db fs note_path = Ok fs' /\
    (fs' = fs \/
     (exists content',
        fs' = {| files := <[note_path := content']> (files fs);
                 journal := journal fs ++ [Written note_path content'] |})
      /\ report_only self = false
      /\ any_resolves db (REGEXES_NOTE_LINK X) content = true).
Proof.
  intros Hload. unfold process_note_links_of, load_note_content. rewrite Hload.
  cbn [mbind result_bind]. split.
  - intros H. rewrite rewrite_all_unresolved by exact H. reflexivity.
  - destruct (any_resolves db (REGEXES_NOTE_LINK X) content) eqn:E.
    + destruct (fold_left (rewrite_links db) (REGEXES_NOTE_LINK X) (content, false))
        as [content' is_dirty].
      destruct is_dirty, (report_only self) eqn:R; simpl; eexists; split;
        try reflexivity; try (left; reflexivity).
      right. split; [eexists; reflexivity|]. split; reflexivity.
    + rewrite rewrite_all_unresolved by exact E. simpl.
      eexists; split; [reflexivity | left; reflexivity].
Qed.

End Links.

Lemma process_note_links_of_writes_witness :
  let X := {| EvernoteMigration.REGEX_FILE := fun _ => [];
              EvernoteMigration.REGEX_IMAGE := fun _ => [];
              EvernoteMigration.REGEXES_NOTE_LINK :=
                [fun _ => [ {| EvernoteMigration.url_begin := 7;
                               EvernoteMigration.url_end := 20;
                               EvernoteMigration.link_id := "id-1";
                               EvernoteMigration.link_label := "Other" |} ]];
              EvernoteMigration.extract_notes_links := fun _ => [];
              EvernoteMigration.extract_title := fun _ => None;
              EvernoteMigration.extract_url := fun _ => None;
              EvernoteMigration.extract_date_created := fun _ => None;
              EvernoteMigration.extract_date_updated := fun _ => None |} in
  let self := {| EvernoteMigration.notebook_path := "nb";
                 EvernoteMigration.report_path := None;
                 EvernoteMigration.report_only := false;
                 EvernoteMigration.keep := false;
                 EvernoteMigration.overwrite := false |} in
  let fs := {| OS.files := {[ "nb/a.md" := "[Other](evernote:id-1)" ]}; OS.journal := [] |} in
  EvernoteMigration.process_note_links_of X self (EvernoteDB.init (Some [])) fs "nb/a.md"
  = Ok fs.
Proof.
  intros X self fs.
  apply (process_note_links_of_writes X self (EvernoteDB.init (Some [])) fs "nb/a.md"
           "[Other](evernote:id-1)" eq_refl).
  reflexivity.
Defined.

(** ** The backlink pass (src/evernote_migration.py) *)

Section Paths.
Import PyStr PosixPath.

Lemma basename_no_slash (p : string) : has_char SLASH (basename p) = false.
Proof.
  induction p as [|c p IH]; [reflexivity|].
  cbn [basename]. destruct (has_char SLASH (String c p)) eqn:E; assumption.
Qed.

Lemma join_no_slash (a b : string) :
  has_char SLASH b = false ->
  join a b = (if String.eqb a EmptyString || endswith_char SLASH a
              then a else a +:+ chr SLASH) +:+ b.
Proof.
  intros H. unfold join.
  destruct b as [|c b].
  - simpl. destruct (_ || _); [reflexivity | now rewrite str_app_assoc].
  - simpl in H. apply orb_false_iff in H as [H _].
    simpl. rewrite Ascii.eqb_sym, H. simpl.
    destruct (_ || _); [reflexivity | now rewrite str_app_assoc].
Qed.

Lemma join_inj (a b b' : string) :
  has_char SLASH b = false -> has_char SLASH b' = false ->
  join a b = join a b' -> b = b'.
Proof.
  intros H H'. rewrite !join_no_slash by assumption. apply str_app_inv_head.
Qed.
End Paths.

Section Backlinks.
Import PyStr PosixPath OS Persist EvernoteMigration Vocabulary.
Variable X : Extractors.
Variable self : t.

Lemma load_note_content_Some (fs : FileSystem) (note_path content : string) :
  files fs !! note_path = Some content -> load_note_content fs note_path = Ok content.
Proof. unfold load_note_content. now intros ->. Qed.

Lemma backlinks_get_set (m : Backlinks) (c : string) (v : list string) (t : string) :
  backlinks_get (backlinks_set m c v) t
  = if String.eqb c t then Some v else backlinks_get m t.
Proof.
  induction m as [|[k w] m IH]; simpl.
  - reflexivity.
  - destruct (String.eqb_spec k c) as [->|Hkc]; simpl.
    + destruct (String.eqb c t); reflexivity.
    + rewrite IH. destruct (String.eqb_spec k t) as [->|Hkt]; [|reflexivity].
      apply String.eqb_neq in Hkc. rewrite String.eqb_sym, Hkc. reflexivity.
Qed.

Lemma backlinks_set_keys (m : Backlinks) (c : string) (v : list string) (k : string) :
  k ∈ map fst (backlinks_set m c v) <-> k = c \/ k ∈ map fst m.
Proof.
  induction m as [|[k' w] m IH]; simpl.
  - rewrite list_elem_of_singleton. split; [auto|]. intros [?|H]; [auto|]. inversion H.
  - destruct (String.eqb_spec k' c) as [->|Hkc]; simpl.
    + rewrite !elem_of_cons. tauto.
    + rewrite !elem_of_cons, IH. tauto.
Qed.

Lemma backlinks_set_wf (m : Backlinks) (c : string) (v : list string) :
  has_char SLASH c = false -> v <> [] -> backlinks_wf m -> backlinks_wf (backlinks_set m c v).
Proof.
  intros Hc Hv [Hnd Hall]. split.
  - induction m as [|[k w] m IH]; simpl.
    + apply NoDup_singleton.
    + simpl in Hnd. apply NoDup_cons in Hnd as [Hk Hnd].
      apply Forall_cons in Hall as [_ Hall].
      destruct (String.eqb_spec k c) as [->|Hkc]; simpl.
      * apply NoDup_cons. auto.
      * apply NoDup_cons. split; [|auto].
        rewrite backlinks_set_keys. intros [?|?]; congruence.
  - induction m as [|[k w] m IH]; simpl.
    + apply Forall_singleton. auto.
    + apply Forall_cons in Hall as [[Hk Hw] Hall]. simpl in Hnd.
      apply NoDup_cons in Hnd as [_ Hnd].
      destruct (String.eqb_spec k c) as [->|Hkc]; apply Forall_cons; simpl; auto.
Qed.

Lemma add_backlink_wf (note_name : string) (m : Backlinks) (c : string) :
  has_char SLASH c = false -> backlinks_wf m -> backlinks_wf (add_backlink note_name m c).
Proof.
  intros Hc Hm. unfold add_backlink.
  destruct (backlinks_get m c) as [[|n l]|]; apply backlinks_set_wf; auto; discriminate.
Qed.

Lemma add_backlink_linked (note_name : string) (m : Backlinks) (c t : string) :
  linked (add_backlink note_name m c) t
  = linked m t ++ (if String.eqb t c then [note_name] else []).
Proof.
  unfold linked, add_backlink. rewrite (String.eqb_sym t c).
  destruct (String.eqb_spec c t) as [->|Hct].
  - destruct (backlinks_get m t) as [[|n l]|]; rewrite backlinks_get_set, String.eqb_refl;
      reflexivity.
  - apply String.eqb_neq in Hct.
    destruct (backlinks_get m c) as [[|n l]|]; rewrite backlinks_get_set, Hct, app_nil_r;
      reflexivity.
Qed.

Lemma add_backlinks_linked (note_name : string) (containers : list string)
    (m : Backlinks) (t : string) :
  linked (fold_left (add_backlink note_name) containers m) t
  = linked m t ++ map (fun _ => note_name) (List.filter (String.eqb t) containers).
Proof.
  revert m; induction containers as [|c cs IH]; intros m; simpl.
  - now rewrite app_nil_r.
  - rewrite IH, add_backlink_linked.
    destruct (String.eqb t c); simpl; rewrite <- app_assoc; reflexivity.
Qed.

Lemma add_backlinks_wf (note_name : string) (containers : list string) (m : Backlinks) :
  Forall (fun c => has_char SLASH c = false) containers ->
  backlinks_wf m -> backlinks_wf (fold_left (add_backlink note_name) containers m).
Proof.
  revert m; induction containers as [|c cs IH]; intros m Hc Hm; [assumption|].
  apply Forall_cons in Hc as [Hc Hcs]. simpl. apply IH; [assumption|].
  now apply add_backlink_wf.
Qed.

(** The first loop: the dict it builds. *)
Lemma collect_backlinks_from (fs : FileSystem) (note_files : list string) (m0 : Backlinks) :
  Forall (fun p => is_Some (files fs !! p)) note_files ->
  backlinks_wf m0 ->
  exists m,
    foldlM
      (fun m note_path =>
         content ← load_note_content fs note_path;
         let containers := map basename (extract_notes_links X content) in
         Ok (fold_left (add_backlink (basename note_path)) containers m))
      m0 note_files = Ok m /\
    backlinks_wf m /\
    forall t, linked m t = linked m0 t ++ incoming X fs note_files t.
Proof.
  revert m0; induction note_files as [|p ps IH]; intros m0 Hex Hwf.
  - exists m0. split; [reflexivity|]. split; [assumption|].
    intros t. simpl. now rewrite app_nil_r.
  - apply Forall_cons in Hex as [[content Hp] Hex].
    cbn [foldlM]. rewrite (load_note_content_Some _ _ _ Hp). cbn [mbind result_bind].
    destruct (IH (fold_left (add_backlink (basename p))
                    (map basename (extract_notes_links X content)) m0) Hex)
      as (m & Hm & Hwfm & Hl).
    { apply add_backlinks_wf; [|assumption].
      apply Forall_forall. intros c Hc.
      apply list_elem_of_In, in_map_iff in Hc as (x & <- & _).
      apply basename_no_slash. }
    exists m. split; [exact Hm|]. split; [assumption|].
    intros t. rewrite Hl, add_backlinks_linked. unfold incoming. cbn [flat_map].
    rewrite Hp, <- app_assoc. reflexivity.
Qed.

(** The second loop: each key's file gets its section, once; no other
    file changes. *)
Lemma inject_all_spec (m : Backlinks) (fs : FileSystem) :
  backlinks_wf m ->
  Forall (fun kv => is_Some (files fs !! join (notebook_path self) (fst kv))) m ->
  exists fs',
    inject_all self m fs = Ok fs' /\
    (forall k v content, backlinks_get m k = Some v ->
       files fs !! join (notebook_path self) k = Some content ->
       files fs' !! join (notebook_path self) k = Some (_inject_backlinks v content)) /\
    (forall p, (forall k, k ∈ map fst m -> p <> join (notebook_path self) k) ->
       files fs' !! p = files fs !! p).
Proof.
  revert fs; induction m as [|[k v] m IH]; intros fs Hwf Hex.
  - exists fs. split; [reflexivity|]. split; [discriminate | reflexivity].
  - destruct Hwf as [Hnd Hall]. simpl in Hnd. apply NoDup_cons in Hnd as [Hk Hnd].
    apply Forall_cons in Hall as [[Hks Hv] Hall].
    apply Forall_cons in Hex as [[content Hc] Hex]. simpl in Hc, Hks.
    unfold inject_all. cbn [foldlM]. rewrite (load_note_content_Some _ _ _ Hc).
    cbn [mbind result_bind].
    set (fs1 := save_note_content fs (join (notebook_path self) k)
                  (_inject_backlinks v content)).
    assert (forall k', k' ∈ map fst m ->
              join (notebook_path self) k' <> join (notebook_path self) k) as Hne.
    { intros k' Hk' E. apply join_inj in E; [congruence| |assumption].
      apply list_elem_of_fmap in Hk' as ([k'' v''] & -> & Hin).
      rewrite Forall_forall in Hall. apply (Hall _ Hin). }
    destruct (IH fs1 (conj Hnd Hall)) as (fs' & Hrun & Hkeys & Hother).
    { rewrite Forall_forall in Hex |- *. intros [k' v'] Hin.
      simpl. unfold fs1, save_note_content. simpl.
      rewrite lookup_insert_ne; [apply (Hex _ Hin)|].
      intros E. symmetry in E. revert E. apply Hne.
      apply list_elem_of_fmap. exists (k', v'). split; [reflexivity | exact Hin]. }
    exists fs'. split; [exact Hrun|]. split.
    + intros k' v' content' Hget Hc'. simpl in Hget.
      destruct (String.eqb_spec k k') as [<-|Hkk'].
      * injection Hget as <-. rewrite Hc in Hc'. injection Hc' as <-.
        rewrite Hother by (intros k' Hk' E; symmetry in E; revert E; now apply Hne).
        unfold fs1, save_note_content. simpl. apply lookup_insert_eq.
      * apply (Hkeys k' v' content' Hget).
        unfold fs1, save_note_content. simpl. rewrite lookup_insert_ne; [assumption|].
        intros E. symmetry in E. revert E. apply Hne.
        clear -Hget. induction m as [|[k'' v''] m IH]; [discriminate|].
        simpl in Hget |- *. destruct (String.eqb_spec k'' k') as [->|_];
          [apply list_elem_of_here | apply list_elem_of_further; auto].
    + intros p Hp. rewrite Hother.
      * unfold fs1, save_note_content. simpl. apply lookup_insert_ne.
        intros E. apply (Hp k); [apply list_elem_of_here | now symmetry].
      * intros k' Hk'. apply Hp. simpl. now apply list_elem_of_further.
Qed.

Lemma backlinks_get_keys (m : Backlinks) (k : string) :
  k ∈ map fst m <-> is_Some (backlinks_get m k).
Proof.
  induction m as [|[k' v] m IH]; simpl.
  - split; [intros H; inversion H | intros [x H]; discriminate].
  - rewrite elem_of_cons, IH. simpl.
    destruct (String.eqb_spec k' k) as [->|Hne].
    + split; [eauto | auto].
    + split; [intros [?|?]; [congruence | assumption] | auto].
Qed.

Lemma backlinks_get_elem (m : Backlinks) (k : string) (v : list string) :
  (k, v) ∈ m -> is_Some (backlinks_get m k).
Proof.
  intros H. apply backlinks_get_keys, list_elem_of_fmap. exists (k, v). auto.
Qed.

Lemma backlinks_get_wf (m : Backlinks) (k : string) (v : list string) :
  backlinks_wf m -> backlinks_get m k = Some v -> has_char SLASH k = false /\ v <> [].
Proof.
  intros [_ Hall]. induction m as [|[k' v'] m IH]; [discriminate|].
  apply Forall_cons in Hall as [[H1 H2] Hall]. simpl in *.
  destruct (String.eqb_spec k' k) as [->|Hne]; [intros [= <-]; auto | auto].
Qed.


End Backlinks.


(** ** The scan of the assets (src/evernote_migration.py) *)

Section Monad.
Lemma foldlM_snoc {A B : Type} (f : A -> B -> result A) (a : A) (l : list B) (b : B) :
  foldlM f a (l ++ [b]) = (a' ← foldlM f a l; f a' b).
Proof.
  revert a; induction l as [|x l IH]; intros a; simpl.
  - destruct (f a b); reflexivity.
  - destruct (f a x); simpl; [apply IH | reflexivity].
Qed.
End Monad.

Section Spans.
Import PyStr PosixPath EvernoteMigration Vocabulary.

Lemma spans_ok_le (from : nat) (ms : list PathMatch) (len : nat) :
  spans_ok from ms len = true -> from <= len.
Proof.
  revert from; induction ms as [|m ms IH]; intros from H; simpl in H.
  - now apply Nat.leb_le.
  - apply andb_true_iff in H as [H H3]. apply andb_true_iff in H as [H1 H2].
    apply Nat.leb_le in H1, H2. specialize (IH _ H3). lia.
Qed.

Lemma splice_ext (from : nat) (ms : list PathMatch) (f g : string -> string)
    (scanned : string) :
  (forall m, m ∈ ms -> f (path_of scanned m) = g (path_of scanned m)) ->
  splice from ms f scanned = splice from ms g scanned.
Proof.
  revert from; induction ms as [|m ms IH]; intros from H; [reflexivity|].
  simpl. rewrite (H m) by apply list_elem_of_here.
  rewrite (IH (path_end m)); [reflexivity|].
  intros m' Hm'. apply H. now apply list_elem_of_further.
Qed.

(** Replacing a span leaves what is before it, and splices the rest. *)
Lemma replace_span (b e : nat) (scanned new rest : string) :
  b <= e -> e <= String.length scanned ->
  str_take b (str_take e scanned +:+ rest) +:+ new
    +:+ str_drop e (str_take e scanned +:+ rest)
  = str_take b scanned +:+ new +:+ rest.
Proof.
  intros Hbe Hel.
  pose proof (str_take_length e scanned Hel) as Hlen.
  pose proof (str_drop_app_length (str_take e scanned) rest) as Hd.
  rewrite Hlen in Hd. rewrite Hd.
  rewrite str_take_app_le by lia. rewrite str_take_take by assumption.
  reflexivity.
Qed.

Lemma draw_index_lookup (paths : list string) (x : string) :
  x ∈ paths -> rev (remove_dups paths) !! draw_index paths x = Some x.
Proof.
  induction paths as [|y rest IH]; intros Hx; [inversion Hx|].
  cbn [draw_index remove_dups].
  destruct (decide_rel elem_of y rest) as [Hy|Hy].
  - assert (x ∈ rest) as Hxr by (apply elem_of_cons in Hx as [->|]; assumption).
    rewrite bool_decide_eq_true_2 by assumption. auto.
  - cbn [rev]. destruct (decide (x ∈ rest)) as [Hxr|Hxr].
    + rewrite bool_decide_eq_true_2 by assumption.
      specialize (IH Hxr). rewrite lookup_app_l; [assumption|].
      apply lookup_lt_Some in IH. assumption.
    + rewrite bool_decide_eq_false_2 by assumption.
      apply elem_of_cons in Hx as [->|]; [|contradiction].
      rewrite <- length_rev. rewrite lookup_app_r by lia.
      now rewrite Nat.sub_diag.
Qed.

Lemma draw_index_lt (paths : list string) (x : string) :
  x ∈ paths -> draw_index paths x < length (remove_dups paths).
Proof.
  intros H. apply draw_index_lookup, lookup_lt_Some in H. now rewrite length_rev in H.
Qed.

Lemma draw_index_inj (paths : list string) (x y : string) :
  x ∈ paths -> y ∈ paths -> draw_index paths x = draw_index paths y -> x = y.
Proof.
  intros Hx Hy E. apply draw_index_lookup in Hx, Hy. rewrite E in Hx. congruence.
Qed.

Lemma remove_dups_length_le (paths : list string) :
  length (remove_dups paths) <= length paths.
Proof.
  induction paths as [|y rest IH]; [reflexivity|]. simpl.
  destruct (decide_rel elem_of y rest); simpl; lia.
Qed.

Lemma in_rev_remove_dups (l : list string) (y : string) :
  In y (rev (remove_dups l)) -> y ∈ l.
Proof.
  intros H. rewrite <- in_rev in H. apply list_elem_of_In in H.
  exact (proj1 (elem_of_remove_dups _ _) H).
Qed.

Lemma has_char_str_drop (c : ascii) (n : nat) (s : string) :
  has_char c s = false -> has_char c (str_drop n s) = false.
Proof.
  revert s; induction n as [|n IH]; intros [|a s] H; try assumption.
  simpl in H. apply orb_false_iff in H as [_ H]. simpl. auto.
Qed.

Lemma ext_of_no_slash (x : string) : has_char SLASH (ext_of x) = false.
Proof.
  unfold ext_of, splitext.
  destruct (rfind DOT (basename x)) as [d|]; [|reflexivity].
  destruct (_ && _); [|reflexivity].
  simpl. apply has_char_str_drop, basename_no_slash.
Qed.

Lemma all_chars_no_slash (s : string) :
  all_chars is_uuid_char s = true -> has_char SLASH s = false.
Proof.
  induction s as [|c s IH]; [reflexivity|]. simpl.
  intros H. apply andb_true_iff in H as [Hc Hs]. rewrite (IH Hs), orb_false_r.
  apply Ascii.eqb_neq. intros ->. discriminate.
Qed.

Lemma is_uuid_facts (s : string) :
  is_uuid s = true -> String.length s = 36 /\ has_char SLASH s = false.
Proof.
  unfold is_uuid. intros H. apply andb_true_iff in H as [Hl Hc].
  apply Nat.eqb_eq in Hl. auto using all_chars_no_slash.
Qed.

End Spans.

Section Assets.
Import PyStr PosixPath OS Persist EvernoteMigration Vocabulary.
Variable C : Constants.
Variable uuid4 : nat -> string.
Variable self : t.
Variable note_path : string.

Lemma join_nonempty (a b : string) : b <> EmptyString -> join a b <> EmptyString.
Proof.
  intros Hb. unfold join. destruct (startswith (chr SLASH) b); [assumption|].
  destruct (_ || _); destruct a; simpl; try discriminate; assumption.
Qed.

Lemma is_uuid_name_nonempty (u e : string) : is_uuid u = true -> u +:+ e <> EmptyString.
Proof.
  intros H. apply is_uuid_facts in H as [H _]. destruct u; [discriminate H | discriminate].
Qed.

(** A path met before: its new path is used again. *)
Lemma scan_match_again (scanned : string) (table : gmap string string) (p : Progress)
    (m : PathMatch) (new : string) :
  table !! path_of scanned m = Some new -> new <> EmptyString ->
  scan_match C uuid4 self note_path scanned (table, p) m
  = Ok (table,
        {| content := str_take (path_begin m) (content p) +:+ new
                      +:+ str_drop (path_end m) (content p);
           attachments_metadata := attachments_metadata p;
           uuid_drawn := uuid_drawn p;
           fs := fs p |}).
Proof.
  intros Hl Hne. unfold scan_match. fold (path_of scanned m). rewrite Hl.
  destruct new; [congruence | reflexivity].
Qed.

(** A path met for the first time: a UUID is drawn, the file is copied
    (unless the run only reports), an entry is added. *)
Lemma scan_match_first (scanned : string) (table : gmap string string) (p : Progress)
    (m : PathMatch) :
  let x := path_of scanned m in
  let asset_name := uuid4 (uuid_drawn p) +:+ ext_of x in
  let new := join (ATTACHMENTS_FOLDER C) asset_name in
  table !! x = None ->
  is_Some (files (fs p) !! join note_path x) ->
  (report_only self = false -> join note_path x <> join (notebook_path self) new) ->
  exists fs' sz,
    scan_match C uuid4 self note_path scanned (table, p) m
    = Ok (<[x := new]> table,
          {| content := str_take (path_begin m) (content p) +:+ new
                        +:+ str_drop (path_end m) (content p);
             attachments_metadata :=
               attachments_metadata p
               ++ [ {| AttachmentMetadata.name := asset_name;
                       AttachmentMetadata.size := sz |} ];
             uuid_drawn := S (uuid_drawn p);
             fs := fs' |}) /\
    (forall q, is_Some (files (fs p) !! q) -> is_Some (files fs' !! q)) /\
    (report_only self = true -> fs' = fs p).
Proof.
  intros x asset_name new Hl [data Hsrc] Hdst.
  unfold scan_match. fold (path_of scanned m). fold x. rewrite Hl.
  fold (ext_of x). fold asset_name. fold new.
  destruct (report_only self) eqn:R.
  - exists (fs p), (String.length data). split; [|auto].
    cbn [mbind result_bind]. unfold Metadata.get_attachment_metadata, getsize.
    rewrite Hsrc. reflexivity.
  - exists {| files := <[join (notebook_path self) new := data]> (files (fs p));
              journal := journal (fs p) ++ [Copied (join note_path x)
                                              (join (notebook_path self) new)] |},
      (String.length data).
    split; [|split; [|discriminate]].
    + unfold copy. rewrite Hsrc.
      specialize (Hdst eq_refl). apply String.eqb_neq in Hdst. rewrite Hdst.
      cbn [mbind result_bind]. unfold Metadata.get_attachment_metadata, getsize.
      cbn [files]. rewrite lookup_insert_ne by (apply String.eqb_neq in Hdst; congruence).
      rewrite Hsrc. reflexivity.
    + intros q Hq. cbn [files].
      destruct (decide (join (notebook_path self) new = q)) as [->|Hne].
      * rewrite lookup_insert_eq. eauto.
      * now rewrite lookup_insert_ne.
Qed.

(** The turn of one pattern, match by match from the last to the first. *)
Lemma scan_matches_spec (scanned : string) (metas0 : list AttachmentMetadata.t)
    (n0 : nat) (fs0 : FileSystem) (ms : list PathMatch) (from : nat) :
  let paths := map (path_of scanned) ms in
  let new_of := fun x => join (ATTACHMENTS_FOLDER C) (name_at uuid4 n0 paths x) in
  spans_ok from ms (String.length scanned) = true ->
  (forall x, x ∈ paths -> is_Some (files fs0 !! join note_path x)) ->
  (report_only self = false ->
   forall x i, x ∈ paths -> n0 <= i < n0 + length ms ->
     join note_path x
     <> join (notebook_path self) (join (ATTACHMENTS_FOLDER C) (uuid4 i +:+ ext_of x))) ->
  (forall i, n0 <= i < n0 + length ms -> is_uuid (uuid4 i) = true) ->
  exists table p',
    foldlM (scan_match C uuid4 self note_path scanned)
      (∅, {| content := scanned; attachments_metadata := metas0;
             uuid_drawn := n0; fs := fs0 |})
      (rev ms) = Ok (table, p') /\
    (forall x, table !! x = if bool_decide (x ∈ paths) then Some (new_of x) else None) /\
    map AttachmentMetadata.name (attachments_metadata p')
    = map AttachmentMetadata.name metas0
      ++ map (name_at uuid4 n0 paths) (rev (remove_dups paths)) /\
    uuid_drawn p' = n0 + length (remove_dups paths) /\
    content p' = str_take from scanned +:+ splice from ms new_of scanned /\
    (forall q, is_Some (files fs0 !! q) -> is_Some (files (fs p') !! q)) /\
    (report_only self = true -> fs p' = fs0).
Proof.
  revert from; induction ms as [|m ms IH]; intros from paths new_of Hspans Hsrc Hdst Huuid.
  - eexists _, _. split; [reflexivity|]. cbn.
    repeat split; auto.
    + now rewrite app_nil_r.
    + now rewrite str_take_drop.
  - cbn [spans_ok] in Hspans.
    apply andb_true_iff in Hspans as [Hspans Hrest].
    apply andb_true_iff in Hspans as [Hfb Hbe].
    apply Nat.leb_le in Hfb, Hbe. pose proof (spans_ok_le _ _ _ Hrest) as Hel.
    set (x := path_of scanned m).
    set (rest := map (path_of scanned) ms).
    assert (paths = x :: rest) as Epaths by reflexivity.
    destruct (IH (path_end m) Hrest) as (table & p' & Hrun & Htable & Hmetas & Hdrawn & Hcontent & Hfs & Hro).
    { intros y Hy. apply Hsrc. rewrite Epaths. now apply list_elem_of_further. }
    { intros R y i Hy Hi. apply (Hdst R); [|simpl; lia].
      rewrite Epaths. now apply list_elem_of_further. }
    { intros i Hi. apply Huuid. simpl. lia. }
    fold rest in Htable, Hmetas, Hdrawn, Hcontent.
    cbn [rev]. rewrite foldlM_snoc, Hrun. cbn [mbind result_bind].
    assert (forall y, y ∈ rest -> name_at uuid4 n0 paths y = name_at uuid4 n0 rest y) as Hname.
    { intros y Hy. unfold name_at. rewrite Epaths. cbn [draw_index].
      now rewrite bool_decide_eq_true_2. }
    assert (splice (path_end m) ms (fun y => join (ATTACHMENTS_FOLDER C) (name_at uuid4 n0 rest y)) scanned
            = splice (path_end m) ms new_of scanned) as Hsplice.
    { apply splice_ext. intros m' Hm'. unfold new_of. rewrite Hname; [reflexivity|].
      apply list_elem_of_fmap. exists m'. auto. }
    rewrite Hsplice in Hcontent.
    destruct (decide (x ∈ rest)) as [Hx|Hx].
    + (* the path was met in a later match *)
      pose proof (Htable x) as Hlx. rewrite bool_decide_eq_true_2 in Hlx by assumption.
      rewrite (scan_match_again _ _ _ _ _ Hlx).
      2:{ apply join_nonempty, is_uuid_name_nonempty, Huuid.
          pose proof (draw_index_lt rest x Hx). pose proof (remove_dups_length_le rest).
          unfold rest in *. rewrite length_map in *. simpl. lia. }
      eexists _, _. split; [reflexivity|]. cbn [content attachments_metadata uuid_drawn fs].
      split; [|split; [|split; [|split; [|split]]]]; try assumption.
      * intros y. rewrite Htable, Epaths.
        destruct (decide (y ∈ rest)) as [Hy|Hy].
        -- rewrite !bool_decide_eq_true_2; [|now apply list_elem_of_further|assumption].
           unfold new_of. now rewrite Hname.
        -- rewrite !bool_decide_eq_false_2; [reflexivity| |assumption].
           intros Hy'. apply elem_of_cons in Hy' as [->|]; contradiction.
      * rewrite Hmetas, Epaths. cbn [remove_dups].
        destruct (decide_rel elem_of x rest); [|contradiction].
        f_equal. apply map_ext_in. intros y Hy. symmetry. apply Hname.
        now apply in_rev_remove_dups.
      * rewrite Hdrawn, Epaths. cbn [remove_dups].
        destruct (decide_rel elem_of x rest); [reflexivity | contradiction].
      * rewrite Hcontent, replace_span by assumption.
        cbn [splice]. fold x. unfold new_of at 2. rewrite (Hname x Hx).
        rewrite (str_take_split from (path_begin m)) by assumption.
        now rewrite !str_app_assoc.
    + (* the first time the path is met *)
      pose proof (Htable x) as Hlx. rewrite bool_decide_eq_false_2 in Hlx by assumption.
      assert (uuid4 (uuid_drawn p') +:+ ext_of x = name_at uuid4 n0 paths x) as Hnew.
      { unfold name_at. rewrite Epaths. cbn [draw_index].
        rewrite bool_decide_eq_false_2 by assumption. now rewrite Hdrawn. }
      destruct (scan_match_first scanned table p' m Hlx) as (fs' & sz & Hstep & Hfs' & Hro').
      { apply Hfs, Hsrc. rewrite Epaths. apply list_elem_of_here. }
      { intros R. apply (Hdst R); [rewrite Epaths; apply list_elem_of_here|].
        rewrite Hdrawn. pose proof (remove_dups_length_le rest).
        unfold rest in *. rewrite length_map in *. simpl. lia. }
      fold x in Hstep. rewrite Hnew in Hstep. rewrite Hstep.
      eexists _, _. split; [reflexivity|]. cbn [content attachments_metadata uuid_drawn fs].
      split; [|split; [|split; [|split; [|split]]]].
      * intros y. rewrite Epaths. destruct (decide (x = y)) as [<-|Hxy].
        -- rewrite lookup_insert_eq, bool_decide_eq_true_2 by apply list_elem_of_here.
           reflexivity.
        -- rewrite lookup_insert_ne, Htable by assumption.
           destruct (decide (y ∈ rest)) as [Hy|Hy].
           ++ rewrite !bool_decide_eq_true_2; [|now apply list_elem_of_further|assumption].
              unfold new_of. now rewrite Hname.
           ++ rewrite !bool_decide_eq_false_2; [reflexivity| |assumption].
              intros Hy'. apply elem_of_cons in Hy' as [->|]; [congruence | contradiction].
      * rewrite map_app, Hmetas, Epaths. cbn [remove_dups].
        destruct (decide_rel elem_of x rest); [contradiction|].
        cbn [rev]. rewrite map_app, <- app_assoc. f_equal. f_equal.
        apply map_ext_in. intros y Hy. symmetry. apply Hname.
        now apply in_rev_remove_dups.
      * rewrite Hdrawn, Epaths. cbn [remove_dups].
        destruct (decide_rel elem_of x rest); [contradiction|]. simpl. lia.
      * rewrite Hcontent, replace_span by assumption.
        cbn [splice]. fold x. unfold new_of at 2.
        rewrite (str_take_split from (path_begin m)) by assumption.
        now rewrite !str_app_assoc.
      * intros q Hq. apply Hfs', Hfs, Hq.
      * intros R. rewrite (Hro' R). apply Hro, R.
Qed.

End Assets.

Section Extension.
Import PyStr PosixPath Vocabulary.

Lemma rfind_None (c : ascii) (s : string) : has_char c s = false -> rfind c s = None.
Proof.
  induction s as [|a s IH]; [reflexivity|]. simpl.
  intros H. apply orb_false_iff in H as [Ha Hs]. now rewrite (IH Hs), Ha.
Qed.

Lemma rfind_app_last (c : ascii) (a b : string) :
  has_char c b = false -> rfind c (a +:+ String c b) = Some (String.length a).
Proof.
  intros Hb. induction a as [|x a IH]; simpl.
  - now rewrite (rfind_None _ _ Hb), Ascii.eqb_refl.
  - now rewrite IH.
Qed.

Lemma rfind_Some (c : ascii) (s : string) (d : nat) :
  rfind c s = Some d ->
  exists b, str_drop d s = String c b /\ has_char c b = false.
Proof.
  revert d; induction s as [|a s IH]; intros d H; [discriminate|].
  simpl in H. destruct (rfind c s) as [i|] eqn:E.
  - injection H as <-. simpl. apply IH. reflexivity.
  - destruct (Ascii.eqb_spec a c) as [->|]; [|discriminate].
    injection H as <-. exists s. split; [reflexivity|].
    clear IH. induction s as [|x s IHs]; [reflexivity|].
    simpl in E |- *. destruct (rfind c s); [discriminate|].
    destruct (Ascii.eqb x c); [discriminate|]. simpl. auto.
Qed.

(** The extension kept is empty, or a dot and then neither dot nor slash. *)
Lemma ext_of_shape (x : string) :
  ext_of x = EmptyString \/
  exists e, ext_of x = String DOT e /\ has_char DOT e = false /\ has_char SLASH e = false.
Proof.
  pose proof (ext_of_no_slash x) as Hs. unfold ext_of, splitext in *.
  destruct (rfind DOT (basename x)) as [d|] eqn:E; [|left; reflexivity].
  destruct (_ && _); [|left; reflexivity].
  right. simpl in *. destruct (rfind_Some _ _ _ E) as (b & Hb & Hd).
  exists b. rewrite Hb in *. change (Ascii.eqb DOT SLASH || has_char SLASH b = false) in Hs.
  apply orb_false_iff in Hs as [_ Hs]. auto.
Qed.

Lemma all_chars_no_dot (s : string) :
  all_chars is_uuid_char s = true -> has_char DOT s = false.
Proof.
  induction s as [|c s IH]; [reflexivity|]. simpl.
  intros H. apply andb_true_iff in H as [Hc Hs]. rewrite (IH Hs), orb_false_r.
  apply Ascii.eqb_neq. intros ->. discriminate.
Qed.

(** The generated name has the extension of the original path. *)
Lemma splitext_generated (u x : string) :
  is_uuid u = true -> snd (splitext (u +:+ ext_of x)) = ext_of x.
Proof.
  intros Hu. pose proof (is_uuid_facts u Hu) as [Hlen Hslash].
  assert (has_char DOT u = false) as Hdot.
  { unfold is_uuid in Hu. apply andb_true_iff in Hu as [_ Hu]. now apply all_chars_no_dot. }
  destruct (ext_of_shape x) as [-> | (e & -> & Hed & Hes)].
  - rewrite str_app_nil_r. unfold splitext. now rewrite (rfind_None _ _ Hdot).
  - unfold splitext. rewrite (rfind_app_last _ _ _ Hed).
    rewrite rfind_None.
    2:{ rewrite has_char_app, Hslash. simpl. now rewrite Hes. }
    unfold slice. rewrite Nat.sub_0_r, str_drop_0, str_take_app_length, str_drop_app_length.
    assert (all_dots u = false) as ->.
    { destruct u as [|c u]; [discriminate Hlen|]. simpl in Hdot |- *.
      apply orb_false_iff in Hdot as [-> _]. reflexivity. }
    reflexivity.
Qed.

End Extension.

Section AssetsTheorems.
Import PyStr PosixPath OS Persist EvernoteMigration Vocabulary.
Variable C : Constants.
Variable uuid4 : nat -> string.
Variable self : t.
Variable note_path : string.

(** The turn of one pattern. *)
Lemma scan_regex_spec (regex : string -> list PathMatch) (p : Progress) :
  let ms := regex (content p) in
  let paths := map (path_of (content p)) ms in
  let new_of :=
    fun x => join (ATTACHMENTS_FOLDER C) (name_at uuid4 (uuid_drawn p) paths x) in
  spans_ok 0 ms (String.length (content p)) = true ->
  (forall x, x ∈ paths -> is_Some (files (fs p) !! join note_path x)) ->
  (report_only self = false ->
   forall x i, x ∈ paths -> uuid_drawn p <= i < uuid_drawn p + length ms ->
     join note_path x
     <> join (notebook_path self) (join (ATTACHMENTS_FOLDER C) (uuid4 i +:+ ext_of x))) ->
  (forall i, uuid_drawn p <= i < uuid_drawn p + length ms -> is_uuid (uuid4 i) = true) ->
  exists p',
    scan_regex C uuid4 self note_path regex p = Ok p' /\
    map AttachmentMetadata.name (attachments_metadata p')
    = map AttachmentMetadata.name (attachments_metadata p)
      ++ map (name_at uuid4 (uuid_drawn p) paths) (rev (remove_dups paths)) /\
    uuid_drawn p' = uuid_drawn p + length (remove_dups paths) /\
    content p' = splice 0 ms new_of (content p) /\
    (forall q, is_Some (files (fs p) !! q) -> is_Some (files (fs p') !! q)) /\
    (report_only self = true -> fs p' = fs p).
Proof.
  intros ms paths new_of Hspans Hsrc Hdst Huuid.
  destruct (scan_matches_spec C uuid4 self note_path (content p) (attachments_metadata p)
              (uuid_drawn p) (fs p) ms 0 Hspans Hsrc Hdst Huuid)
    as (table & p' & Hrun & _ & Hmetas & Hdrawn & Hcontent & Hfs & Hro).
  exists p'. unfold scan_regex. fold ms.
  replace p with {| content := content p; attachments_metadata := attachments_metadata p;
                    uuid_drawn := uuid_drawn p; fs := fs p |} at 2 by (now destruct p).
  rewrite Hrun. split; [reflexivity|]. auto.
Qed.

Lemma name_at_inj (n0 len : nat) (paths : list string) (x y : string) :
  length paths <= len ->
  (forall i, n0 <= i < n0 + len -> is_uuid (uuid4 i) = true) ->
  (forall i j, n0 <= i < n0 + len -> n0 <= j < n0 + len -> uuid4 i = uuid4 j -> i = j) ->
  x ∈ paths -> y ∈ paths ->
  name_at uuid4 n0 paths x = name_at uuid4 n0 paths y -> x = y.
Proof.
  intros Hlen Huuid Hinj Hx Hy E. unfold name_at in E.
  pose proof (draw_index_lt paths x Hx). pose proof (draw_index_lt paths y Hy).
  pose proof (remove_dups_length_le paths).
  apply str_app_inv_length in E as [E _].
  - apply Hinj in E; [|lia|lia]. apply (draw_index_inj paths); [assumption..|lia].
  - destruct (is_uuid_facts _ (Huuid (n0 + draw_index paths x) ltac:(lia))) as [-> _].
    destruct (is_uuid_facts _ (Huuid (n0 + draw_index paths y) ltac:(lia))) as [-> _].
    reflexivity.
Qed.

Lemma name_at_no_slash (n0 : nat) (paths : list string) (x : string) :
  is_uuid (uuid4 (n0 + draw_index paths x)) = true ->
  has_char SLASH (name_at uuid4 n0 paths x) = false.
Proof.
  intros H. unfold name_at. rewrite has_char_app, ext_of_no_slash.
  now destruct (is_uuid_facts _ H) as [_ ->].
Qed.

(** C3, as amended: in the turn of one reference kind, a path matched
    several times gets one metadata entry of that turn (not one per
    occurrence) and one new path, written at each of the occurrences
    matched; two paths get two names and two new paths; a name keeps the
    extension of its path. *)
Theorem scan_regex_dedup (regex : string -> list PathMatch) (p : Progress) :
  let ms := regex (content p) in
  let paths := map (path_of (content p)) ms in
  spans_ok 0 ms (String.length (content p)) = true ->
  (forall x, x ∈ paths -> is_Some (files (fs p) !! join note_path x)) ->
  (report_only self = false ->
   forall x i, x ∈ paths -> uuid_drawn p <= i < uuid_drawn p + length ms ->
     join note_path x
     <> join (notebook_path self) (join (ATTACHMENTS_FOLDER C) (uuid4 i +:+ ext_of x))) ->
  (forall i, uuid_drawn p <= i < uuid_drawn p + length ms -> is_uuid (uuid4 i) = true) ->
  (forall i j, uuid_drawn p <= i < uuid_drawn p + length ms ->
               uuid_drawn p <= j < uuid_drawn p + length ms ->
               uuid4 i = uuid4 j -> i = j) ->
  exists (p' : Progress) (name_of : string -> string),
    scan_regex C uuid4 self note_path regex p = Ok p' /\
    map AttachmentMetadata.name (attachments_metadata p')
    = map AttachmentMetadata.name (attachments_metadata p)
      ++ map name_of (rev (remove_dups paths)) /\
    (forall x, x ∈ paths ->
       count_occ string_dec (map name_of (rev (remove_dups paths))) (name_of x) = 1) /\
    content p' = splice 0 ms (fun x => join (ATTACHMENTS_FOLDER C) (name_of x)) (content p) /\
    (forall x y, x ∈ paths -> y ∈ paths -> x <> y ->
       name_of x <> name_of y /\
       join (ATTACHMENTS_FOLDER C) (name_of x) <> join (ATTACHMENTS_FOLDER C) (name_of y)) /\
    (forall x, x ∈ paths ->
       (exists i, uuid_drawn p <= i < uuid_drawn p' /\ name_of x = uuid4 i +:+ ext_of x) /\
       snd (splitext (name_of x)) = snd (splitext (basename x))).
Proof.
  intros ms paths Hspans Hsrc Hdst Huuid Hinj.
  destruct (scan_regex_spec regex p Hspans Hsrc Hdst Huuid)
    as (p' & Hrun & Hmetas & Hdrawn & Hcontent & _).
  fold ms paths in Hmetas, Hdrawn, Hcontent.
  assert (length paths <= length ms) as Hlen by (unfold paths; now rewrite length_map).
  assert (forall x, x ∈ paths ->
            is_uuid (uuid4 (uuid_drawn p + draw_index paths x)) = true) as Hu.
  { intros x Hx. apply Huuid. pose proof (draw_index_lt paths x Hx).
    pose proof (remove_dups_length_le paths). lia. }
  assert (forall x y, x ∈ paths -> y ∈ paths ->
            name_at uuid4 (uuid_drawn p) paths x = name_at uuid4 (uuid_drawn p) paths y ->
            x = y) as Hnames.
  { intros x y. now apply (name_at_inj (uuid_drawn p) (length ms)). }
  exists p', (name_at uuid4 (uuid_drawn p) paths).
  split; [exact Hrun|]. split; [exact Hmetas|]. split; [|split; [exact Hcontent|split]].
  - intros x Hx.
    assert (List.NoDup (map (name_at uuid4 (uuid_drawn p) paths) (rev (remove_dups paths))))
      as Hnd.
    { apply NoDup_ListNoDup.
      change (NoDup (name_at uuid4 (uuid_drawn p) paths <$> rev (remove_dups paths))).
      apply NoDup_fmap_2_strong.
      - intros a b Ha Hb. apply Hnames.
        + apply list_elem_of_In, in_rev_remove_dups in Ha. exact Ha.
        + apply list_elem_of_In, in_rev_remove_dups in Hb. exact Hb.
      - apply NoDup_ListNoDup, NoDup_rev, NoDup_ListNoDup, NoDup_remove_dups. }
    apply (proj1 (NoDup_count_occ' string_dec _) Hnd).
    apply in_map, in_rev. rewrite rev_involutive.
    apply list_elem_of_In, elem_of_remove_dups, Hx.
  - intros x y Hx Hy Hxy. split.
    + intros E. apply Hxy, Hnames; assumption.
    + intros E. apply join_inj in E; [apply Hxy, Hnames; assumption| |];
        apply name_at_no_slash, Hu; assumption.
  - intros x Hx. split.
    + exists (uuid_drawn p + draw_index paths x). split; [|reflexivity].
      pose proof (draw_index_lt paths x Hx). lia.
    + unfold name_at. apply splitext_generated, Hu, Hx.
Qed.

End AssetsTheorems.

Section TwoKinds.
Import PyStr PosixPath OS Persist EvernoteMigration Vocabulary.
Variable C : Constants.
Variable X : Extractors.
Variable uuid4 : nat -> string.
Variable self : t.
Variable note_path : string.

(** C10: the dict of the renamed attachments is emptied between the turn
    of the file pattern and the turn of the image pattern; a path matched
    in both turns gets an entry and a name in each, the two names differ,
    and so do the two new paths written in the body. *)
Theorem scan_assets_kinds_apart (p : Progress) :
  let n0 := uuid_drawn p in
  let ms1 := REGEX_FILE X (content p) in
  let paths1 := map (path_of (content p)) ms1 in
  let n1 := n0 + length (remove_dups paths1) in
  let content1 :=
    splice 0 ms1 (fun x => join (ATTACHMENTS_FOLDER C) (name_at uuid4 n0 paths1 x))
      (content p) in
  let ms2 := REGEX_IMAGE X content1 in
  let paths2 := map (path_of content1) ms2 in
  let len := length ms1 + length ms2 in
  spans_ok 0 ms1 (String.length (content p)) = true ->
  spans_ok 0 ms2 (String.length content1) = true ->
  (forall x, x ∈ paths1 ++ paths2 -> is_Some (files (fs p) !! join note_path x)) ->
  (report_only self = false ->
   forall x i, x ∈ paths1 ++ paths2 -> n0 <= i < n0 + len ->
     join note_path x
     <> join (notebook_path self) (join (ATTACHMENTS_FOLDER C) (uuid4 i +:+ ext_of x))) ->
  (forall i, n0 <= i < n0 + len -> is_uuid (uuid4 i) = true) ->
  (forall i j, n0 <= i < n0 + len -> n0 <= j < n0 + len -> uuid4 i = uuid4 j -> i = j) ->
  exists p',
    scan_assets C X uuid4 self note_path p = Ok p' /\
    map AttachmentMetadata.name (attachments_metadata p')
    = map AttachmentMetadata.name (attachments_metadata p)
      ++ map (name_at uuid4 n0 paths1) (rev (remove_dups paths1))
      ++ map (name_at uuid4 n1 paths2) (rev (remove_dups paths2)) /\
    content p'
    = splice 0 ms2 (fun x => join (ATTACHMENTS_FOLDER C) (name_at uuid4 n1 paths2 x))
        content1 /\
    forall x, x ∈ paths1 -> x ∈ paths2 ->
      In (name_at uuid4 n0 paths1 x)
         (map (name_at uuid4 n0 paths1) (rev (remove_dups paths1))) /\
      In (name_at uuid4 n1 paths2 x)
         (map (name_at uuid4 n1 paths2) (rev (remove_dups paths2))) /\
      name_at uuid4 n0 paths1 x <> name_at uuid4 n1 paths2 x /\
      join (ATTACHMENTS_FOLDER C) (name_at uuid4 n0 paths1 x)
      <> join (ATTACHMENTS_FOLDER C) (name_at uuid4 n1 paths2 x).
Proof.
  intros n0 ms1 paths1 n1 content1 ms2 paths2 len Hsp1 Hsp2 Hsrc Hdst Huuid Hinj.
  pose proof (remove_dups_length_le paths1) as Hle1.
  assert (length paths1 = length ms1) as Hl1 by (unfold paths1; now rewrite length_map).
  assert (length paths2 = length ms2) as Hl2 by (unfold paths2; now rewrite length_map).
  destruct (scan_regex_spec C uuid4 self note_path (REGEX_FILE X) p Hsp1)
    as (p1 & Hrun1 & Hmetas1 & Hdrawn1 & Hcontent1 & Hfs1 & _).
  { intros x Hx. apply Hsrc, elem_of_app. now left. }
  { intros R x i Hx Hi. apply (Hdst R); [apply elem_of_app; now left|].
    fold n0 ms1 in Hi. unfold len. lia. }
  { intros i Hi. apply Huuid. fold n0 ms1 in Hi. unfold len. lia. }
  fold ms1 paths1 n0 in Hmetas1, Hdrawn1, Hcontent1. fold content1 in Hcontent1.
  fold n1 in Hdrawn1.
  destruct (scan_regex_spec C uuid4 self note_path (REGEX_IMAGE X) p1)
    as (p2 & Hrun2 & Hmetas2 & Hdrawn2 & Hcontent2 & _).
  { rewrite Hcontent1. exact Hsp2. }
  { rewrite Hcontent1. intros x Hx. apply Hfs1, Hsrc, elem_of_app. now right. }
  { rewrite Hcontent1, Hdrawn1. intros R x i Hx Hi.
    apply (Hdst R); [apply elem_of_app; now right|]. fold ms2 in Hi. unfold len. lia. }
  { rewrite Hcontent1, Hdrawn1. intros i Hi. apply Huuid. fold ms2 in Hi. unfold len. lia. }
  rewrite Hcontent1, Hdrawn1 in Hmetas2, Hcontent2. fold ms2 paths2 in Hmetas2, Hcontent2.
  exists p2. split; [|split; [|split]].
  - unfold scan_assets. cbn [foldlM]. rewrite Hrun1. cbn [mbind result_bind].
    rewrite Hrun2. reflexivity.
  - rewrite Hmetas2, Hmetas1, <- app_assoc. reflexivity.
  - exact Hcontent2.
  - intros x Hx1 Hx2.
    pose proof (draw_index_lt paths1 x Hx1) as Hi1.
    pose proof (draw_index_lt paths2 x Hx2) as Hi2.
    pose proof (remove_dups_length_le paths2) as Hle2.
    assert (name_at uuid4 n0 paths1 x <> name_at uuid4 n1 paths2 x) as Hne.
    { unfold name_at. intros E. apply str_app_inv_length in E as [E _].
      - apply Hinj in E; unfold n1, len in *; lia.
      - destruct (is_uuid_facts _ (Huuid (n0 + draw_index paths1 x)
                                     ltac:(unfold len; lia))) as [-> _].
        destruct (is_uuid_facts _ (Huuid (n1 + draw_index paths2 x)
                                     ltac:(unfold n1, len; lia))) as [-> _].
        reflexivity. }
    split; [|split; [|split; [exact Hne|]]].
    + apply in_map, in_rev. rewrite rev_involutive.
      now apply list_elem_of_In, elem_of_remove_dups.
    + apply in_map, in_rev. rewrite rev_involutive.
      now apply list_elem_of_In, elem_of_remove_dups.
    + intros E. apply join_inj in E; [contradiction| |];
        apply name_at_no_slash, Huuid; unfold n1, len; lia.
Qed.

End TwoKinds.

Section AssetsExamples.
Import PyStr PosixPath OS Persist EvernoteMigration Vocabulary Samples.

Lemma sample_paths (x : string) (l : list string) :
  x ∈ l -> Forall (fun y => y = "img.png") l -> x = "img.png".
Proof. intros Hx Hl. rewrite Forall_forall in Hl. auto. Qed.

Lemma scan_regex_dedup_witness :
exists p',
  scan_regex sample_constants sample_uuid4 sample_self "nb/My Note"
    sample_regex_twice sample_twice = Ok p' /\
  map AttachmentMetadata.name (attachments_metadata p')
  = ["0b5c1d2e-3f4a-4b6c-8d7e-9f0a1b2c3d4e.png"] /\
  content p'
  = "[a](attachments/0b5c1d2e-3f4a-4b6c-8d7e-9f0a1b2c3d4e.png) and [b](attachments/0b5c1d2e-3f4a-4b6c-8d7e-9f0a1b2c3d4e.png)".
Proof.
destruct (scan_regex_dedup sample_constants sample_uuid4 sample_self "nb/My Note"
            sample_regex_twice sample_twice) as (p' & name_of & Hrun & _).
- reflexivity.
- intros x Hx. apply sample_paths in Hx; [|repeat constructor].
  rewrite Hx. eexists. reflexivity.
- intros _ x i Hx Hi. apply sample_paths in Hx; [|repeat constructor].
  rewrite Hx. assert (i = 0 \/ i = 1) as [-> | ->] by (cbn in Hi; lia);
    vm_compute; discriminate.
- intros i Hi. assert (i = 0 \/ i = 1) as [-> | ->] by (cbn in Hi; lia); reflexivity.
- intros i j Hi Hj.
  assert (i = 0 \/ i = 1) as [-> | ->] by (cbn in Hi; lia);
    assert (j = 0 \/ j = 1) as [-> | ->] by (cbn in Hj; lia);
    try reflexivity; vm_compute; discriminate.
- exists p'. split; [exact Hrun|].
  vm_compute in Hrun. injection Hrun as <-. split; reflexivity.
Defined.

Lemma scan_assets_kinds_apart_witness :
exists p',
  scan_assets sample_constants sample_extractors sample_uuid4 sample_self
    "nb/My Note" sample_both = Ok p' /\
  map AttachmentMetadata.name (attachments_metadata p')
  = ["0b5c1d2e-3f4a-4b6c-8d7e-9f0a1b2c3d4e.png"; "7a8b9c0d-1e2f-4a3b-9c4d-5e6f7a8b9c0d.png"] /\
  content p'
  = "[a](attachments/0b5c1d2e-3f4a-4b6c-8d7e-9f0a1b2c3d4e.png) and ![b](attachments/7a8b9c0d-1e2f-4a3b-9c4d-5e6f7a8b9c0d.png)".
Proof.
destruct (scan_assets_kinds_apart sample_constants sample_extractors sample_uuid4
            sample_self "nb/My Note" sample_both) as (p' & Hrun & _).
- reflexivity.
- reflexivity.
- intros x Hx. apply sample_paths in Hx; [|repeat constructor].
  rewrite Hx. eexists. reflexivity.
- intros _ x i Hx Hi. apply sample_paths in Hx; [|repeat constructor].
  rewrite Hx. assert (i = 0 \/ i = 1) as [-> | ->] by (cbn in Hi; lia);
    vm_compute; discriminate.
- intros i Hi. assert (i = 0 \/ i = 1) as [-> | ->] by (cbn in Hi; lia); reflexivity.
- intros i j Hi Hj.
  assert (i = 0 \/ i = 1) as [-> | ->] by (cbn in Hi; lia);
    assert (j = 0 \/ j = 1) as [-> | ->] by (cbn in Hj; lia);
    try reflexivity; vm_compute; discriminate.
- exists p'. split; [exact Hrun|].
  vm_compute in Hrun. injection Hrun as <-. split; reflexivity.
Defined.

(** C3, as stated, fails when the other reference kind matches the path
  too: the file pattern matches [img.png] twice and the image pattern
  once, and the note gets two entries for it, one of each turn. *)
Lemma scan_assets_entry_per_kind :
map (path_of (content sample_mixed))
  (REGEX_FILE sample_extractors_mixed (content sample_mixed)) = ["img.png"; "img.png"] /\
exists p',
  scan_assets sample_constants sample_extractors_mixed sample_uuid4 sample_self
    "nb/My Note" sample_mixed = Ok p' /\
  attachments_metadata p'
  = [ {| AttachmentMetadata.name := "0b5c1d2e-3f4a-4b6c-8d7e-9f0a1b2c3d4e.png";
         AttachmentMetadata.size := 3 |};
      {| AttachmentMetadata.name := "7a8b9c0d-1e2f-4a3b-9c4d-5e6f7a8b9c0d.png";
         AttachmentMetadata.size := 3 |} ] /\
  content p'
  = "[a](attachments/0b5c1d2e-3f4a-4b6c-8d7e-9f0a1b2c3d4e.png) [b](attachments/0b5c1d2e-3f4a-4b6c-8d7e-9f0a1b2c3d4e.png) ![c](attachments/7a8b9c0d-1e2f-4a3b-9c4d-5e6f7a8b9c0d.png)".
Proof.
split; [reflexivity|]. eexists. split; [vm_compute; reflexivity|].
split; reflexivity.
Qed.

End AssetsExamples.

(** ** The report (src/report.py) *)

Section ReportFacts.
Import Report.
Variable strftime : datetime -> string.
Variable strptime : string -> option datetime.
Variable py_int : string -> option nat.

Lemma foldlM_raise {A B : Type} (f : A -> B -> result A) (a : A) (b : B) (l : list B)
    (e : exn) :
  f a b = Raise e -> foldlM f a (b :: l) = Raise e.
Proof. intros H. simpl. now rewrite H. Qed.

(** A line written for a note without one of its dates cannot be read
    back as a note. *)
Lemma _get_note_metadata_from_line_undated (note_metadata : NoteMetadata.t)
    (tail : list string) :
  strptime EmptyString = None ->
  NoteMetadata.date_created note_metadata = None
  \/ NoteMetadata.date_updated note_metadata = None ->
  exists e,
    _get_note_metadata_from_line strptime py_int (note_cells strftime note_metadata ++ tail)
    = Raise e.
Proof.
  intros Hempty Hdate. unfold _get_note_metadata_from_line, note_cells, col. cbn.
  unfold parse_int. destruct (py_int _); [|eauto]. cbn.
  unfold parse_datetime, _format_datetime.
  destruct (NoteMetadata.date_created note_metadata) as [dc|]; cbn.
  - destruct (strptime (strftime dc)); [|eauto]. cbn.
    destruct Hdate as [Hdate | ->]; [discriminate|]. cbn. rewrite Hempty. eauto.
  - rewrite Hempty. eauto.
Qed.

(** C9 in the code: the lines written for a document that lacks its
    creation date or its update date are not read back; reading the
    report raises. *)
Theorem read_report_csv_undated (note_metadata : NoteMetadata.t)
    (attachments_metadata : list AttachmentMetadata.t) :
  strptime EmptyString = None ->
  NoteMetadata.date_created note_metadata = None
  \/ NoteMetadata.date_updated note_metadata = None ->
  exists e,
    read_report_csv strptime py_int
      (add_report_csv strftime [] note_metadata attachments_metadata)
    = Raise e.
Proof.
  intros Hempty Hdate.
  assert (exists tail rest,
            add_report_csv strftime [] note_metadata attachments_metadata
            = (note_cells strftime note_metadata ++ tail) :: rest) as (tail & rest & ->).
  { unfold add_report_csv. destruct attachments_metadata as [|a l]; simpl; eauto. }
  destruct (_get_note_metadata_from_line_undated note_metadata tail Hempty Hdate) as [e He].
  unfold read_report_csv.
  assert (exists e', read_line strptime py_int ([], None)
                       (note_cells strftime note_metadata ++ tail) = Raise e') as [e' He'].
  { unfold read_line.
    destruct (_get_attachment_metadata_from_line py_int _) as [att|e0]; [|eauto].
    cbn [mbind result_bind]. rewrite He. cbn. eauto. }
  exists e'. rewrite (foldlM_raise _ _ _ _ _ He'). reflexivity.
Qed.

(** *** Reading back what was written *)

Variable reparse : datetime -> datetime.

Local Abbreviation reportable := (Vocabulary.reportable strftime strptime py_int reparse).

Local Abbreviation doc_lines := (Vocabulary.doc_lines strftime).

Lemma add_report_csv_app (report : list Line) (m : NoteMetadata.t)
    (atts : list AttachmentMetadata.t) :
  add_report_csv strftime report m atts = report ++ doc_lines (m, atts).
Proof. unfold Vocabulary.doc_lines, add_report_csv. destruct atts; reflexivity. Qed.

Lemma write_all_concat (docs : list Vocabulary.Document) (report : list Line) :
  fold_left (fun report doc => add_report_csv strftime report (fst doc) (snd doc)) docs report
  = report ++ concat (map doc_lines docs).
Proof.
  revert report; induction docs as [|[m atts] docs IH]; intros report; simpl.
  - now rewrite app_nil_r.
  - rewrite IH, add_report_csv_app, <- app_assoc. reflexivity.
Qed.

Lemma foldlM_app {A B : Type} (f : A -> B -> result A) (a : A) (l1 l2 : list B) :
  foldlM f a (l1 ++ l2) = (a' ← foldlM f a l1; foldlM f a' l2).
Proof.
  revert a; induction l1 as [|x l1 IH]; intros a; simpl.
  - destruct (foldlM f a l2); reflexivity.
  - destruct (f a x); simpl; [apply IH | reflexivity].
Qed.

Lemma read_note_cells (doc : Vocabulary.Document) (tail : list string) :
  reportable doc ->
  _get_note_metadata_from_line strptime py_int (note_cells strftime (fst doc) ++ tail)
  = Ok (Vocabulary.read_back reparse (fst doc)).
Proof.
  intros ((dc & Hdc & Hpc) & (du & Hdu & Hpu) & Hsz & _).
  unfold _get_note_metadata_from_line, note_cells, col, Vocabulary.read_back. cbn.
  unfold parse_int. rewrite Hsz. cbn.
  unfold parse_datetime, _format_datetime. rewrite Hdc, Hdu. cbn.
  rewrite Hpc. cbn. rewrite Hpu. reflexivity.
Qed.

Lemma read_attachment_cells (m : NoteMetadata.t) (a : AttachmentMetadata.t) :
  AttachmentMetadata.name a <> EmptyString
  /\ py_int (PyStr.of_nat (AttachmentMetadata.size a)) = Some (AttachmentMetadata.size a) ->
  _get_attachment_metadata_from_line py_int
    (note_cells strftime m ++ [AttachmentMetadata.name a;
                               PyStr.of_nat (AttachmentMetadata.size a)])
  = Ok (Some a).
Proof.
  intros [Hn Hsz]. unfold _get_attachment_metadata_from_line, note_cells, col. cbn.
  destruct a as [n sz]. simpl in *. destruct n; [congruence|].
  unfold parse_int. rewrite Hsz. reflexivity.
Qed.

Lemma col_note_name (m : NoteMetadata.t) (tail : list string) :
  col (note_cells strftime m ++ tail) _COL_NOTE_NAME = Ok (NoteMetadata.name m).
Proof. reflexivity. Qed.

(** A further line of the note being read adds its attachment. *)
Lemma read_line_same (m : NoteMetadata.t) (a : AttachmentMetadata.t)
    (acc : list AttachmentMetadata.t) (notes : list Note.t) (body : NoteMetadata.t) :
  NoteMetadata.name body = NoteMetadata.name m ->
  AttachmentMetadata.name a <> EmptyString
  /\ py_int (PyStr.of_nat (AttachmentMetadata.size a)) = Some (AttachmentMetadata.size a) ->
  read_line strptime py_int
    (notes, Some {| Note.body := body; Note.attachments := acc |})
    (note_cells strftime m ++
     [AttachmentMetadata.name a; PyStr.of_nat (AttachmentMetadata.size a)])
  = Ok (notes, Some {| Note.body := body; Note.attachments := acc ++ [a] |}).
Proof.
  intros Hname Ha. unfold read_line. rewrite (read_attachment_cells m a Ha).
  cbn [mbind result_bind Note.body Note.attachments].
  rewrite col_note_name. cbn [mbind result_bind].
  rewrite Hname, String.eqb_refl. reflexivity.
Qed.

(** The first line of a document opens a new note, the note being read
    before it (of another name) being complete. *)
Lemma read_line_open (doc : Vocabulary.Document) (tail : list string)
    (notes : list Note.t) (cur : option Note.t) (attachment : option AttachmentMetadata.t) :
  reportable doc ->
  (forall c, cur = Some c ->
             NoteMetadata.name (Note.body c) <> NoteMetadata.name (fst doc)) ->
  _get_attachment_metadata_from_line py_int (note_cells strftime (fst doc) ++ tail)
  = Ok attachment ->
  read_line strptime py_int (notes, cur) (note_cells strftime (fst doc) ++ tail)
  = Ok (notes ++ option_list cur,
        Some {| Note.body := Vocabulary.read_back reparse (fst doc);
                Note.attachments := option_list attachment |}).
Proof.
  intros Hdoc Hcur Hatt. unfold read_line. rewrite Hatt.
  cbn [mbind result_bind]. rewrite (read_note_cells doc tail Hdoc). destruct cur as [c|].
  - rewrite col_note_name. cbn [mbind result_bind].
    specialize (Hcur c eq_refl). apply String.eqb_neq in Hcur. rewrite Hcur.
    cbn [mbind result_bind]. destruct attachment; reflexivity.
  - cbn [mbind result_bind]. rewrite app_nil_r. destruct attachment; reflexivity.
Qed.

Lemma read_more_lines (m : NoteMetadata.t) (atts acc : list AttachmentMetadata.t)
    (notes : list Note.t) (body : NoteMetadata.t) :
  NoteMetadata.name body = NoteMetadata.name m ->
  Forall (fun a => AttachmentMetadata.name a <> EmptyString
                   /\ py_int (PyStr.of_nat (AttachmentMetadata.size a))
                      = Some (AttachmentMetadata.size a)) atts ->
  foldlM (read_line strptime py_int)
    (notes, Some {| Note.body := body; Note.attachments := acc |})
    (map (fun a => note_cells strftime m ++
                   [AttachmentMetadata.name a; PyStr.of_nat (AttachmentMetadata.size a)])
         atts)
  = Ok (notes, Some {| Note.body := body; Note.attachments := acc ++ atts |}).
Proof.
  intros Hname. revert acc; induction atts as [|a atts IH]; intros acc Hall.
  - simpl. now rewrite app_nil_r.
  - apply Forall_cons in Hall as [Ha Hall]. cbn [map foldlM].
    rewrite (read_line_same m a acc notes body Hname Ha). cbn [mbind result_bind].
    rewrite (IH (acc ++ [a]) Hall), <- app_assoc. reflexivity.
Qed.

(** The lines of a document are read as one note. *)
Lemma read_doc_lines (doc : Vocabulary.Document) (notes : list Note.t) (cur : option Note.t) :
  reportable doc ->
  (forall c, cur = Some c ->
             NoteMetadata.name (Note.body c) <> NoteMetadata.name (fst doc)) ->
  foldlM (read_line strptime py_int) (notes, cur) (doc_lines doc)
  = Ok (notes ++ option_list cur,
        Some {| Note.body := Vocabulary.read_back reparse (fst doc);
                Note.attachments := snd doc |}).
Proof.
  intros Hdoc Hcur. pose proof Hdoc as (_ & _ & _ & Hall).
  destruct doc as [m atts]. simpl in Hall, Hcur.
  unfold Vocabulary.doc_lines, add_report_csv. cbn [fst snd app].
  destruct atts as [|a atts].
  - cbn [foldlM].
    pose proof (read_line_open (m, []) [EmptyString; EmptyString] notes cur None Hdoc Hcur
                  eq_refl) as Hopen.
    cbn [fst] in Hopen. rewrite Hopen. reflexivity.
  - apply Forall_cons in Hall as [Ha Hall]. cbn [map foldlM].
    pose proof (read_line_open (m, a :: atts) _ notes cur (Some a) Hdoc Hcur
                  (read_attachment_cells m a Ha)) as Hopen.
    cbn [fst] in Hopen. rewrite Hopen.
    cbn [mbind result_bind]. change (option_list (Some a)) with [a].
    rewrite (read_more_lines m atts [a] _ (Vocabulary.read_back reparse m) eq_refl Hall).
    reflexivity.
Qed.

Lemma read_all_docs (docs : list Vocabulary.Document) (notes : list Note.t)
    (cur : option Note.t) :
  Forall reportable docs -> Vocabulary.names_change docs ->
  (forall c d, cur = Some c -> head docs = Some d ->
               NoteMetadata.name (Note.body c) <> NoteMetadata.name (fst d)) ->
  exists notes' cur',
    foldlM (read_line strptime py_int) (notes, cur) (concat (map doc_lines docs))
    = Ok (notes', cur') /\
    notes' ++ option_list cur'
    = notes ++ option_list cur
      ++ map (fun doc => {| Note.body := Vocabulary.read_back reparse (fst doc);
                            Note.attachments := snd doc |}) docs.
Proof.
  revert notes cur; induction docs as [|doc docs IH]; intros notes cur Hall Hnames Hcur.
  - exists notes, cur. split; [reflexivity|]. simpl. now rewrite app_nil_r.
  - apply Forall_cons in Hall as [Hdoc Hall]. cbn [map concat].
    rewrite foldlM_app, (read_doc_lines doc notes cur Hdoc); [|eauto].
    cbn [mbind result_bind].
    destruct (IH (notes ++ option_list cur)
                (Some {| Note.body := Vocabulary.read_back reparse (fst doc);
                         Note.attachments := snd doc |}) Hall)
      as (notes' & cur' & Hrun & Hres).
    + destruct docs; [exact I | apply Hnames].
    + intros c d [= <-] Hd. destruct docs as [|d' docs]; [discriminate|].
      injection Hd as <-. simpl. apply Hnames.
    + exists notes', cur'. split; [exact Hrun|]. rewrite Hres. simpl.
      now rewrite <- !app_assoc.
Qed.

(** The round trip of the report, for documents that have both their
    dates and are written one after the other under changing names: what
    is read back is one note per document, in the order written, with the
    attachments of the document in their order. *)
Theorem report_round_trip (docs : list Vocabulary.Document) :
  Forall reportable docs -> Vocabulary.names_change docs ->
  read_report_csv strptime py_int (Vocabulary.write_all strftime docs)
  = Ok (map (fun doc => {| Note.body := Vocabulary.read_back reparse (fst doc);
                           Note.attachments := snd doc |}) docs).
Proof.
  intros Hall Hnames. unfold Vocabulary.write_all. rewrite write_all_concat. simpl.
  destruct (read_all_docs docs [] None Hall Hnames) as (notes' & cur' & Hrun & Hres);
    [discriminate|].
  unfold read_report_csv. rewrite Hrun. cbn [mbind result_bind]. simpl in Hres.
  rewrite <- Hres. destruct cur'; simpl; [reflexivity | now rewrite app_nil_r].
Qed.

End ReportFacts.

Lemma read_report_csv_undated_witness :
  exists e,
    Report.read_report_csv Samples.sample_strptime Samples.sample_int
      (Report.add_report_csv Samples.sample_strftime [] (Samples.sample_note None)
         Samples.sample_attachments)
    = Raise e.
Proof.
  apply read_report_csv_undated; [reflexivity | left; reflexivity].
Defined.

Lemma report_round_trip_witness :
  Report.read_report_csv Samples.sample_strptime Samples.sample_int
    (Vocabulary.write_all Samples.sample_strftime
       [(Samples.sample_note (Some Samples.sample_date), Samples.sample_attachments)])
  = Ok [ {| Note.body :=
              Vocabulary.read_back (fun d => d) (Samples.sample_note (Some Samples.sample_date));
            Note.attachments := Samples.sample_attachments |} ].
Proof.
  apply (report_round_trip Samples.sample_strftime Samples.sample_strptime Samples.sample_int
           (fun d => d)
           [(Samples.sample_note (Some Samples.sample_date), Samples.sample_attachments)]).
  - apply Forall_singleton. split; [|split; [|split]].
    + exists Samples.sample_date. split; reflexivity.
    + exists Samples.sample_date. split; reflexivity.
    + reflexivity.
    + repeat apply Forall_cons_2; try apply Forall_nil_2; (split; [discriminate | reflexivity]).
  - exact I.
Defined.

(** ** More on the converters (src/converters.py) *)

Section ConvertersMore.
Import PyStr Converters Vocabulary.

Lemma replace_chr_length (c : ascii) (new s : string) :
  String.length new <= 1 ->
  String.length (replace (chr c) new s) <= String.length s.
Proof.
  intros Hn. induction s as [|a s IH]; [simpl; lia|].
  rewrite replace_chr_cons, str_length_app.
  change (String.length (String a s)) with (S (String.length s)).
  destruct (Ascii.eqb c a); [lia|]. change (String.length (chr a)) with 1. lia.
Qed.

Lemma lstrip_dash_length (s : string) : String.length (lstrip_dash s) <= String.length s.
Proof.
  induction s as [|a s IH]; simpl; [lia|].
  destruct (Ascii.eqb a DASH); simpl; lia.
Qed.

Lemma leading_dash_group_length (t : string) :
  t <> EmptyString -> String.length (leading_dash_group t) <= String.length t.
Proof.
  intros Ht. unfold leading_dash_group.
  pose proof (lstrip_dash_length t) as H.
  destruct (lstrip_dash t); [|assumption].
  destruct t; [congruence | simpl; lia].
Qed.

Lemma sub_length (s : string) :
  String.length (REGEX_LEADING_DASH_sub s) <= String.length s.
Proof.
  destruct (sub_cases s) as [-> | (t & nl & -> & _ & Ht & _ & ->)]; [lia|].
  rewrite !str_length_app. pose proof (leading_dash_group_length t Ht). lia.
Qed.

(** The standardized name of a note holds no double quote, single quote,
    slash, question mark or exclamation mark, whatever the name given,
    and is not longer than it. *)
Theorem standardize_note_name_safe (name : string) :
  has_char DQUOTE (standardize_note_name name) = false /\
  has_char SQUOTE (standardize_note_name name) = false /\
  has_char SLASH (standardize_note_name name) = false /\
  has_char QMARK (standardize_note_name name) = false /\
  has_char EMARK (standardize_note_name name) = false /\
  String.length (standardize_note_name name) <= String.length name.
Proof.
  pose proof (proj1 (has_special_false _) (standardize_note_name_no_special name))
    as (H1 & H2 & H3 & H4 & H5).
  repeat split; try assumption.
  unfold standardize_note_name.
  repeat (etransitivity; [apply replace_chr_length; simpl; lia|]).
  apply sub_length.
Qed.

Lemma lower_char_fix (c : ascii) : lower_char (lower_char c) = lower_char c.
Proof. destruct c as [[] [] [] [] [] [] [] []]; reflexivity. Qed.

Lemma lower_char_eqb (c d : ascii) :
  lower_char d = d -> (forall e, lower_char e = d -> e = d) ->
  Ascii.eqb (lower_char c) d = Ascii.eqb c d.
Proof.
  intros Hd Hinv. destruct (Ascii.eqb_spec c d) as [->|Hne].
  - rewrite Hd. apply Ascii.eqb_refl.
  - apply Ascii.eqb_neq. intros E. apply Hne, Hinv, E.
Qed.

Lemma lower_char_dash (e : ascii) : lower_char e = DASH -> e = DASH.
Proof. destruct e as [[] [] [] [] [] [] [] []]; vm_compute; congruence. Qed.

Lemma lower_char_underscore (e : ascii) : lower_char e = UNDERSCORE -> e = UNDERSCORE.
Proof. destruct e as [[] [] [] [] [] [] [] []]; vm_compute; congruence. Qed.

Lemma lower_fix (s : string) : lower (lower s) = lower s.
Proof. induction s as [|c s IH]; simpl; [reflexivity | now rewrite lower_char_fix, IH]. Qed.

Lemma has_char_lower (d : ascii) (s : string) :
  lower_char d = d -> (forall e, lower_char e = d -> e = d) ->
  has_char d (lower s) = has_char d s.
Proof.
  intros Hd Hinv. induction s as [|c s IH]; simpl; [reflexivity|].
  now rewrite lower_char_eqb, IH.
Qed.

Lemma _standardize_tag_plain (tag : string) :
  has_char DASH (_standardize_tag tag) = false /\
  has_char UNDERSCORE (_standardize_tag tag) = false.
Proof.
  unfold _standardize_tag. split.
  - rewrite has_char_lower by (reflexivity || apply lower_char_dash).
    rewrite !has_char_replace_chr. simpl.
    now rewrite !andb_false_r.
  - rewrite has_char_lower by (reflexivity || apply lower_char_underscore).
    rewrite !has_char_replace_chr. simpl.
    now rewrite !andb_false_r.
Qed.

(** The normalized form of a tag is a normal form: it holds no dash and no
    underscore, lower-casing leaves it as it is, and normalizing it again
    gives it back. *)
Theorem _standardize_tag_idempotent (tag : string) :
  has_char DASH (_standardize_tag tag) = false /\
  has_char UNDERSCORE (_standardize_tag tag) = false /\
  lower (_standardize_tag tag) = _standardize_tag tag /\
  _standardize_tag (_standardize_tag tag) = _standardize_tag tag.
Proof.
  destruct (_standardize_tag_plain tag) as [Hd Hu].
  assert (lower (_standardize_tag tag) = _standardize_tag tag) as Hl
    by (unfold _standardize_tag; apply lower_fix).
  repeat split; try assumption.
  unfold _standardize_tag at 1.
  rewrite (replace_chr_absent DASH _ _ Hd), (replace_chr_absent UNDERSCORE _ _ Hu).
  exact Hl.
Qed.

Lemma startswith_hashed_plain (w : string) (c : ascii) (s : string) :
  Ascii.eqb c HASH = false -> startswith (String HASH w) (String c s) = false.
Proof.
  intros H. simpl. rewrite Ascii.eqb_sym, H. reflexivity.
Qed.

(** What stands before the first hash is out of the reach of a
    replacement of [#w]. *)
Lemma replace_from_hashed_prefix (w new pre rest : string) :
  has_char HASH pre = false ->
  replace_from (String HASH w) new 0 (pre +:+ rest)
  = pre +:+ replace_from (String HASH w) new 0 rest.
Proof.
  induction pre as [|c pre IH]; intros H; [reflexivity|].
  simpl in H. apply orb_false_iff in H as [Hc Hp].
  change (String c pre +:+ rest) with (String c (pre +:+ rest)).
  rewrite replace_from_miss by now apply startswith_hashed_plain.
  now rewrite IH.
Qed.

Lemma rewrite_tag_prefix (tag pre rest : string) :
  has_char HASH pre = false ->
  rewrite_tag (pre +:+ rest) tag = pre +:+ rewrite_tag rest tag.
Proof.
  intros H. unfold rewrite_tag.
  destruct (String.eqb (_standardize_tag tag) tag); [reflexivity|].
  change (chr HASH +:+ tag) with (String HASH tag).
  unfold replace. now apply replace_from_hashed_prefix.
Qed.

Lemma rewrite_tags_prefix (tags : list string) (pre rest : string) :
  has_char HASH pre = false ->
  fold_left rewrite_tag tags (pre +:+ rest) = pre +:+ fold_left rewrite_tag tags rest.
Proof.
  intros H. revert rest; induction tags as [|t tags IH]; intros rest; [reflexivity|].
  simpl. now rewrite rewrite_tag_prefix, IH.
Qed.

Lemma rewrite_tags_nil (tags : list string) : fold_left rewrite_tag tags EmptyString = EmptyString.
Proof.
  induction tags as [|t tags IH]; [reflexivity|].
  simpl. unfold rewrite_tag at 2.
  destruct (String.eqb (_standardize_tag t) t); exact IH.
Qed.

(** The rewriting of the tags reaches nothing before the first hash of
    the body: whatever the declaration of the tags, that part is given
    back as it is. *)
Theorem standardize_tags_keeps_prefix (pre rest : string) :
  has_char HASH pre = false ->
  exists rest', standardize_tags (pre +:+ rest) = pre +:+ rest'.
Proof.
  intros H. unfold standardize_tags.
  destruct (REGEX_TAGS_search (pre +:+ rest)) as [tags|].
  - eexists. now apply rewrite_tags_prefix.
  - now exists rest.
Qed.

Lemma standardize_tags_keeps_prefix_witness :
  exists rest',
    standardize_tags (lines ["tags: [Foo-Bar]"; "about "] +:+ "#Foo-Bar")
    = lines ["tags: [Foo-Bar]"; "about "] +:+ rest'.
Proof.
  apply (standardize_tags_keeps_prefix (lines ["tags: [Foo-Bar]"; "about "]) "#Foo-Bar").
  reflexivity.
Defined.

Lemma REGEX_TAGS_match_declared (s tags : string) :
  REGEX_TAGS_match s = Some tags -> startswith "tags:" s = true.
Proof.
  unfold REGEX_TAGS_match. destruct (startswith "tags:" s); [reflexivity | discriminate].
Qed.

Lemma REGEX_TAGS_search_declared (at_line_start : bool) (s tags : string) :
  REGEX_TAGS_search_from at_line_start s = Some tags -> contains "tags:" s = true.
Proof.
  revert at_line_start; induction s as [|c s IH]; intros b.
  - cbn [REGEX_TAGS_search_from]. destruct b; cbn; discriminate.
  - cbn [REGEX_TAGS_search_from].
    destruct (if b then REGEX_TAGS_match (String c s) else None) as [t|] eqn:E.
    + intros _. destruct b; [|discriminate].
      apply REGEX_TAGS_match_declared in E.
      cbn [contains]. rewrite E. reflexivity.
    + intros H. apply IH in H. cbn [contains]. rewrite H. apply orb_true_r.
Qed.

(** A body that does not hold the text [tags:], and a body that holds no
    hash, are given back unchanged. *)
Theorem standardize_tags_unchanged (content : string) :
  contains "tags:" content = false \/ has_char HASH content = false ->
  standardize_tags content = content.
Proof.
  unfold standardize_tags. intros [H|H].
  - destruct (REGEX_TAGS_search content) as [tags|] eqn:E; [|reflexivity].
    apply REGEX_TAGS_search_declared in E. congruence.
  - destruct (REGEX_TAGS_search content) as [tags|]; [|reflexivity].
    rewrite <- (str_app_nil_r content) at 1.
    rewrite rewrite_tags_prefix by assumption.
    now rewrite rewrite_tags_nil, str_app_nil_r.
Qed.

Lemma standardize_tags_unchanged_witness :
  standardize_tags (lines ["tags: [Foo-Bar]"; "about Foo-Bar"])
  = lines ["tags: [Foo-Bar]"; "about Foo-Bar"].
Proof.
  apply (standardize_tags_unchanged (lines ["tags: [Foo-Bar]"; "about Foo-Bar"])).
  right. reflexivity.
Defined.

End ConvertersMore.

(** ** More on the identifier index (src/evernote_db.py) *)

Section IndexMore.
Import EvernoteDB.
Variable normalize_string : string -> string.

Lemma finalize_connected (db db' : t) :
  finalize normalize_string db = Ok db' ->
  conn db' = conn db /\ map_id_2_container db' = map_id_2_container db /\
  is_finalized db' = true.
Proof.
  unfold finalize. destruct (conn db) as [rows|] eqn:Hc; [|discriminate].
  destruct (is_finalized db) eqn:Hf; intros [= <-]; auto.
Qed.

Lemma finalize_again (db db' : t) :
  finalize normalize_string db = Ok db' -> finalize normalize_string db' = Ok db'.
Proof.
  intros H. destruct (finalize_connected _ _ H) as (Hc & _ & Hf).
  unfold finalize in *. rewrite Hc, Hf.
  destruct (conn db); [reflexivity | discriminate].
Qed.

(** What a lookup answers once the titles have been scanned. *)
Lemma get_id_from_note_finalized (db db' : t) (c : ascii) (title : string)
    (date_created : option datetime) :
  finalize normalize_string db = Ok db' ->
  exists r, get_id_from_note normalize_string db (Some (String c title)) date_created
            = Ok (r, db').
Proof.
  intros H. unfold get_id_from_note. rewrite H. cbn [mbind result_bind].
  destruct (_map_title_2_id db' !! String c title) as [[|n [|n' ids]]|]; eauto.
  destruct date_created as [d|]; eauto.
  destruct (List.filter _ _) as [|x [|y l]]; eauto.
Qed.


(** A lookup can be repeated: asked again, it gives the same answer and
    leaves the object as the first call left it (the titles are scanned
    once, so a title does not gain candidates).  A lookup changes neither
    the connection nor the containers registered. *)
Theorem get_id_from_note_repeatable (db db' : t) (title : option string)
    (date_created : option datetime) (r : option string) :
  get_id_from_note normalize_string db title date_created = Ok (r, db') ->
  get_id_from_note normalize_string db' title date_created = Ok (r, db') /\
  conn db' = conn db /\
  (forall i, get_container_from_id db' i = get_container_from_id db i).
Proof.
  destruct title as [[|c title]|].
  - intros [= <- <-]. auto.
  - intros H. destruct (finalize normalize_string db) as [db1|e] eqn:F.
    + destruct (get_id_from_note_finalized db db1 c title date_created F) as [r1 H1].
      rewrite H1 in H. injection H as <- <-.
      destruct (finalize_connected _ _ F) as (Hc & Hm & _).
      split; [|split; [assumption|]].
      * pose proof (finalize_again _ _ F) as F'.
        unfold get_id_from_note in H1 |- *. rewrite F in H1. rewrite F'. exact H1.
      * intros i. unfold get_container_from_id. now rewrite Hm.
    + unfold get_id_from_note in H. rewrite F in H. discriminate.
  - intros [= <- <-]. auto.
Qed.

(** The containers registered and the titles are two tables apart:
    registering a container is seen by the lookup of its identifier, the
    last registration winning, leaves the other identifiers as they were,
    and does not change what a title resolves to. *)
Theorem add_container_id_lookup (db : t) (container id : string) :
  get_container_from_id (add_container_id db container id) id = Some container /\
  (forall other, other <> id ->
     get_container_from_id (add_container_id db container id) other
     = get_container_from_id db other) /\
  (forall container',
     get_container_from_id
       (add_container_id (add_container_id db container' id) container id) id
     = Some container) /\
  (forall title date_created r db',
     get_id_from_note normalize_string db title date_created = Ok (r, db') ->
     get_id_from_note normalize_string (add_container_id db container id)
       title date_created
     = Ok (r, add_container_id db' container id)).
Proof.
  unfold get_container_from_id, add_container_id. cbn [map_id_2_container].
  split; [apply lookup_insert_eq|].
  split; [intros other Hne; now apply lookup_insert_ne|].
  split; [intros c'; apply lookup_insert_eq|].
  intros [[|c title]|] d r db'; try (intros [= <- <-]; reflexivity).
  unfold get_id_from_note, finalize. cbn [conn is_finalized _map_title_2_id].
  destruct (conn db) as [rows|] eqn:Hc; [|discriminate].
  destruct (is_finalized db) eqn:Hf; cbn [mbind result_bind _map_title_2_id].
  - destruct (_map_title_2_id db !! String c title) as [[|n [|n' ids]]|];
      try (intros [= <- <-]; cbn; rewrite ?Hc, ?Hf; reflexivity).
    destruct d as [d|]; [|intros [= <- <-]; cbn; rewrite ?Hc, ?Hf; reflexivity].
    destruct (List.filter _ _) as [|x [|y l]];
      intros [= <- <-]; cbn; rewrite ?Hc, ?Hf; reflexivity.
  - destruct (fold_left _ rows _ !! String c title) as [[|n [|n' ids]]|];
      try (intros [= <- <-]; cbn; rewrite ?Hc; reflexivity).
    destruct d as [d|]; [|intros [= <- <-]; cbn; rewrite ?Hc; reflexivity].
    destruct (List.filter _ _) as [|x [|y l]];
      intros [= <- <-]; cbn; rewrite ?Hc; reflexivity.
Qed.

End IndexMore.

Lemma get_id_from_note_repeatable_witness :
  let rows := [ {| EvernoteDB.row_id := "n1"; EvernoteDB.row_label := "Shopping";
                   EvernoteDB.row_created := 1000%Z |} ] in
  exists db',
    EvernoteDB.get_id_from_note (fun s => s) (EvernoteDB.init (Some rows))
      (Some "Shopping") None = Ok (Some "n1", db') /\
    EvernoteDB.get_id_from_note (fun s => s) db' (Some "Shopping") None
      = Ok (Some "n1", db').
Proof.
  intros rows. eexists. split; [reflexivity|].
  eapply (get_id_from_note_repeatable (fun s => s) (EvernoteDB.init (Some rows))).
  reflexivity.
Defined.

(** ** More on the report (src/report.py) *)

Section ReportMore.
Import Report.
Variable strftime : datetime -> string.
Variable strptime : string -> option datetime.
Variable py_int : string -> option nat.

(** A call of [add_report_csv] keeps the lines the report had and adds one
    line per attachment, one line when there is no attachment; each line
    added has the eight cells of the header and carries the name of the
    note in its second cell. *)
Theorem add_report_csv_rows (report : list Line) (note_metadata : NoteMetadata.t)
    (attachments_metadata : list AttachmentMetadata.t) :
  exists added,
    add_report_csv strftime report note_metadata attachments_metadata = report ++ added /\
    length added = Nat.max 1 (length attachments_metadata) /\
    Forall (fun line => length line = 8
                        /\ line !! _COL_NOTE_NAME = Some (NoteMetadata.name note_metadata))
      added.
Proof.
  unfold add_report_csv. destruct attachments_metadata as [|a atts].
  - eexists. split; [reflexivity|]. split; [reflexivity|].
    apply Forall_singleton. split; reflexivity.
  - eexists. split; [reflexivity|]. split.
    + rewrite length_map. simpl. lia.
    + apply Forall_fmap, Forall_true. intros x. split; reflexivity.
Qed.

Lemma read_line_short (st : list Note.t * option Note.t) (line : Line) :
  length line < 7 -> read_line strptime py_int st line = Raise IndexError.
Proof.
  intros H. destruct st as [notes note]. unfold read_line.
  unfold _get_attachment_metadata_from_line, col, Line in *.
  rewrite (lookup_ge_None_2 line _COL_ATTACHMENT_NAME) by (cbn; lia).
  reflexivity.
Qed.

Lemma read_report_csv_Ok (report : list Line) (notes : list Note.t) :
  read_report_csv strptime py_int report = Ok notes ->
  exists st, foldlM (read_line strptime py_int) ([], None) report = Ok st.
Proof.
  unfold read_report_csv.
  destruct (foldlM _ _ report) as [st|e]; [eauto | discriminate].
Qed.

(** A line with fewer than seven cells (the empty line [csv.reader] gives
    for a blank line of the file, for one) makes the reading of the
    report raise, wherever it stands; the error is the index error when
    the lines before it can be read. *)
Theorem read_report_csv_short_line (before after : list Line) (line : Line) :
  length line < 7 ->
  (exists e, read_report_csv strptime py_int (before ++ line :: after) = Raise e) /\
  (forall notes, read_report_csv strptime py_int before = Ok notes ->
                 read_report_csv strptime py_int (before ++ line :: after)
                 = Raise IndexError).
Proof.
  intros H.
  assert (forall st, foldlM (read_line strptime py_int) ([], None) before = Ok st ->
                     read_report_csv strptime py_int (before ++ line :: after)
                     = Raise IndexError) as Hok.
  { intros st Hst. unfold read_report_csv. rewrite foldlM_app, Hst.
    cbn [mbind result_bind foldlM]. now rewrite read_line_short. }
  split.
  - destruct (foldlM (read_line strptime py_int) ([], None) before) as [st|e] eqn:E.
    + exists IndexError. now apply (Hok st).
    + exists e. unfold read_report_csv. now rewrite foldlM_app, E.
  - intros notes Hn. destruct (read_report_csv_Ok _ _ Hn) as [st Hst]. now apply (Hok st).
Qed.

(** *** Lines grouped by the name of the note *)

Variable reparse : datetime -> datetime.

Local Abbreviation reportable := (Vocabulary.reportable strftime strptime py_int reparse).

Lemma read_line_same_bare (m : NoteMetadata.t) (acc : list AttachmentMetadata.t)
    (notes : list Note.t) (body : NoteMetadata.t) :
  NoteMetadata.name body = NoteMetadata.name m ->
  read_line strptime py_int
    (notes, Some {| Note.body := body; Note.attachments := acc |})
    (note_cells strftime m ++ [EmptyString; EmptyString])
  = Ok (notes, Some {| Note.body := body; Note.attachments := acc |}).
Proof.
  intros Hname. unfold read_line.
  change (_get_attachment_metadata_from_line py_int
            (note_cells strftime m ++ [EmptyString; EmptyString])) with
    (Ok (@None AttachmentMetadata.t)).
  cbn [mbind result_bind Note.body Note.attachments].
  rewrite col_note_name. cbn [mbind result_bind].
  rewrite Hname, String.eqb_refl. reflexivity.
Qed.

(** The reader groups the lines by the name of the note alone: when two
    documents written one after the other have the same name (as two
    notes do that are migrated under [overwrite]), they are read back as
    one note, which has the metadata of the first document and the
    attachments of both; the metadata of the second one is not read. *)
Theorem read_report_csv_same_name (first second : Vocabulary.Document) :
  reportable first ->
  NoteMetadata.name (fst second) = NoteMetadata.name (fst first) ->
  Forall (fun a => AttachmentMetadata.name a <> EmptyString
                   /\ py_int (PyStr.of_nat (AttachmentMetadata.size a))
                      = Some (AttachmentMetadata.size a))
    (snd second) ->
  read_report_csv strptime py_int (Vocabulary.write_all strftime [first; second])
  = Ok [ {| Note.body := Vocabulary.read_back reparse (fst first);
            Note.attachments := snd first ++ snd second |} ].
Proof.
  intros Hfirst Hname Hatts. unfold Vocabulary.write_all. rewrite write_all_concat.
  cbn [map concat app]. rewrite app_nil_r.
  unfold read_report_csv. rewrite foldlM_app.
  rewrite (read_doc_lines strftime strptime py_int reparse first [] None Hfirst)
    by discriminate.
  cbn [mbind result_bind app]. change (option_list (@None Note.t)) with (@nil Note.t).
  destruct second as [m atts]. cbn [fst snd] in *.
  unfold Vocabulary.doc_lines, add_report_csv. cbn [fst snd app].
  destruct atts as [|a atts].
  - cbn [foldlM]. rewrite read_line_same_bare by (cbn; congruence).
    cbn [mbind result_bind]. now rewrite app_nil_r.
  - rewrite (read_more_lines strftime strptime py_int m (a :: atts) (snd first) []
               (Vocabulary.read_back reparse (fst first))) by (cbn; congruence || assumption).
    reflexivity.
Qed.

End ReportMore.

Lemma read_report_csv_short_line_witness :
  exists e, Report.read_report_csv Samples.sample_strptime Samples.sample_int
              ([] ++ [] :: []) = Raise e.
Proof.
  apply (read_report_csv_short_line Samples.sample_strptime Samples.sample_int [] [] []).
  simpl. lia.
Defined.

Lemma read_report_csv_same_name_witness :
  Report.read_report_csv Samples.sample_strptime Samples.sample_int
    (Vocabulary.write_all Samples.sample_strftime
       [(Samples.sample_note (Some Samples.sample_date), Samples.sample_attachments);
        (Samples.sample_note None, Samples.sample_attachments)])
  = Ok [ {| Note.body :=
              Vocabulary.read_back (fun d => d) (Samples.sample_note (Some Samples.sample_date));
            Note.attachments := Samples.sample_attachments ++ Samples.sample_attachments |} ].
Proof.
  apply (read_report_csv_same_name Samples.sample_strftime Samples.sample_strptime
           Samples.sample_int (fun d => d)
           (Samples.sample_note (Some Samples.sample_date), Samples.sample_attachments)
           (Samples.sample_note None, Samples.sample_attachments)).
  - split; [|split; [|split]].
    + exists Samples.sample_date. split; reflexivity.
    + exists Samples.sample_date. split; reflexivity.
    + reflexivity.
    + repeat apply Forall_cons_2; try apply Forall_nil_2; (split; [discriminate | reflexivity]).
  - reflexivity.
  - repeat apply Forall_cons_2; try apply Forall_nil_2; (split; [discriminate | reflexivity]).
Defined.

(** ** Moving the notes (src/evernote_move.py) *)

Section MoveMore.
Import OS PosixPath EvernoteMove Vocabulary.
Variable ATTACHMENTS_FOLDER : string.
Variable self : t.

Local Abbreviation note_moves := (Vocabulary.note_moves ATTACHMENTS_FOLDER self).

(** What one call of [_move_file] does to the files. *)
Lemma _move_file_effect (fs fs' : FileSystem) (s d : string) (b : bool) :
  _move_file fs s d = Ok (b, fs') ->
  b = path_exists fs s /\
  ((b = false /\ fs' = fs) \/
   (b = true /\ exists data,
      files fs !! s = Some data /\ files fs !! d = None /\
      files fs' = <[d := data]> (delete s (files fs)) /\
      journal fs' = journal fs ++ [Moved s d])).
Proof.
  unfold _move_file. destruct (path_exists fs s) eqn:Hs.
  - destruct (path_exists fs d) eqn:Hd; [discriminate|].
    unfold move. apply bool_decide_eq_true in Hs as [data Hs]. rewrite Hs.
    cbn [mbind result_bind]. intros [= <- <-]. split; [reflexivity|]. right.
    split; [reflexivity|]. exists data. repeat split; try assumption.
    apply bool_decide_eq_false in Hd. now apply eq_None_not_Some.
  - intros [= <- <-]. split; [reflexivity|]. now left.
Qed.

Lemma moved_contents (m : gmap string string) (s d data : string) :
  m !! s = Some data -> m !! d = None ->
  map snd (map_to_list (<[d := data]> (delete s m))) ≡ₚ map snd (map_to_list m).
Proof.
  intros Hs Hd.
  rewrite map_to_list_insert by (rewrite lookup_delete_ne; [assumption | congruence]).
  rewrite <- (map_to_list_delete m s data Hs). reflexivity.
Qed.

Lemma run_moves_cons (fs : FileSystem) (m : string * string) (l : list (string * string)) :
  run_moves fs (m :: l)
  = (r ← _move_file fs (fst m) (snd m); run_moves (snd r) l).
Proof.
  unfold run_moves. cbn [foldlM].
  destruct (_move_file fs (fst m) (snd m)); reflexivity.
Qed.

(** A run of moves keeps the contents, touches the listed paths only and
    records the moves it made. *)
Lemma run_moves_effect (l : list (string * string)) (fs fs' : FileSystem) :
  run_moves fs l = Ok fs' ->
  contents fs' ≡ₚ contents fs /\
  (forall p, p ∉ map fst l -> p ∉ map snd l -> files fs' !! p = files fs !! p) /\
  exists done, sublist done l /\ journal fs' = journal fs ++ moved_entries done.
Proof.
  revert fs; induction l as [|[s d] l IH]; intros fs.
  - intros [= <-]. split; [reflexivity|]. split; [reflexivity|].
    exists []. split; [constructor|]. simpl. now rewrite app_nil_r.
  - rewrite run_moves_cons. cbn [fst snd].
    destruct (_move_file fs s d) as [[b fs1]|e] eqn:E; [|discriminate].
    cbn [mbind result_bind snd]. intros Hrun.
    destruct (IH _ Hrun) as (Hperm & Hframe & done & Hsub & Hj).
    destruct (_move_file_effect _ _ _ _ _ E) as [_ [[_ ->] | (_ & data & Hs & Hd & Hf & Hj1)]].
    + split; [assumption|]. split.
      * intros p Hp1 Hp2. apply Hframe.
        -- intros H. apply Hp1. cbn. now apply list_elem_of_further.
        -- intros H. apply Hp2. cbn. now apply list_elem_of_further.
      * exists done. split; [now apply sublist_cons | assumption].
    + split; [|split].
      * rewrite Hperm. unfold contents. rewrite Hf. now apply moved_contents.
      * intros p Hp1 Hp2. cbn in Hp1, Hp2.
        apply not_elem_of_cons in Hp1 as [Hps Hp1].
        apply not_elem_of_cons in Hp2 as [Hpd Hp2].
        rewrite (Hframe p Hp1 Hp2), Hf.
        rewrite lookup_insert_ne, lookup_delete_ne by congruence. reflexivity.
      * exists ((s, d) :: done). split; [now apply sublist_skip|].
        rewrite Hj, Hj1, <- app_assoc. reflexivity.
Qed.

(** After a run of moves, a path that is no destination holds no file
    when it held none before or is one of the sources. *)
Lemma run_moves_absent (l : list (string * string)) (fs fs' : FileSystem) (p : string) :
  run_moves fs l = Ok fs' ->
  p ∉ map snd l -> files fs !! p = None \/ p ∈ map fst l ->
  files fs' !! p = None.
Proof.
  revert fs; induction l as [|[s d] l IH]; intros fs.
  - intros [= <-] _ [H|H]; [assumption | inversion H].
  - rewrite run_moves_cons. cbn [fst snd].
    destruct (_move_file fs s d) as [[b fs1]|e] eqn:E; [|discriminate].
    cbn [mbind result_bind snd]. intros Hrun Hp2 Hp1.
    cbn in Hp2. apply not_elem_of_cons in Hp2 as [Hpd Hp2].
    apply (IH _ Hrun Hp2).
    destruct (_move_file_effect _ _ _ _ _ E) as [Hb [[-> ->] | (_ & data & Hs & Hd & Hf & _)]].
    + destruct Hp1 as [H|H]; [now left|].
      cbn in H. apply elem_of_cons in H as [->|H]; [|now right].
      left. symmetry in Hb. apply bool_decide_eq_false in Hb.
      now apply eq_None_not_Some.
    + destruct (decide (p = s)) as [->|Hps].
      * left. rewrite Hf, lookup_insert_ne, lookup_delete_eq by congruence. reflexivity.
      * destruct Hp1 as [H|H].
        -- left. rewrite Hf, lookup_insert_ne, lookup_delete_ne by congruence. assumption.
        -- cbn in H. apply elem_of_cons in H as [->|H]; [congruence | now right].
Qed.

Lemma _move_file_idle (fs : FileSystem) (s d : string) :
  files fs !! s = None -> _move_file fs s d = Ok (false, fs).
Proof.
  intros H. unfold _move_file, path_exists.
  rewrite bool_decide_eq_false_2; [reflexivity|]. rewrite H. intros [x Hx]. discriminate.
Qed.

(** [_move_note] runs the moves of the note; its answer is whether the
    file of the note was there. *)
Lemma _move_note_run (fs : FileSystem) (note : Note.t) :
  _move_note ATTACHMENTS_FOLDER self fs note
  = (r ← _move_file fs (join (notebook_path self) (NoteMetadata.name (Note.body note)))
           (join (dest_path self) (NoteMetadata.name (Note.body note)));
     fs' ← run_moves (snd r) (tail (note_moves note));
     Ok (fst r, fs')).
Proof.
  unfold _move_note. destruct (_move_file fs _ _) as [[b fs1]|e]; [|reflexivity].
  cbn [mbind result_bind fst snd tail Vocabulary.note_moves].
  f_equal. unfold run_moves.
  generalize (Note.attachments note) as atts. intros atts. revert fs1.
  induction atts as [|a atts IH]; intros fs1; [reflexivity|].
  cbn [map foldlM fst snd].
  destruct (_move_file fs1 _ _) as [[b' fs2]|e]; [|reflexivity].
  cbn [mbind result_bind snd]. apply IH.
Qed.

Lemma _move_note_moves (fs fs' : FileSystem) (note : Note.t) (moved : bool) :
  _move_note ATTACHMENTS_FOLDER self fs note = Ok (moved, fs') ->
  run_moves fs (note_moves note) = Ok fs' /\
  moved = path_exists fs (join (notebook_path self) (NoteMetadata.name (Note.body note))).
Proof.
  rewrite _move_note_run.
  change (note_moves note) with
    ((join (notebook_path self) (NoteMetadata.name (Note.body note)),
      join (dest_path self) (NoteMetadata.name (Note.body note)))
     :: tail (note_moves note)).
  rewrite run_moves_cons. cbn [fst snd].
  destruct (_move_file fs _ _) as [[b fs1]|e] eqn:E; [|discriminate].
  cbn [mbind result_bind fst snd].
  destruct (run_moves fs1 _) as [fs2|e]; [|discriminate].
  intros [= <- <-]. split; [reflexivity|].
  now destruct (_move_file_effect _ _ _ _ _ E) as [-> _].
Qed.

(** A note is moved without loss: the answer tells whether the file of the
    note was at its source; the file system holds the same contents
    after the call as before it, file for file (nothing is overwritten,
    dropped or doubled); the paths that are neither a source nor a
    destination of the note are as they were; and the journal grows by
    moves among those of the note, in their order. *)
Theorem _move_note_keeps_contents (fs fs' : FileSystem) (note : Note.t) (moved : bool) :
  _move_note ATTACHMENTS_FOLDER self fs note = Ok (moved, fs') ->
  moved = path_exists fs (join (notebook_path self) (NoteMetadata.name (Note.body note))) /\
  contents fs' ≡ₚ contents fs /\
  (forall p, p ∉ map fst (note_moves note) -> p ∉ map snd (note_moves note) ->
             files fs' !! p = files fs !! p) /\
  exists done, sublist done (note_moves note) /\
               journal fs' = journal fs ++ moved_entries done.
Proof.
  intros H. destruct (_move_note_moves _ _ _ _ H) as [Hrun Hb].
  split; [assumption|]. now apply run_moves_effect.
Qed.

Lemma _move_file_raises (fs : FileSystem) (s d : string) (e : exn) :
  _move_file fs s d = Raise e ->
  e = MoveDuplicateFileError d /\ path_exists fs s = true /\ path_exists fs d = true.
Proof.
  unfold _move_file. destruct (path_exists fs s) eqn:Hs; [|discriminate].
  destruct (path_exists fs d) eqn:Hd; [now intros [= <-]|].
  unfold move. apply bool_decide_eq_true in Hs as [data Hs]. now rewrite Hs.
Qed.

Lemma run_moves_raises (l : list (string * string)) (fs : FileSystem) (e : exn) :
  run_moves fs l = Raise e ->
  exists s d, (s, d) ∈ l /\ e = MoveDuplicateFileError d.
Proof.
  revert fs; induction l as [|[s d] l IH]; intros fs; [discriminate|].
  rewrite run_moves_cons. cbn [fst snd].
  destruct (_move_file fs s d) as [[b fs1]|e'] eqn:E; cbn [mbind result_bind snd].
  - intros H. destruct (IH _ H) as (s' & d' & Hin & He).
    exists s', d'. split; [now apply list_elem_of_further | assumption].
  - intros [= <-]. apply _move_file_raises in E as [-> _].
    exists s, d. split; [apply list_elem_of_here | reflexivity].
Qed.

Lemma _move_note_idle (fs : FileSystem) (note : Note.t) :
  (forall s, s ∈ map fst (note_moves note) -> files fs !! s = None) ->
  _move_note ATTACHMENTS_FOLDER self fs note = Ok (false, fs).
Proof.
  intros H. rewrite _move_note_run.
  rewrite _move_file_idle by (apply H; cbn; apply list_elem_of_here).
  cbn [mbind result_bind fst snd].
  assert (forall s, s ∈ map fst (tail (note_moves note)) -> files fs !! s = None) as Ht.
  { intros s Hs. apply H. cbn. now apply list_elem_of_further. }
  assert (run_moves fs (tail (note_moves note)) = Ok fs) as ->; [|reflexivity].
  revert Ht. generalize (tail (note_moves note)) as l.
  induction l as [|[s d] l IH]; intros Ht; [reflexivity|].
  rewrite run_moves_cons. cbn [fst snd].
  rewrite _move_file_idle by (apply Ht; cbn; apply list_elem_of_here).
  cbn [mbind result_bind snd]. apply IH.
  intros s' Hs'. apply Ht. cbn. now apply list_elem_of_further.
Qed.

(** The one error of the move of a note is the error of the duplicate:
    when [_move_note] raises, it raises it for the destination of one of
    the moves of the note, a file being there already.  It does so at
    once when the file of the note is at its source and a file is at its
    destination; a file missing at its source is never an error. *)
Theorem _move_note_raises (fs : FileSystem) (note : Note.t) :
  (forall e, _move_note ATTACHMENTS_FOLDER self fs note = Raise e ->
     exists s d, (s, d) ∈ note_moves note /\ e = MoveDuplicateFileError d) /\
  (path_exists fs (join (notebook_path self) (NoteMetadata.name (Note.body note))) = true ->
   path_exists fs (join (dest_path self) (NoteMetadata.name (Note.body note))) = true ->
   _move_note ATTACHMENTS_FOLDER self fs note
   = Raise (MoveDuplicateFileError
              (join (dest_path self) (NoteMetadata.name (Note.body note))))) /\
  ((forall s, s ∈ map fst (note_moves note) -> path_exists fs s = false) ->
   _move_note ATTACHMENTS_FOLDER self fs note = Ok (false, fs)).
Proof.
  split; [|split].
  - intros e. rewrite _move_note_run.
    destruct (_move_file fs _ _) as [[b fs1]|e'] eqn:E; cbn [mbind result_bind fst snd].
    + destruct (run_moves fs1 (tail (note_moves note))) as [fs2|e'] eqn:R;
        cbn [mbind result_bind]; [discriminate|].
      intros [= <-]. apply run_moves_raises in R as (s & d & Hin & He).
      exists s, d. split; [|assumption]. cbn. now apply list_elem_of_further.
    + intros [= <-]. apply _move_file_raises in E as [-> _].
      eexists _, _. split; [apply list_elem_of_here | reflexivity].
  - intros Hs Hd. unfold _move_note, _move_file. now rewrite Hs, Hd.
  - intros H. apply _move_note_idle. intros s Hs. specialize (H s Hs).
    apply bool_decide_eq_false in H. now apply eq_None_not_Some.
Qed.

Local Abbreviation move_step :=
  (fun '((count, fs) : nat * FileSystem) (note : Note.t) =>
     '(moved, fs) ← _move_note ATTACHMENTS_FOLDER self fs note;
     Ok (if moved : bool then count + 1 else count, fs)).

Lemma move_notes_from (notes : list Note.t) (fs fs' : FileSystem) (c c' : nat) :
  foldlM move_step (c, fs) notes = Ok (c', fs') ->
  c' <= c + length notes /\
  run_moves fs (flat_map note_moves notes) = Ok fs'.
Proof.
  revert fs c; induction notes as [|note notes IH]; intros fs c.
  - intros [= <- <-]. split; [simpl; lia | reflexivity].
  - cbn [foldlM flat_map].
    destruct (_move_note ATTACHMENTS_FOLDER self fs note) as [[b fs1]|e] eqn:E;
      [|discriminate].
    cbn [mbind result_bind]. intros Hrun.
    destruct (IH _ _ Hrun) as [Hc Hr].
    split; [destruct b; simpl; lia|].
    destruct (_move_note_moves _ _ _ _ E) as [Hn _].
    unfold run_moves in *. now rewrite foldlM_app, Hn.
Qed.

Lemma move_notes_idle (notes : list Note.t) (fs : FileSystem) (c : nat) :
  (forall s, s ∈ map fst (flat_map note_moves notes) -> files fs !! s = None) ->
  foldlM move_step (c, fs) notes = Ok (c, fs).
Proof.
  induction notes as [|note notes IH]; intros H; [reflexivity|].
  cbn [foldlM]. rewrite _move_note_idle.
  - cbn [mbind result_bind]. apply IH. intros s Hs. apply H.
    cbn [flat_map]. rewrite map_app. apply elem_of_app. now right.
  - intros s Hs. apply H. cbn [flat_map]. rewrite map_app. apply elem_of_app. now left.
Qed.

Lemma apart_spec (moves : list (string * string)) (s d : string) :
  apart moves = true -> s ∈ map fst moves -> d ∈ map snd moves -> s <> d.
Proof.
  unfold apart. rewrite forallb_forall. intros H Hs Hd.
  apply list_elem_of_In in Hs, Hd. specialize (H s Hs).
  rewrite forallb_forall in H. specialize (H d Hd).
  apply negb_true_iff, String.eqb_neq in H. exact H.
Qed.

(** The loop of the moves can be run again: when no destination of the
    notes is also a source, a loop that went through leaves nothing at
    the sources, so that the same loop run after it moves no note,
    raises nothing and leaves every file where it is.  The count of the
    notes moved is at most the number of notes. *)
Theorem move_notes_again (fs fs' : FileSystem) (notes : list Note.t) (count : nat) :
  apart (flat_map note_moves notes) = true ->
  move_notes ATTACHMENTS_FOLDER self fs notes = Ok (count, fs') ->
  count <= length notes /\
  (forall s, s ∈ map fst (flat_map note_moves notes) -> path_exists fs' s = false) /\
  move_notes ATTACHMENTS_FOLDER self fs' notes = Ok (0, fs').
Proof.
  intros Hapart Hrun. unfold move_notes in *.
  destruct (move_notes_from _ _ _ _ _ Hrun) as [Hc Hr].
  split; [lia|].
  assert (forall s, s ∈ map fst (flat_map note_moves notes) -> files fs' !! s = None) as Habs.
  { intros s Hs. apply (run_moves_absent _ _ _ s Hr); [|now right].
    intros Hd. now apply (apart_spec _ s s Hapart Hs Hd). }
  split; [|now apply move_notes_idle].
  intros s Hs. unfold path_exists. apply bool_decide_eq_false.
  rewrite (Habs s Hs). intros [x Hx]. discriminate.
Qed.

End MoveMore.

Lemma _move_note_keeps_contents_witness :
  exists fs',
    EvernoteMove._move_note "attachments" Samples.sample_move Samples.sample_move_fs
      Samples.sample_moved_note = Ok (true, fs') /\
    Vocabulary.contents fs' ≡ₚ Vocabulary.contents Samples.sample_move_fs.
Proof.
  eexists. split; [vm_compute; reflexivity|].
  apply (_move_note_keeps_contents "attachments" Samples.sample_move Samples.sample_move_fs
           _ Samples.sample_moved_note true).
  vm_compute. reflexivity.
Defined.

Lemma move_notes_again_witness :
  exists fs',
    EvernoteMove.move_notes "attachments" Samples.sample_move Samples.sample_move_fs
      [Samples.sample_moved_note] = Ok (1, fs') /\
    EvernoteMove.move_notes "attachments" Samples.sample_move fs'
      [Samples.sample_moved_note] = Ok (0, fs').
Proof.
  eexists. split; [vm_compute; reflexivity|].
  apply (move_notes_again "attachments" Samples.sample_move Samples.sample_move_fs
           _ [Samples.sample_moved_note] 1); vm_compute; reflexivity.
Defined.

(** *** The notes kept by the date of update *)

Section FilterNotes.
Import EvernoteMove Vocabulary.

Lemma datetime_geb_None (a b : datetime) :
  datetime_geb a b = None <-> aware a <> aware b.
Proof.
  unfold datetime_geb, aware.
  destruct (dt_utcoffset a), (dt_utcoffset b); split; congruence.
Qed.

Lemma updated_since_None (threshold : datetime) (r : Note.t) :
  updated_since threshold r = None <->
  exists d, NoteMetadata.date_updated (Note.body r) = Some d /\ aware d <> aware threshold.
Proof.
  unfold updated_since. destruct (NoteMetadata.date_updated (Note.body r)) as [d|].
  - rewrite datetime_geb_None. split; [eauto|]. now intros (d' & [= <-] & H).
  - split; [discriminate|]. now intros (d' & H & _).
Qed.

Lemma filter_updated_None (threshold : datetime) (notes : list Note.t) :
  filter_updated threshold notes = None <->
  exists r, r ∈ notes /\ updated_since threshold r = None.
Proof.
  induction notes as [|r notes IH]; cbn [filter_updated].
  - split; [discriminate|]. intros (r & Hr & _). inversion Hr.
  - destruct (updated_since threshold r) as [keep|] eqn:E; cbn [mbind option_bind].
    + destruct (filter_updated threshold notes) as [rest|]; cbn [mbind option_bind].
      * split; [discriminate|]. intros (r' & Hr' & H').
        apply elem_of_cons in Hr' as [->|Hr']; [congruence|].
        pose proof (proj2 IH (ex_intro _ r' (conj Hr' H'))). discriminate.
      * split; [|reflexivity]. intros _.
        destruct (proj1 IH eq_refl) as (r' & Hr' & H'). exists r'.
        split; [now apply list_elem_of_further | assumption].
    + split; [|reflexivity]. intros _. exists r. split; [apply list_elem_of_here | assumption].
Qed.

(** The filter raises in one case only: a threshold is given, and the date
    of update of some note is aware when the threshold is naive, or
    naive when it is aware.  A note without a date of update never makes
    it raise. *)
Theorem _filter_notes_raises (self : t) (notes : list Note.t) :
  _filter_notes self notes = None <->
  exists threshold r d,
    date_updated self = Some threshold /\ r ∈ notes /\
    NoteMetadata.date_updated (Note.body r) = Some d /\ aware d <> aware threshold.
Proof.
  unfold _filter_notes. destruct (date_updated self) as [threshold|].
  - rewrite filter_updated_None. split.
    + intros (r & Hr & H). apply updated_since_None in H as (d & Hd & Ha).
      exists threshold, r, d. auto.
    + intros (th & r & d & [= <-] & Hr & Hd & Ha). exists r. split; [assumption|].
      apply updated_since_None. eauto.
  - split; [discriminate|]. now intros (th & r & d & H & _).
Qed.

Lemma filter_updated_kept (threshold : datetime) (notes kept : list Note.t) :
  filter_updated threshold notes = Some kept ->
  sublist kept notes /\
  (forall r, r ∈ kept <-> r ∈ notes /\ updated_since threshold r = Some true) /\
  filter_updated threshold kept = Some kept.
Proof.
  revert kept; induction notes as [|r notes IH]; intros kept; cbn [filter_updated].
  - intros [= <-]. split; [constructor|]. split; [|reflexivity].
    intros r. split; [intros H; inversion H | intros [H _]; inversion H].
  - destruct (updated_since threshold r) as [keep|] eqn:E; [|discriminate].
    destruct (filter_updated threshold notes) as [rest|]; [|discriminate].
    cbn [mbind option_bind]. intros [= <-].
    destruct (IH rest eq_refl) as (Hsub & Hmem & Hfix).
    destruct keep.
    + split; [now apply sublist_skip|]. split.
      * intros r'. rewrite !elem_of_cons, Hmem. split.
        -- intros [->|[H1 H2]]; auto.
        -- intros [[->|H1] H2]; auto.
      * cbn [filter_updated]. rewrite E, Hfix. reflexivity.
    + split; [now apply sublist_cons|]. split; [|assumption].
      intros r'. rewrite elem_of_cons, Hmem. split.
      * intros [H1 H2]; auto.
      * intros [[->|H1] H2]; [congruence | auto].
Qed.

(** What the filter keeps: without a threshold, every note; with one, the
    notes that have a date of update at or after it, and no other, in
    the order they had.  Filtering what was kept keeps it all. *)
Theorem _filter_notes_keeps (self : t) (notes kept : list Note.t) :
  _filter_notes self notes = Some kept ->
  sublist kept notes /\
  (date_updated self = None -> kept = notes) /\
  (forall threshold, date_updated self = Some threshold ->
     forall r, r ∈ kept <->
               r ∈ notes /\
               exists d, NoteMetadata.date_updated (Note.body r) = Some d
                         /\ datetime_geb d threshold = Some true) /\
  _filter_notes self kept = Some kept.
Proof.
  unfold _filter_notes. destruct (date_updated self) as [threshold|].
  - intros H. destruct (filter_updated_kept _ _ _ H) as (Hsub & Hmem & Hfix).
    split; [assumption|]. split; [discriminate|]. split; [|assumption].
    intros th [= <-] r. rewrite Hmem. unfold updated_since.
    destruct (NoteMetadata.date_updated (Note.body r)) as [d|].
    + split; [intros [H1 H2]; eauto | intros [H1 (d' & [= <-] & H2)]; auto].
    + split; [intros [_ H']; discriminate | intros [_ (d' & H' & _)]; discriminate].
  - intros [= <-]. split; [reflexivity|]. split; [reflexivity|]. split; [discriminate|].
    reflexivity.
Qed.

End FilterNotes.

Lemma _filter_notes_keeps_witness :
  let old := {| dt_seconds := 1600000000; dt_microsecond := 0; dt_utcoffset := None |} in
  let self := EvernoteMove.init "attachments" "nb" "out" "report.csv"
                (Some Samples.sample_date) in
  let notes := [ {| Note.body := Samples.sample_note (Some old); Note.attachments := [] |};
                 Samples.sample_moved_note;
                 {| Note.body := Samples.sample_note None; Note.attachments := [] |} ] in
  EvernoteMove._filter_notes self notes = Some [Samples.sample_moved_note] /\
  EvernoteMove._filter_notes self [Samples.sample_moved_note]
  = Some [Samples.sample_moved_note].
Proof.
  intros old self notes. split; [reflexivity|].
  eapply (_filter_notes_keeps self notes). reflexivity.
Defined.

(** ** More on the migration of a note (src/evernote_migration.py) *)

Section Digits.
Import PyStr.

Lemma pretty_N_char_plain (c : ascii) (x : N) :
  (nat_of_ascii c < 48 \/ 57 < nat_of_ascii c) -> Ascii.eqb (pretty_N_char x) c = false.
Proof.
  intros Hc. apply Ascii.eqb_neq. intros <-.
  unfold pretty_N_char in Hc.
  repeat (match type of Hc with context [match ?y with _ => _ end] => destruct y end);
    vm_compute in Hc; lia.
Qed.

Lemma pretty_N_go_plain (c : ascii) (x : N) (s : string) :
  (nat_of_ascii c < 48 \/ 57 < nat_of_ascii c) ->
  has_char c (pretty_N_go x s) = has_char c s.
Proof.
  intros Hc. revert s. induction (N.lt_wf_0 x) as [x _ IH]; intros s.
  destruct (decide (x = 0)%N) as [->|Hx]; [now rewrite pretty_N_go_0|].
  rewrite pretty_N_go_step by lia.
  rewrite IH by (apply N.div_lt; lia).
  simpl. now rewrite pretty_N_char_plain.
Qed.

(** [f'{n}'] is made of digits. *)
Lemma of_nat_plain (c : ascii) (n : nat) :
  (nat_of_ascii c < 48 \/ 57 < nat_of_ascii c) -> has_char c (of_nat n) = false.
Proof.
  intros Hc. unfold of_nat, pretty, pretty_nat, pretty, pretty_N.
  destruct (decide (N.of_nat n = 0)%N).
  - simpl. rewrite orb_false_r. apply Ascii.eqb_neq. intros <-. vm_compute in Hc. lia.
  - now rewrite pretty_N_go_plain.
Qed.
End Digits.

Section StandardizeNote.
Import PyStr PosixPath OS Persist EvernoteMigration Vocabulary.
Variable C : Constants.
Variable X : Extractors.
Variable uuid4 : nat -> string.
Variable normalize_string : string -> string.
Variable self : t.

(** *** A run that only reports *)

Lemma scan_match_report_only (note_path scanned : string)
    (st st' : gmap string string * Progress) (m : PathMatch) :
  report_only self = true ->
  scan_match C uuid4 self note_path scanned st m = Ok st' ->
  fs (snd st') = fs (snd st).
Proof.
  intros R. destruct st as [table p]. unfold scan_match. rewrite R.
  destruct (table !! _) as [[|c new]|]; cbn [mbind result_bind];
    try (intros [= <-]; reflexivity);
    (destruct (Metadata.get_attachment_metadata _ _ _) as [meta|e];
     cbn [mbind result_bind]; [intros [= <-]; reflexivity | discriminate]).
Qed.

Lemma scan_matches_report_only (note_path scanned : string) (ms : list PathMatch)
    (st st' : gmap string string * Progress) :
  report_only self = true ->
  foldlM (scan_match C uuid4 self note_path scanned) st ms = Ok st' ->
  fs (snd st') = fs (snd st).
Proof.
  intros R. revert st; induction ms as [|m ms IH]; intros st.
  - now intros [= <-].
  - cbn [foldlM].
    destruct (scan_match C uuid4 self note_path scanned st m) as [st1|e] eqn:E;
      [|discriminate].
    cbn [mbind result_bind]. intros H.
    rewrite (IH _ H). now apply (scan_match_report_only _ _ _ _ _ R E).
Qed.

Lemma scan_regex_report_only (note_path : string) (regex : string -> list PathMatch)
    (p p' : Progress) :
  report_only self = true ->
  scan_regex C uuid4 self note_path regex p = Ok p' -> fs p' = fs p.
Proof.
  intros R. unfold scan_regex.
  destruct (foldlM _ _ _) as [[table p1]|e] eqn:E; [|discriminate].
  cbn [mbind result_bind]. intros [= <-].
  apply (scan_matches_report_only _ _ _ _ _ R E).
Qed.

Lemma scan_assets_report_only (note_path : string) (p p' : Progress) :
  report_only self = true ->
  scan_assets C X uuid4 self note_path p = Ok p' -> fs p' = fs p.
Proof.
  intros R. unfold scan_assets. cbn [foldlM].
  destruct (scan_regex C uuid4 self note_path (REGEX_FILE X) p) as [p1|e] eqn:E1;
    [|discriminate].
  cbn [mbind result_bind].
  destruct (scan_regex C uuid4 self note_path (REGEX_IMAGE X) p1) as [p2|e] eqn:E2;
    [|discriminate].
  cbn [mbind result_bind]. intros [= <-].
  rewrite (scan_regex_report_only _ _ _ _ R E2). apply (scan_regex_report_only _ _ _ _ R E1).
Qed.

(** With [report_only] set, the migration of a note leaves the file
    system as it found it: no attachment is copied and no note is
    written, and the journal records nothing. *)
Theorem _standardize_note_report_only (fs0 fs1 : FileSystem) (db db' : EvernoteDB.t)
    (drawn drawn' : nat) (note_folder : string) (note_metadata : NoteMetadata.t)
    (attachments : list AttachmentMetadata.t) :
  report_only self = true ->
  _standardize_note C X uuid4 normalize_string self fs0 db drawn note_folder
  = Ok (note_metadata, attachments, fs1, db', drawn') ->
  fs1 = fs0.
Proof.
  intros R. unfold _standardize_note.
  destruct (load_note_content fs0 _) as [content0|e]; [|discriminate].
  cbn [mbind result_bind].
  destruct (scan_assets C X uuid4 self _ _) as [p|e] eqn:E; [|discriminate].
  cbn [mbind result_bind].
  destruct (_get_note_filename C self (fs p) note_folder) as [path|]; [|discriminate].
  cbn [mbind result_bind]. rewrite R.
  pose proof (scan_assets_report_only _ _ _ R E) as Hfs. cbn [fs] in Hfs.
  destruct (EvernoteDB.is_connected db).
  - destruct (EvernoteDB.get_id_from_note _ _ _ _) as [[i db1]|e]; [|discriminate].
    cbn [mbind result_bind].
    destruct i as [[|c i]|]; cbn [mbind result_bind]; intros [= <- <- <- <- <-]; assumption.
  - cbn [mbind result_bind]. intros [= <- <- <- <- <-]. assumption.
Qed.

(** *** The file written and the container registered *)

Lemma startswith_refl (s : string) : startswith s s = true.
Proof. induction s as [|c s IH]; simpl; [reflexivity | now rewrite Ascii.eqb_refl]. Qed.

Lemma _get_note_filename_loop_shape (fs : FileSystem) (fuel : nat)
    (note_name : string) (count : nat) (path : string) :
  has_char SLASH note_name = false ->
  _get_note_filename_loop C self fs fuel note_name count = Some path ->
  (overwrite self = false -> path_exists fs path = false) /\
  exists name, path = candidate C self name /\ has_char SLASH name = false /\
               startswith note_name name = true.
Proof.
  assert (forall n, has_char SLASH n = false ->
            exists name, candidate C self n = candidate C self name
                         /\ has_char SLASH name = false /\ startswith n name = true)
    as Hhere by (intros n Hn; exists n; auto using startswith_refl).
  revert note_name count; induction fuel as [|fuel IH]; intros note_name count Hn;
    cbn [_get_note_filename_loop]; fold (candidate C self note_name).
  - destruct (path_exists fs (candidate C self note_name)) eqn:Hex;
      [destruct (overwrite self) eqn:Ho; [|discriminate]|];
      intros [= <-]; (split; [congruence | now apply Hhere]).
  - destruct (path_exists fs (candidate C self note_name)) eqn:Hex;
      [destruct (overwrite self) eqn:Ho|];
      try (intros [= <-]; (split; [congruence | now apply Hhere])).
    intros H. apply IH in H as (Hfree & name & -> & Hs & Hp).
    + split; [assumption|]. exists name. split; [reflexivity|]. split; [assumption|].
      apply startswith_inv in Hp. rewrite Hp, str_app_assoc. apply startswith_app.
    + rewrite !has_char_app, Hn, of_nat_plain by (vm_compute; lia). reflexivity.
Qed.

(** Without [overwrite], the path chosen for a note is the path of no
    file: no note migrated before is written over.  The path is the
    folder of the notebook joined with a name without a slash that
    begins with the standardized name of the folder of the note, and
    the extension of the notes. *)
Theorem _get_note_filename_fresh (fs : FileSystem) (note_folder path : string) :
  _get_note_filename C self fs note_folder = Some path ->
  (overwrite self = false -> path_exists fs path = false) /\
  exists name,
    path = join (notebook_path self) name +:+ NOTE_EXTENSION C /\
    has_char SLASH name = false /\
    startswith (Converters.standardize_note_name note_folder) name = true.
Proof.
  unfold _get_note_filename. apply _get_note_filename_loop_shape.
  apply (has_special_false _), standardize_note_name_no_special.
Qed.

Lemma join_app_plain (a b c : string) :
  has_char SLASH b = false -> has_char SLASH c = false ->
  join a b +:+ c = join a (b +:+ c).
Proof.
  intros Hb Hc. unfold join.
  assert (forall s, has_char SLASH s = false -> startswith (chr SLASH) s = false) as Hs.
  { intros [|x s]; [reflexivity|]. simpl. intros H. apply orb_false_iff in H as [H _].
    now rewrite Ascii.eqb_sym, H. }
  rewrite (Hs b Hb), (Hs (b +:+ c)) by now rewrite has_char_app, Hb, Hc.
  destruct (_ || _); now rewrite !str_app_assoc.
Qed.

Lemma basename_plain (s : string) : has_char SLASH s = false -> basename s = s.
Proof. destruct s as [|c s]; [reflexivity|]. intros H. cbn [basename]. now rewrite H. Qed.

Lemma basename_join (a b : string) :
  has_char SLASH b = false -> basename (join a b) = b.
Proof.
  intros Hb.
  assert (forall x, basename (x +:+ chr SLASH +:+ b) = b) as H1.
  { induction x as [|c x IH].
    - cbn [String.append chr basename has_char]. rewrite Ascii.eqb_refl. cbn [orb].
      now apply basename_plain.
    - change (String c x +:+ chr SLASH +:+ b) with (String c (x +:+ chr SLASH +:+ b)).
      cbn [basename has_char]. rewrite !has_char_app. cbn [chr has_char].
      rewrite Ascii.eqb_refl, orb_true_r. cbn [orb]. rewrite orb_true_r. exact IH. }
  assert (forall x, endswith_char SLASH x = true -> basename (x +:+ b) = b) as H2.
  { intros x Hx. apply endswith_char_inv in Hx. rewrite Hx, str_app_assoc. apply H1. }
  unfold join.
  destruct (startswith (chr SLASH) b) eqn:Hs.
  - destruct b as [|c b]; [reflexivity|]. simpl in Hs, Hb.
    apply andb_true_iff in Hs as [Hs _]. apply orb_false_iff in Hb as [Hb _].
    rewrite Ascii.eqb_sym in Hs. congruence.
  - destruct (String.eqb_spec a EmptyString) as [->|Ha]; cbn [orb].
    + now apply basename_plain.
    + destruct (endswith_char SLASH a) eqn:He; [now apply H2 | apply H1].
Qed.

(** What the migration of a note returns and leaves. *)
Lemma _standardize_note_shape (fs0 fs1 : FileSystem) (db db' : EvernoteDB.t)
    (drawn drawn' : nat) (note_folder : string) (note_metadata : NoteMetadata.t)
    (attachments : list AttachmentMetadata.t) :
  has_char SLASH (NOTE_EXTENSION C) = false ->
  _standardize_note C X uuid4 normalize_string self fs0 db drawn note_folder
  = Ok (note_metadata, attachments, fs1, db', drawn') ->
  has_char SLASH (NoteMetadata.name note_metadata) = false /\
  startswith (Converters.standardize_note_name note_folder)
    (NoteMetadata.name note_metadata) = true /\
  (report_only self = false ->
   exists content before,
     fs1 = save_note_content before
             (join (notebook_path self) (NoteMetadata.name note_metadata)) content /\
     NoteMetadata.size note_metadata = String.length content /\
     (overwrite self = false ->
      files before !! join (notebook_path self) (NoteMetadata.name note_metadata) = None)) /\
  (forall c i, NoteMetadata.id note_metadata = Some (String c i) ->
     EvernoteDB.get_container_from_id db' (String c i)
     = Some (NoteMetadata.name note_metadata)) /\
  (EvernoteDB.is_connected db = false ->
   NoteMetadata.id note_metadata = None /\ db' = db).
Proof.
  intros Hext. unfold _standardize_note.
  destruct (load_note_content fs0 _) as [content0|e]; [|discriminate].
  cbn [mbind result_bind].
  destruct (scan_assets C X uuid4 self _ _) as [p|e] eqn:E; [|discriminate].
  cbn [mbind result_bind].
  destruct (_get_note_filename C self (fs p) note_folder) as [path|] eqn:F; [|discriminate].
  cbn [mbind result_bind].
  unfold _get_note_filename in F.
  apply _get_note_filename_loop_shape in F as (Hfree & name & -> & Hname & Hstart);
    [|apply (has_special_false _), standardize_note_name_no_special].
  unfold candidate in *. rewrite (join_app_plain _ _ _ Hname Hext) in *.
  assert (overwrite self = false ->
          files (fs p) !! join (notebook_path self) (name +:+ NOTE_EXTENSION C) = None)
    as Hnew.
  { intros Ho. specialize (Hfree Ho). apply bool_decide_eq_false in Hfree.
    now apply eq_None_not_Some. }
  assert (has_char SLASH (name +:+ NOTE_EXTENSION C) = false) as Hplain
    by now rewrite has_char_app, Hname, Hext.
  rewrite (basename_join _ _ Hplain).
  assert (startswith (Converters.standardize_note_name note_folder)
            (name +:+ NOTE_EXTENSION C) = true) as Hstart'.
  { apply startswith_inv in Hstart. rewrite Hstart, str_app_assoc. apply startswith_app. }
  set (content1 := Converters.standardize_tags (content p)).
  destruct (EvernoteDB.is_connected db) eqn:Hconn.
  - destruct (EvernoteDB.get_id_from_note _ _ _ _) as [[i db1]|e]; [|discriminate].
    cbn [mbind result_bind].
    destruct i as [[|c i]|]; cbn [mbind result_bind]; intros [= <- <- <- <- <-];
      cbn [NoteMetadata.set_id get_note_metadata NoteMetadata.name NoteMetadata.size
           NoteMetadata.id];
      (split; [assumption|]); (split; [assumption|]);
      (split; [intros ->; exists content1, (fs p); repeat split; assumption|]);
      (split; [|discriminate]).
    + discriminate.
    + intros c' i' [= <- <-]. unfold EvernoteDB.get_container_from_id,
        EvernoteDB.add_container_id. cbn [EvernoteDB.map_id_2_container].
      apply lookup_insert_eq.
    + discriminate.
  - cbn [mbind result_bind]. intros [= <- <- <- <- <-].
    cbn [get_note_metadata NoteMetadata.name NoteMetadata.size NoteMetadata.id].
    split; [assumption|]. split; [assumption|].
    split; [intros ->; exists content1, (fs p); repeat split; assumption|].
    split; [discriminate|]. auto.
Qed.

(** The note is filed under a plain name.  When the extension of the
    notes holds no slash, the name returned in the metadata holds none and
    begins with the standardized name of the folder; a run that does not
    only report has written, last, the file of that name in the folder of
    the notebook, and the size returned is the length of what it wrote;
    an identifier returned, when it is not empty, is registered with that
    name as its container; without a connection no identifier is returned
    and the index is left as it was. *)
Theorem _standardize_note_files (fs0 fs1 : FileSystem) (db db' : EvernoteDB.t)
    (drawn drawn' : nat) (note_folder : string) (note_metadata : NoteMetadata.t)
    (attachments : list AttachmentMetadata.t) :
  has_char SLASH (NOTE_EXTENSION C) = false ->
  _standardize_note C X uuid4 normalize_string self fs0 db drawn note_folder
  = Ok (note_metadata, attachments, fs1, db', drawn') ->
  has_char SLASH (NoteMetadata.name note_metadata) = false /\
  startswith (Converters.standardize_note_name note_folder)
    (NoteMetadata.name note_metadata) = true /\
  (report_only self = false ->
   exists content before,
     fs1 = save_note_content before
             (join (notebook_path self) (NoteMetadata.name note_metadata)) content /\
     NoteMetadata.size note_metadata = String.length content /\
     (overwrite self = false ->
      files before !! join (notebook_path self) (NoteMetadata.name note_metadata) = None)) /\
  (forall c i, NoteMetadata.id note_metadata = Some (String c i) ->
     EvernoteDB.get_container_from_id db' (String c i)
     = Some (NoteMetadata.name note_metadata)) /\
  (EvernoteDB.is_connected db = false ->
   NoteMetadata.id note_metadata = None /\ db' = db).
Proof. apply _standardize_note_shape. Qed.

(** *** A note without local assets *)

Lemma get_id_from_note_connected (db : EvernoteDB.t) (title : option string)
    (date_created : option datetime) :
  EvernoteDB.is_connected db = true ->
  exists r db', EvernoteDB.get_id_from_note normalize_string db title date_created
                = Ok (r, db').
Proof.
  intros Hc. destruct title as [[|c title]|]; [now exists None, db| |now exists None, db].
  assert (exists db1, EvernoteDB.finalize normalize_string db = Ok db1) as [db1 F].
  { unfold EvernoteDB.finalize, EvernoteDB.is_connected in *.
    destruct (EvernoteDB.conn db); [|discriminate].
    destruct (EvernoteDB.is_finalized db); eauto. }
  destruct (get_id_from_note_finalized normalize_string db db1 c title date_created F)
    as [r Hr].
  eauto.
Qed.


(** *** A reference to a file that is not there *)

(** The last reference the file pattern finds is the first one taken.
    When the file it names is not in the folder of the note, the
    migration of the note stops on the error of the missing file, in a
    run that only reports as in a full run. *)
Theorem _standardize_note_missing_asset (fs0 : FileSystem) (db : EvernoteDB.t)
    (drawn : nat) (note_folder content0 : string) (ms : list PathMatch) (m : PathMatch) :
  files fs0 !! join (join (notebook_path self) note_folder) _NOTE_FILENAME = Some content0 ->
  REGEX_FILE X content0 = ms ++ [m] ->
  files fs0 !! join (join (notebook_path self) note_folder)
                 (slice (path_begin m) (path_end m) content0) = None ->
  _standardize_note C X uuid4 normalize_string self fs0 db drawn note_folder
  = Raise (FileNotFoundError
             (join (join (notebook_path self) note_folder)
                (slice (path_begin m) (path_end m) content0))).
Proof.
  intros Hload Hms Hasset. unfold _standardize_note, load_note_content.
  rewrite Hload. cbn [mbind result_bind].
  unfold scan_assets. cbn [foldlM]. unfold scan_regex at 2. cbn [content].
  rewrite Hms, rev_app_distr. cbn [rev app foldlM].
  unfold scan_match at 2. rewrite lookup_empty. cbn [fs].
  destruct (report_only self).
  - cbn [mbind result_bind]. unfold Metadata.get_attachment_metadata, getsize.
    rewrite Hasset. reflexivity.
  - unfold copy. rewrite Hasset. reflexivity.
Qed.

End StandardizeNote.

Lemma _standardize_note_report_only_witness :
  exists fs1,
    EvernoteMigration._standardize_note Samples.sample_constants
      Samples.sample_extractors_note Samples.sample_uuid4 (fun s => s)
      Samples.sample_self_report Samples.sample_note_fs (EvernoteDB.init None) 0 "My Note"
    = Ok (NoteMetadata.set_id Samples.sample_migrated_note None,
          Samples.sample_migrated_attachments, fs1, EvernoteDB.init None, 1)
    /\ fs1 = Samples.sample_note_fs.
Proof.
  eexists. split; [vm_compute; reflexivity|].
  apply (_standardize_note_report_only Samples.sample_constants Samples.sample_extractors_note
           Samples.sample_uuid4 (fun s => s) Samples.sample_self_report
           Samples.sample_note_fs _ (EvernoteDB.init None)
           (EvernoteDB.init None) 0 1 "My Note"
           (NoteMetadata.set_id Samples.sample_migrated_note None)
           Samples.sample_migrated_attachments);
    vm_compute; reflexivity.
Defined.

Lemma _standardize_note_files_witness :
  EvernoteDB.get_container_from_id Samples.sample_migrated_db "n1" = Some "My Note.md" /\
  exists content before,
    Samples.sample_migrated_fs = Persist.save_note_content before "nb/My Note.md" content /\
    57 = String.length content /\
    OS.files before !! "nb/My Note.md" = None.
Proof.
  destruct (_standardize_note_files Samples.sample_constants Samples.sample_extractors_note
              Samples.sample_uuid4 (fun s => s) Samples.sample_self
              Samples.sample_note_fs Samples.sample_migrated_fs
              (EvernoteDB.init (Some Samples.sample_rows)) Samples.sample_migrated_db
              0 1 "My Note" Samples.sample_migrated_note
              Samples.sample_migrated_attachments)
    as (_ & _ & Hwritten & Hid & _); [reflexivity | vm_compute; reflexivity |].
  split; [exact (Hid _ _ eq_refl)|].
  destruct (Hwritten eq_refl) as (content & before & H1 & H2 & H3).
  exists content, before. split; [exact H1|]. split; [exact H2 | exact (H3 eq_refl)].
Defined.

Lemma _standardize_note_missing_asset_witness :
  EvernoteMigration._standardize_note Samples.sample_constants Samples.sample_extractors_note
    Samples.sample_uuid4 (fun s => s) Samples.sample_self_report
    {| OS.files := {[ "nb/My Note/README.md" := "[a](img.png)" ]}; OS.journal := [] |}
    (EvernoteDB.init None) 0 "My Note"
  = Raise (FileNotFoundError "nb/My Note/img.png").
Proof.
  apply (_standardize_note_missing_asset Samples.sample_constants
           Samples.sample_extractors_note Samples.sample_uuid4 (fun s => s)
           Samples.sample_self_report
           {| OS.files := {[ "nb/My Note/README.md" := "[a](img.png)" ]}; OS.journal := [] |}
           (EvernoteDB.init None) 0 "My Note" "[a](img.png)" []
           {| EvernoteMigration.path_begin := 4; EvernoteMigration.path_end := 11 |});
    reflexivity.
Defined.

Lemma _get_note_filename_fresh_witness :
  EvernoteMigration._get_note_filename Samples.sample_constants Samples.sample_self
    Samples.sample_migrated_fs "My Note" = Some "nb/My Note-1.md" /\
  OS.path_exists Samples.sample_migrated_fs "nb/My Note-1.md" = false.
Proof.
  split; [vm_compute; reflexivity|].
  apply (_get_note_filename_fresh Samples.sample_constants Samples.sample_self
           Samples.sample_migrated_fs "My Note" "nb/My Note-1.md");
    vm_compute; reflexivity.
Defined.


(** ** More on the links between the notes (src/evernote_migration.py) *)

Section LinksMore.
Import PyStr PosixPath OS Persist EvernoteMigration Vocabulary.
Variable X : Extractors.
Variable self : t.
Variable db : EvernoteDB.t.

Lemma link_spans_ok_le (from : nat) (ms : list LinkMatch) (len : nat) :
  link_spans_ok from ms len = true -> from <= len.
Proof.
  revert from; induction ms as [|m ms IH]; intros from H; simpl in H.
  - now apply Nat.leb_le.
  - apply andb_true_iff in H as [H H3]. apply andb_true_iff in H as [H1 H2].
    apply Nat.leb_le in H1, H2. specialize (IH _ H3). lia.
Qed.

Lemma rewrite_link_url (content : string) (is_dirty : bool) (scanned rest : string)
    (m : LinkMatch) :
  url_begin m <= url_end m -> url_end m <= String.length scanned ->
  rewrite_link db (str_take (url_end m) scanned +:+ rest, is_dirty) m
  = (str_take (url_begin m) scanned +:+ url_after db scanned m +:+ rest,
     is_dirty || resolves db m).
Proof.
  intros Hbe Hel. unfold rewrite_link, url_after, resolves.
  destruct (EvernoteDB.get_container_from_id db (link_id m)) as [[|c p]|].
  - rewrite orb_false_r. unfold slice.
    rewrite (str_take_split (url_begin m) (url_end m)) by assumption.
    unfold slice. now rewrite !str_app_assoc.
  - rewrite orb_true_r.
    rewrite <- (str_app_assoc "./" (String c p)), replace_span by assumption.
    reflexivity.
  - rewrite orb_false_r.
    rewrite (str_take_split (url_begin m) (url_end m)) by assumption.
    unfold slice. now rewrite !str_app_assoc.
Qed.

Lemma rewrite_links_from (scanned : string) (is_dirty : bool) (ms : list LinkMatch)
    (from : nat) :
  link_spans_ok from ms (String.length scanned) = true ->
  fold_left (rewrite_link db) (rev ms) (scanned, is_dirty)
  = (str_take from scanned +:+ splice_links db from ms scanned,
     is_dirty || existsb (resolves db) ms).
Proof.
  revert from; induction ms as [|m ms IH]; intros from Hspans.
  - cbn. now rewrite str_take_drop, orb_false_r.
  - cbn [link_spans_ok] in Hspans.
    apply andb_true_iff in Hspans as [Hspans Hrest].
    apply andb_true_iff in Hspans as [Hfb Hbe].
    apply Nat.leb_le in Hfb, Hbe. pose proof (link_spans_ok_le _ _ _ Hrest) as Hel.
    cbn [rev]. rewrite fold_left_app, (IH _ Hrest). cbn [fold_left].
    rewrite rewrite_link_url by assumption.
    cbn [splice_links existsb].
    rewrite (str_take_split from (url_begin m)) by assumption.
    rewrite !str_app_assoc. f_equal.
    destruct is_dirty, (resolves db m), (existsb (resolves db) ms); reflexivity.
Qed.

(** The turn of one link pattern puts each new link where the old one
    stood.  When the matches of the pattern come from left to right
    without overlapping, the text after the turn is the text before it
    with the [url] of every link that resolves replaced by the relative
    path of its container, and everything else, the links that do not
    resolve included, as it was; the text is marked as changed when one
    link resolves. *)
Theorem rewrite_links_spec (content : string) (is_dirty : bool)
    (regex : string -> list LinkMatch) :
  link_spans_ok 0 (regex content) (String.length content) = true ->
  rewrite_links db (content, is_dirty) regex
  = (splice_links db 0 (regex content) content,
     is_dirty || existsb (resolves db) (regex content)).
Proof.
  intros H. unfold rewrite_links. cbn [fst].
  now rewrite (rewrite_links_from _ _ _ 0 H).
Qed.

(** *** The pass over the notes *)

Lemma process_note_links_of_effect (fs fs' : FileSystem) (note_path : string) :
  process_note_links_of X self db fs note_path = Ok fs' ->
  is_Some (files fs !! note_path) /\
  (fs' = fs \/
   (report_only self = false /\
    exists content, fs' = save_note_content fs note_path content)).
Proof.
  unfold process_note_links_of, load_note_content.
  destruct (files fs !! note_path) as [content|]; [|discriminate].
  cbn [mbind result_bind].
  destruct (fold_left _ _ _) as [content' is_dirty].
  destruct is_dirty, (report_only self); cbn [andb negb]; intros [= <-];
    (split; [eauto|]); auto.
  right. eauto.
Qed.

(** The pass that rewrites the links neither creates nor removes a file:
    the paths of the file system are the same after it as before.  It
    writes note files of the list only, so that every other path holds
    what it held, and the journal grows by writes of listed notes.
    Without a connection, and in a run that only reports, nothing is
    changed at all.  With a connection the pass goes through only when
    every listed note can be read. *)
Theorem _process_note_links_pass (note_files : list string) (fs fs' : FileSystem) :
  _process_note_links X self db note_files fs = Ok fs' ->
  dom (files fs') = dom (files fs) /\
  (forall p, p ∉ note_files -> files fs' !! p = files fs !! p) /\
  (exists written,
     journal fs' = journal fs ++ written /\
     Forall (fun op => exists p c, op = Written p c /\ p ∈ note_files) written) /\
  (EvernoteDB.is_connected db = false \/ report_only self = true -> fs' = fs) /\
  (EvernoteDB.is_connected db = true ->
   Forall (fun p => is_Some (files fs !! p)) note_files).
Proof.
  unfold _process_note_links. destruct (EvernoteDB.is_connected db); cbn [negb].
  2:{ intros [= <-]. split; [reflexivity|]. split; [reflexivity|].
      split; [exists []; split; [now rewrite app_nil_r | constructor]|].
      split; [reflexivity | discriminate]. }
  revert fs; induction note_files as [|p ps IH]; intros fs.
  - intros [= <-]. split; [reflexivity|]. split; [reflexivity|].
    split; [exists []; split; [now rewrite app_nil_r | constructor]|].
    split; [reflexivity | constructor].
  - cbn [foldlM].
    destruct (process_note_links_of X self db fs p) as [fs1|e] eqn:E; [|discriminate].
    cbn [mbind result_bind]. intros Hrun.
    destruct (IH _ Hrun) as (Hdom & Hframe & (written & Hj & Hw) & Hsame & Hex).
    destruct (process_note_links_of_effect _ _ _ E) as [Hp Hstep].
    assert (dom (files fs1) = dom (files fs) /\
            (forall q, q <> p -> files fs1 !! q = files fs !! q) /\
            (exists w, journal fs1 = journal fs ++ w /\
                       Forall (fun op => exists q c, op = Written q c /\ q = p) w) /\
            (report_only self = true -> fs1 = fs)) as (Hd1 & Hf1 & (w & Hj1 & Hw1) & Hs1).
    { destruct Hstep as [-> | (R & content & ->)].
      - split; [reflexivity|]. split; [reflexivity|].
        split; [exists []; split; [now rewrite app_nil_r | constructor]|]. reflexivity.
      - cbn [save_note_content files journal].
        split; [now apply dom_insert_lookup_L|].
        split; [intros q Hq; now apply lookup_insert_ne|].
        split; [|congruence].
        eexists. split; [reflexivity|]. apply Forall_singleton. eauto. }
    split; [congruence|]. split; [|split; [|split]].
    + intros q Hq. apply not_elem_of_cons in Hq as [Hqp Hq].
      rewrite (Hframe q Hq). now apply Hf1.
    + exists (w ++ written). split; [now rewrite Hj, Hj1, app_assoc|].
      apply Forall_app. split.
      * eapply Forall_impl; [exact Hw1|]. intros op (q & c & -> & ->).
        exists p, c. split; [reflexivity | apply list_elem_of_here].
      * eapply Forall_impl; [exact Hw|]. intros op (q & c & -> & Hq).
        exists q, c. split; [reflexivity | now apply list_elem_of_further].
    + intros [H|R]; [discriminate|]. rewrite (Hsame (or_intror R)). now apply Hs1.
    + intros _. apply Forall_cons. split; [assumption|].
      eapply Forall_impl; [exact (Hex eq_refl)|]. intros q Hq. cbn in Hq.
      apply elem_of_dom. rewrite <- Hd1. now apply elem_of_dom.
Qed.

(** *** The count of the backlinks *)

Lemma backlinks_count_from (l : list (list string)) (a : nat) :
  fold_left (fun x y => x + length y) l a = a + fold_left (fun x y => x + length y) l 0.
Proof.
  revert a; induction l as [|v l IH]; intros a; simpl; [lia|].
  rewrite (IH (a + length v)), (IH (length v)). lia.
Qed.

Lemma backlinks_count_cons (k : string) (v : list string) (m : Backlinks) :
  backlinks_count ((k, v) :: m) = length v + backlinks_count m.
Proof. unfold backlinks_count. simpl. now rewrite backlinks_count_from. Qed.

Lemma backlinks_count_set (m : Backlinks) (c : string) (v : list string) :
  backlinks_count (backlinks_set m c v) + length (linked m c)
  = backlinks_count m + length v.
Proof.
  unfold linked. induction m as [|[k w] m IH]; simpl.
  - rewrite backlinks_count_cons. unfold backlinks_count. simpl. lia.
  - destruct (String.eqb k c); rewrite !backlinks_count_cons; simpl; lia.
Qed.

Lemma backlinks_length_set (m : Backlinks) (c : string) (v : list string) :
  length (backlinks_set m c v)
  = if bool_decide (is_Some (backlinks_get m c)) then length m else S (length m).
Proof.
  induction m as [|[k w] m IH]; cbn [backlinks_set backlinks_get].
  - rewrite bool_decide_eq_false_2 by (intros [x Hx]; discriminate). reflexivity.
  - destruct (String.eqb k c); cbn [length].
    + rewrite bool_decide_eq_true_2 by eauto. reflexivity.
    + rewrite IH. destruct (bool_decide _); reflexivity.
Qed.

Lemma add_backlink_count (note_name : string) (m : Backlinks) (c : string) :
  backlinks_count (add_backlink note_name m c) = backlinks_count m + 1 /\
  length m <= length (add_backlink note_name m c) <= length m + 1.
Proof.
  unfold add_backlink. split.
  - destruct (backlinks_get m c) as [[|n l]|] eqn:E.
    + pose proof (backlinks_count_set m c [note_name]) as H.
      unfold linked in H. rewrite E in H. cbn [default from_option id length] in H. lia.
    + pose proof (backlinks_count_set m c ((n :: l) ++ [note_name])) as H.
      unfold linked in H. rewrite E, length_app in H. cbn [default from_option id length] in H. lia.
    + pose proof (backlinks_count_set m c [note_name]) as H.
      unfold linked in H. rewrite E in H. cbn [default from_option id length] in H. lia.
  - destruct (backlinks_get m c) as [[|n l]|]; rewrite backlinks_length_set;
      destruct (bool_decide _); lia.
Qed.

Lemma add_backlinks_count (note_name : string) (containers : list string) (m : Backlinks) :
  backlinks_count (fold_left (add_backlink note_name) containers m)
  = backlinks_count m + length containers /\
  length (fold_left (add_backlink note_name) containers m) <= length m + length containers.
Proof.
  revert m; induction containers as [|c cs IH]; intros m; simpl; [lia|].
  destruct (IH (add_backlink note_name m c)) as [-> Hl].
  destruct (add_backlink_count note_name m c) as [-> Hl']. lia.
Qed.

Lemma collect_backlinks_count (fs : FileSystem) (note_files : list string)
    (m0 m : Backlinks) :
  foldlM
    (fun m note_path =>
       content ← load_note_content fs note_path;
       let containers := map basename (extract_notes_links X content) in
       Ok (fold_left (add_backlink (basename note_path)) containers m))
    m0 note_files = Ok m ->
  backlinks_count m = backlinks_count m0 + length (links_found X fs note_files) /\
  length m <= length m0 + length (links_found X fs note_files).
Proof.
  unfold links_found.
  revert m0; induction note_files as [|p ps IH]; intros m0.
  - cbn [foldlM flat_map length]. intros [= <-]. lia.
  - cbn [foldlM flat_map].
    destruct (files fs !! p) as [content|] eqn:Hp.
    2:{ assert (load_note_content fs p = Raise (FileNotFoundError p)) as ->
          by (unfold load_note_content; now rewrite Hp).
        discriminate. }
    rewrite (load_note_content_Some _ _ _ Hp). cbn [mbind result_bind].
    intros H. apply IH in H as [-> Hl].
    destruct (add_backlinks_count (basename p)
                (map basename (extract_notes_links X content)) m0) as [-> Hl'].
    rewrite length_map in *. rewrite length_app. lia.
Qed.

(** No link is lost and none is counted twice: the count of the
    backlinks, as the pass logs it, is the number of links found in the
    listed notes, and the notes that receive a section of backlinks are
    no more than that. *)
Theorem backlinks_count_links (fs : FileSystem) (note_files : list string) (m : Backlinks) :
  collect_backlinks X fs note_files = Ok m ->
  backlinks_count m = length (links_found X fs note_files) /\
  length m <= backlinks_count m.
Proof.
  intros H. unfold collect_backlinks in H.
  apply collect_backlinks_count in H as [Hc Hl].
  change (backlinks_count []) with 0 in Hc. simpl in Hc, Hl. lia.
Qed.

End LinksMore.

Lemma rewrite_links_spec_witness :
  EvernoteMigration.rewrite_links Samples.sample_links_db ("[Other](evernote:id-1)", false)
    Samples.sample_link_regex
  = ("[Other](./Other.md)", true).
Proof.
  apply (rewrite_links_spec Samples.sample_links_db "[Other](evernote:id-1)" false
           Samples.sample_link_regex).
  reflexivity.
Defined.

Lemma _process_note_links_pass_witness :
  exists fs',
    EvernoteMigration._process_note_links Samples.sample_extractors_links Samples.sample_self
      Samples.sample_links_db ["nb/a.md"; "nb/Other.md"] Samples.sample_links_fs = Ok fs' /\
    dom (OS.files fs') = dom (OS.files Samples.sample_links_fs).
Proof.
  eexists. split; [vm_compute; reflexivity|].
  apply (_process_note_links_pass Samples.sample_extractors_links Samples.sample_self
           Samples.sample_links_db ["nb/a.md"; "nb/Other.md"] Samples.sample_links_fs _).
  vm_compute. reflexivity.
Defined.

Lemma backlinks_count_links_witness :
  exists m,
    EvernoteMigration.collect_backlinks Samples.sample_extractors_links
      Samples.sample_linked_fs ["nb/a.md"; "nb/Other.md"] = Ok m /\
    EvernoteMigration.backlinks_count m = 1.
Proof.
  eexists. split; [vm_compute; reflexivity|].
  apply (backlinks_count_links Samples.sample_extractors_links Samples.sample_linked_fs
           ["nb/a.md"; "nb/Other.md"] _).
  vm_compute. reflexivity.
Defined.

(** ** The copies of the attachments (src/evernote_migration.py) *)

Section JoinFacts.
Import PyStr PosixPath.

(** What [os.path.join] puts between its two arguments. *)
Local Abbreviation sep a :=
  (if String.eqb a EmptyString || endswith_char SLASH a then EmptyString else chr SLASH).

Lemma join_relative (a b : string) :
  startswith (chr SLASH) b = false -> join a b = a +:+ sep a +:+ b.
Proof. intros H. unfold join. rewrite H. now destruct (_ || _). Qed.

Lemma join_absolute (a b : string) : startswith (chr SLASH) b = true -> join a b = b.
Proof. intros H. unfold join. now rewrite H. Qed.

Lemma endswith_char_app_r (c : ascii) (a b : string) :
  b <> EmptyString -> endswith_char c (a +:+ b) = endswith_char c b.
Proof.
  intros Hb. induction a as [|x a IH]; [reflexivity|].
  change (String x a +:+ b) with (String x (a +:+ b)).
  cbn [endswith_char]. destruct (a +:+ b) eqn:E; [|exact IH].
  destruct a; [simpl in E; congruence | discriminate].
Qed.

Lemma eqb_app_nonempty (a b : string) :
  b <> EmptyString -> String.eqb (a +:+ b) EmptyString = false.
Proof. intros Hb. apply String.eqb_neq. destruct a; [assumption | discriminate]. Qed.

Lemma sep_join (a b : string) : sep (a +:+ sep a +:+ b) = sep b.
Proof.
  destruct b as [|x b].
  - rewrite str_app_nil_r. cbn [String.eqb orb].
    destruct a as [|y a]; [reflexivity|]. cbn [String.eqb orb].
    destruct (endswith_char SLASH (String y a)) eqn:E.
    + rewrite str_app_nil_r. cbn [String.eqb orb]. now rewrite E.
    + rewrite endswith_char_app, orb_true_r. reflexivity.
  - rewrite <- str_app_assoc.
    rewrite eqb_app_nonempty, endswith_char_app_r by discriminate. reflexivity.
Qed.

(** [os.path.join] is associative, so that [join(a, b, c)] is
    [join(a, join(b, c))]. *)
Lemma join_assoc (a b c : string) : join3 a b c = join a (join b c).
Proof.
  unfold join3.
  destruct (startswith (chr SLASH) c) eqn:Hc.
  - now rewrite !(join_absolute _ c Hc).
  - rewrite (join_relative b c Hc), (join_relative _ c Hc).
    destruct (startswith (chr SLASH) b) eqn:Hb.
    + rewrite (join_absolute a b Hb). rewrite join_absolute; [reflexivity|].
      destruct b as [|x b]; [discriminate | exact Hb].
    + rewrite (join_relative a b Hb). rewrite join_relative.
      * rewrite sep_join. now rewrite !str_app_assoc.
      * destruct b as [|x b]; [exact Hc | exact Hb].
Qed.
End JoinFacts.

Section Copies.
Import PyStr PosixPath OS Persist EvernoteMigration Vocabulary.
Variable C : Constants.
Variable X : Extractors.
Variable uuid4 : nat -> string.
Variable normalize_string : string -> string.
Variable self : t.
Hypothesis full_run : report_only self = false.

Local Abbreviation continues := (Vocabulary.continues C self).

Lemma continues_refl (p : Progress) : continues p p.
Proof.
  split; [auto|]. exists [], []. rewrite !app_nil_r.
  repeat split; try constructor. simpl. lia.
Qed.

(** One more attachment: its copy, its file, its UUID. *)
Lemma continues_copy (p0 p : Progress) (new data src asset_name : string)
    (meta : AttachmentMetadata.t) :
  continues p0 p -> AttachmentMetadata.name meta = asset_name ->
  continues p0
    {| content := new;
       attachments_metadata := attachments_metadata p ++ [meta];
       uuid_drawn := S (uuid_drawn p);
       fs := {| files := <[join (notebook_path self)
                             (join (ATTACHMENTS_FOLDER C) asset_name) := data]>
                           (files (fs p));
                journal := journal (fs p) ++
                           [Copied src (join (notebook_path self)
                                          (join (ATTACHMENTS_FOLDER C) asset_name))] |} |}.
Proof.
  intros (Hkeep & copies & atts & Hj & Ha & Hc & Hf & Hd) Hname.
  assert (join (notebook_path self) (join (ATTACHMENTS_FOLDER C) asset_name)
          = attachment_path C self meta) as ->
    by (unfold attachment_path; now rewrite join_assoc, Hname).
  assert (forall q, is_Some (files (fs p) !! q) ->
            is_Some (<[attachment_path C self meta := data]> (files (fs p)) !! q)) as Hins.
  { intros q Hq. destruct (decide (attachment_path C self meta = q)) as [->|Hne];
      [rewrite lookup_insert_eq; eauto | now rewrite lookup_insert_ne]. }
  split; cbn [fs files journal attachments_metadata uuid_drawn]; [auto|].
  exists (copies ++ [Copied src (attachment_path C self meta)]), (atts ++ [meta]).
  rewrite Hj, Ha, <- !app_assoc, length_app. cbn [length].
  split; [reflexivity|]. split; [reflexivity|]. split; [|split; [|lia]].
  - apply Forall2_app; [assumption|]. constructor; [now eexists | constructor].
  - apply Forall_app. split.
    + eapply Forall_impl; [exact Hf|]. intros a Hq. now apply Hins.
    + apply Forall_singleton. rewrite lookup_insert_eq. eauto.
Qed.

Lemma scan_match_continues (note_path scanned : string) (p0 : Progress)
    (st st' : gmap string string * Progress) (m : PathMatch) :
  continues p0 (snd st) ->
  scan_match C uuid4 self note_path scanned st m = Ok st' ->
  continues p0 (snd st').
Proof.
  destruct st as [table p]. cbn [snd]. intros Hp.
  unfold scan_match. rewrite full_run.
  set (asset_path := slice (path_begin m) (path_end m) scanned).
  set (asset_name := uuid4 (uuid_drawn p) +:+ snd (splitext (basename asset_path))).
  assert (forall new, continues p0
            {| content := new; attachments_metadata := attachments_metadata p;
               uuid_drawn := uuid_drawn p; fs := fs p |}) as Hsame.
  { intros new. destruct Hp as (Hkeep & copies & atts & H). split; [exact Hkeep|].
    exists copies, atts. exact H. }
  assert (forall fs',
            copy (fs p) (join note_path asset_path)
              (join (notebook_path self) (join (ATTACHMENTS_FOLDER C) asset_name)) = Ok fs' ->
            forall meta,
              Metadata.get_attachment_metadata fs' asset_name (join note_path asset_path)
              = Ok meta ->
              continues p0
                {| content := str_take (path_begin m) (content p)
                              +:+ join (ATTACHMENTS_FOLDER C) asset_name
                              +:+ str_drop (path_end m) (content p);
                   attachments_metadata := attachments_metadata p ++ [meta];
                   uuid_drawn := S (uuid_drawn p);
                   fs := fs' |}) as Hfirst.
  { intros fs' Hcopy meta Hmeta. unfold copy in Hcopy.
    destruct (files (fs p) !! join note_path asset_path) as [data|]; [|discriminate].
    destruct (String.eqb _ _); [discriminate|]. injection Hcopy as <-.
    apply continues_copy; [assumption|].
    unfold Metadata.get_attachment_metadata in Hmeta.
    destruct (getsize _ _); [now injection Hmeta as <- | discriminate]. }
  destruct (table !! asset_path) as [[|c new]|]; cbn [mbind result_bind];
    try (intros [= <-]; apply Hsame);
    (destruct (copy (fs p) _ _) as [fs'|e] eqn:Hcopy; [|discriminate];
     cbn [mbind result_bind];
     destruct (Metadata.get_attachment_metadata fs' _ _) as [meta|e] eqn:Hmeta;
     [|discriminate]; cbn [mbind result_bind]; intros [= <-]; cbn [snd];
     now apply (Hfirst fs' eq_refl meta Hmeta)).
Qed.

Lemma scan_matches_continues (note_path scanned : string) (p0 : Progress)
    (ms : list PathMatch) (st st' : gmap string string * Progress) :
  continues p0 (snd st) ->
  foldlM (scan_match C uuid4 self note_path scanned) st ms = Ok st' ->
  continues p0 (snd st').
Proof.
  revert st; induction ms as [|m ms IH]; intros st Hst.
  - now intros [= <-].
  - cbn [foldlM].
    destruct (scan_match C uuid4 self note_path scanned st m) as [st1|e] eqn:E;
      [|discriminate].
    cbn [mbind result_bind]. apply IH. now apply (scan_match_continues _ _ _ _ _ _ Hst E).
Qed.

Lemma scan_regex_continues (note_path : string) (regex : string -> list PathMatch)
    (p0 p p' : Progress) :
  continues p0 p ->
  scan_regex C uuid4 self note_path regex p = Ok p' -> continues p0 p'.
Proof.
  intros Hp. unfold scan_regex.
  destruct (foldlM _ _ _) as [[table p1]|e] eqn:E; [|discriminate].
  cbn [mbind result_bind]. intros [= <-].
  exact (scan_matches_continues note_path (content p) p0 _ (∅, p) (table, p1) Hp E).
Qed.

Lemma scan_assets_continues (note_path : string) (p p' : Progress) :
  scan_assets C X uuid4 self note_path p = Ok p' -> continues p p'.
Proof.
  unfold scan_assets. cbn [foldlM].
  destruct (scan_regex C uuid4 self note_path (REGEX_FILE X) p) as [p1|e] eqn:E1;
    [|discriminate].
  cbn [mbind result_bind].
  destruct (scan_regex C uuid4 self note_path (REGEX_IMAGE X) p1) as [p2|e] eqn:E2;
    [|discriminate].
  cbn [mbind result_bind]. intros [= <-].
  apply (scan_regex_continues _ _ _ _ _ (scan_regex_continues _ _ _ _ _
           (continues_refl p) E1) E2).
Qed.

(** What a full run of the migration of a note does to the files.  No
    file that was there is gone.  Every attachment returned has its file
    in the folder of the attachments, under the name returned and at the
    path where [_move_note] looks for it, and stands for one UUID drawn.
    The journal grows by one copy per attachment returned, to that path
    and in the order of the attachments, and then by the write of the
    note. *)
Theorem _standardize_note_copies (fs0 fs1 : FileSystem) (db db' : EvernoteDB.t)
    (drawn drawn' : nat) (note_folder : string) (note_metadata : NoteMetadata.t)
    (attachments : list AttachmentMetadata.t) :
  _standardize_note C X uuid4 normalize_string self fs0 db drawn note_folder
  = Ok (note_metadata, attachments, fs1, db', drawn') ->
  (forall q, is_Some (files fs0 !! q) -> is_Some (files fs1 !! q)) /\
  Forall (fun a => is_Some (files fs1 !! attachment_path C self a)) attachments /\
  drawn' = drawn + length attachments /\
  exists copies path content,
    journal fs1 = journal fs0 ++ copies ++ [Written path content] /\
    Forall2 (copy_of C self) copies attachments.
Proof.
  unfold _standardize_note.
  destruct (load_note_content fs0 _) as [content0|e]; [|discriminate].
  cbn [mbind result_bind].
  destruct (scan_assets C X uuid4 self _ _) as [p|e] eqn:E; [|discriminate].
  cbn [mbind result_bind].
  destruct (_get_note_filename C self (fs p) note_folder) as [path|]; [|discriminate].
  cbn [mbind result_bind]. rewrite full_run.
  apply scan_assets_continues in E as (Hkeep & copies & atts & Hj & Ha & Hc & Hf & Hd).
  cbn [fs attachments_metadata uuid_drawn app] in *.
  set (content1 := Converters.standardize_tags (content p)).
  assert (forall q, is_Some (files (fs p) !! q) ->
            is_Some (files (save_note_content (fs p) path content1) !! q)) as Hsave.
  { intros q Hq. cbn [save_note_content files].
    destruct (decide (path = q)) as [->|Hne];
      [rewrite lookup_insert_eq; eauto | now rewrite lookup_insert_ne]. }
  assert (forall (m : NoteMetadata.t) (d : EvernoteDB.t),
            Ok (m, attachments_metadata p, save_note_content (fs p) path content1, d,
                uuid_drawn p)
            = Ok (note_metadata, attachments, fs1, db', drawn') ->
            (forall q, is_Some (files fs0 !! q) -> is_Some (files fs1 !! q)) /\
            Forall (fun a => is_Some (files fs1 !! attachment_path C self a)) attachments /\
            drawn' = drawn + length attachments /\
            exists copies path content,
              journal fs1 = journal fs0 ++ copies ++ [Written path content] /\
              Forall2 (copy_of C self) copies attachments) as Hend.
  { intros m d [= <- <- <- <- <-]. rewrite Ha. split; [auto|]. split; [|split; [assumption|]].
    - eapply Forall_impl; [exact Hf|]. intros a Hq. now apply Hsave.
    - exists copies, path, content1. split; [|assumption].
      cbn [save_note_content journal]. now rewrite Hj, app_assoc. }
  destruct (EvernoteDB.is_connected db).
  - destruct (EvernoteDB.get_id_from_note _ _ _ _) as [[i db1]|e]; [|discriminate].
    cbn [mbind result_bind].
    destruct i as [[|c i]|]; cbn [mbind result_bind]; apply Hend.
  - cbn [mbind result_bind]. apply Hend.
Qed.

(** A note that was migrated is found by the move.  After a full run of
    the migration of a note, with an extension of the notes that holds no
    slash, the move of the note returned, from the folder of the notebook
    to another folder, finds the file of the note where it looks for it:
    when the move goes through, it has moved the note, and the file is
    no more at its source (unless the source is also a destination of
    the moves of the note). *)
Theorem _move_note_after_migration (fs0 fs1 fs2 : FileSystem) (db db' : EvernoteDB.t)
    (drawn drawn' : nat) (note_folder : string) (note_metadata : NoteMetadata.t)
    (attachments : list AttachmentMetadata.t) (move : EvernoteMove.t) (moved : bool) :
  has_char SLASH (NOTE_EXTENSION C) = false ->
  EvernoteMove.notebook_path move = notebook_path self ->
  _standardize_note C X uuid4 normalize_string self fs0 db drawn note_folder
  = Ok (note_metadata, attachments, fs1, db', drawn') ->
  EvernoteMove._move_note (ATTACHMENTS_FOLDER C) move fs1
    {| Note.body := note_metadata; Note.attachments := attachments |}
  = Ok (moved, fs2) ->
  moved = true /\
  (join (notebook_path self) (NoteMetadata.name note_metadata)
   ∉ map snd (Vocabulary.note_moves (ATTACHMENTS_FOLDER C) move
                {| Note.body := note_metadata; Note.attachments := attachments |}) ->
   files fs2 !! join (notebook_path self) (NoteMetadata.name note_metadata) = None).
Proof.
  intros Hext Hnb Hrun Hmove.
  destruct (_standardize_note_shape C X uuid4 normalize_string self _ _ _ _ _ _ _ _ _
              Hext Hrun) as (_ & _ & Hwritten & _).
  destruct (Hwritten full_run) as (content & before & Hfs1 & _).
  destruct (_move_note_moves _ _ _ _ _ _ Hmove) as [Hmoves Hflag].
  cbn [Note.body] in Hflag. rewrite Hnb in Hflag. split.
  - rewrite Hflag, Hfs1. unfold path_exists. apply bool_decide_eq_true.
    cbn [save_note_content files]. rewrite lookup_insert_eq. eauto.
  - intros Hout. apply (run_moves_absent _ _ _ _ Hmoves Hout). right.
    cbn [Vocabulary.note_moves map fst Note.body]. rewrite Hnb. apply list_elem_of_here.
Qed.

End Copies.

Lemma _standardize_note_copies_witness :
  is_Some (OS.files Samples.sample_migrated_fs
             !! "nb/attachments/0b5c1d2e-3f4a-4b6c-8d7e-9f0a1b2c3d4e.png") /\
  is_Some (OS.files Samples.sample_migrated_fs !! "nb/My Note/README.md").
Proof.
  destruct (_standardize_note_copies Samples.sample_constants Samples.sample_extractors_note
              Samples.sample_uuid4 (fun s => s) Samples.sample_self eq_refl
              Samples.sample_note_fs Samples.sample_migrated_fs
              (EvernoteDB.init (Some Samples.sample_rows)) Samples.sample_migrated_db
              0 1 "My Note" Samples.sample_migrated_note
              Samples.sample_migrated_attachments)
    as (Hkeep & Hatts & _); [vm_compute; reflexivity|].
  split.
  - exact (Forall_inv Hatts).
  - apply Hkeep. vm_compute. eauto.
Defined.

Lemma _move_note_after_migration_witness :
  exists fs2,
    EvernoteMove._move_note "attachments" Samples.sample_move Samples.sample_migrated_fs
      {| Note.body := Samples.sample_migrated_note;
         Note.attachments := Samples.sample_migrated_attachments |}
    = Ok (true, fs2) /\
    OS.files fs2 !! "nb/My Note.md" = None.
Proof.
  eexists. split; [vm_compute; reflexivity|].
  refine (proj2 (_move_note_after_migration Samples.sample_constants
                   Samples.sample_extractors_note Samples.sample_uuid4 (fun s => s)
                   Samples.sample_self eq_refl
                   Samples.sample_note_fs Samples.sample_migrated_fs _
                   (EvernoteDB.init (Some Samples.sample_rows)) Samples.sample_migrated_db
                   0 1 "My Note" Samples.sample_migrated_note
                   Samples.sample_migrated_attachments Samples.sample_move true
                   eq_refl eq_refl _ _) _).
  - vm_compute. reflexivity.
  - vm_compute. reflexivity.
  - vm_compute. intros H. repeat (apply elem_of_cons in H as [H|H]; [discriminate H|]).
    inversion H.
Defined.
